(** * Sales analytics: a shallow embedding of [analyzeSalesData]

    The repository holds two revisions of the same script:
    - [src/src/main.js]      (module [Main] below),
    - [src/unnamed/part_000] (module [Part000] below).

    Both export [calculateSimpleRevenue], [calculateBonusByProfit] and
    [analyzeSalesData].  The embedding follows the JavaScript text
    statement by statement.

    Modelling conventions.
    - JavaScript numbers are exact rationals ([Q]), kept in lowest terms
      after every arithmetic operation so that equal numbers are equal
      terms.  Binary64 rounding and the infinities are not modelled; [NaN]
      is modelled where the code can produce it from a missing property.
    - The array elements handed to the function are typed records; the
      outer shell ([data], [options] and their properties) is dynamic, as
      this is what the validation prologue inspects.
    - Objects used as dictionaries ([sellerIndex], [productIndex]) are
      finite maps from property keys (strings); [products_sold], whose
      enumeration order is observable through [Object.entries], is an
      association list in creation order.
    - Modules [Main] and [Part000] read these dictionaries by own property
      only.  Modules [MainProto] and [Part000Proto] are the same two scripts
      with every read [o[key]] going through the prototype chain, so that a
      key such as "constructor" finds a built-in object: they say what the
      scripts do on every input, and agree with [Main] and [Part000] on
      inputs none of whose keys is inherited from [Object.prototype].
    - [sellerStats] is an array of mutable accumulator objects which
      [sellerIndex] aliases: the store is the list of accumulators and the
      index maps a seller id to a position in that list. *)

From Stdlib Require Import QArith Qround Qabs ZArith Ascii String DecimalString Lqa.
From stdpp Require Import base list strings gmap sorting.

Local Open Scope string_scope.
Local Open Scope list_scope.
Local Open Scope Z_scope.

(** ** Numbers *)

Module Num.

(** [a + b], [a - b], [a * b], [a / b] on finite numbers. *)
Definition add (a b : Q) : Q := Qred (a + b).
Definition sub (a b : Q) : Q := Qred (a - b).
Definition mul (a b : Q) : Q := Qred (a * b).
Definition div (a b : Q) : Q := Qred (a / b).

(** A number that may be [NaN]. *)
Inductive t : Type :=
| Fin (q : Q)
| NaN.

(** [ToNumber] of a property that may be absent: [undefined] gives [NaN]. *)
Definition of_property (p : option Q) : t :=
  match p with
  | Some q => Fin q
  | None => NaN
  end.

(** [a + b] where either side may be [NaN]. *)
Definition add_nan (a b : t) : t :=
  match a, b with
  | Fin x, Fin y => Fin (add x y)
  | _, _ => NaN
  end.

(** The digits chosen by [Number.prototype.toFixed(2)]: the sign is
    split off first, then [n] is the integer for which [n / 100 - |x|] is
    closest to zero, the larger one on a tie. *)
Record fixed2 : Type := Fixed2 { negative : bool; cents : Z }.

Definition toFixed2_digits (x : Q) : fixed2 :=
  {| negative := negb (Qle_bool 0 x);
     cents := Qfloor (Qabs x * 100 + (1 # 2))%Q |}.

Definition two_digits (n : Z) : string :=
  let s := NilZero.string_of_uint (N.to_uint (Z.to_N n)) in
  if n <? 10 then "0" +:+ s else s.

(** The string printed by [toFixed(2)], e.g. ["40.00"] or ["-0.13"], for
    a magnitude below [1e21]; from [1e21] on JavaScript prints the exponent
    form of the binary64 value, which is not modelled: statements about the
    printed text are made below that bound. *)
Definition render (d : fixed2) : string :=
  (if negative d then "-" else "")
    +:+ NilZero.string_of_uint (N.to_uint (Z.to_N (cents d / 100)))
    +:+ "." +:+ two_digits (cents d mod 100).

(** Unary [+] applied to such a string. *)
Definition value (d : fixed2) : Q :=
  Qred (inject_Z (if negative d then - cents d else cents d) / 100)%Q.

(** [x.toFixed(2)] *)
Definition toFixed2 (x : Q) : string := render (toFixed2_digits x).

(** [+x.toFixed(2)] *)
Definition round2 (x : Q) : Q := value (toFixed2_digits x).

(** [+x.toFixed(2)] where [x] may be [NaN]: ["NaN"] converts back to [NaN]. *)
Definition round2_nan (x : t) : t :=
  match x with
  | Fin q => Fin (round2 q)
  | NaN => NaN
  end.

(** [ToString] of an integer-valued number. *)
Definition Z_toString (z : Z) : string :=
  NilZero.string_of_int (Z.to_int z).

(** [a - b] and [a * b] where either side may be [NaN]. *)
Definition sub_nan (a b : t) : t :=
  match a, b with
  | Fin x, Fin y => Fin (sub x y)
  | _, _ => NaN
  end.

Definition mul_nan (a b : t) : t :=
  match a, b with
  | Fin x, Fin y => Fin (mul x y)
  | _, _ => NaN
  end.

(** The value [Array.prototype.sort] takes from its comparator: a result
    [NaN] counts as [0]. *)
Definition compare_value (v : t) : Q :=
  match v with
  | Fin q => q
  | NaN => 0
  end.

End Num.

(** ** Values of the dynamic shell *)

(** The values [data], [options] and their properties can hold besides the
    expected payload.  [VObject] is an object that is not an array, not a
    function and has none of the properties read by the script. *)
Inductive value (F : Type) : Type :=
| VUndefined
| VNull
| VBoolean (b : bool)
| VNumber (x : Num.t)
| VString (s : string)
| VObject
| VFunction (f : F).

Arguments VUndefined {F}.
Arguments VNull {F}.
Arguments VBoolean {F} b.
Arguments VNumber {F} x.
Arguments VString {F} s.
Arguments VObject {F}.
Arguments VFunction {F} f.

(** [!!v] *)
Definition truthy {F} (v : value F) : bool :=
  match v with
  | VUndefined | VNull => false
  | VBoolean b => b
  | VNumber (Num.Fin q) => negb (Qeq_bool q 0)
  | VNumber Num.NaN => false
  | VString s => negb (String.eqb s "")
  | VObject | VFunction _ => true
  end.

(** [typeof v] *)
Definition typeof {F} (v : value F) : string :=
  match v with
  | VUndefined => "undefined"
  | VNull => "object"
  | VBoolean _ => "boolean"
  | VNumber _ => "number"
  | VString _ => "string"
  | VObject => "object"
  | VFunction _ => "function"
  end.

(** A property expected to hold an array of [A]. *)
Inductive slot (A : Type) : Type :=
| Other (v : value unit)
| Arr (elems : list A).

Arguments Other {A} v.
Arguments Arr {A} elems.

Definition slot_truthy {A} (s : slot A) : bool :=
  match s with
  | Other v => truthy v
  | Arr _ => true
  end.

(** [Array.isArray(s)] *)
Definition isArray {A} (s : slot A) : bool :=
  match s with
  | Other _ => false
  | Arr _ => true
  end.

(** [s.length], read only once [s] is known to be an array. *)
Definition slot_length {A} (s : slot A) : nat :=
  match s with
  | Other _ => 0%nat
  | Arr l => length l
  end.

Definition slot_elems {A} (s : slot A) : list A :=
  match s with
  | Other _ => []
  | Arr l => l
  end.

(** Exceptions and completion of a call. *)
Inductive error : Type :=
| Error (message : string)
| TypeError (message : string).

Inductive result (A : Type) : Type :=
| Return (v : A)
| Throw (e : error).

Arguments Return {A} v.
Arguments Throw {A} e.

(** ** Input records *)

Module Seller.
Record t : Type := Make { id : string; first_name : string; last_name : string }.
End Seller.

Module Product.
Record t : Type := Make { sku : string; name : string; purchase_price : Q }.
End Product.

Module Item.
Record t : Type :=
  Make { sku : string; sale_price : Q; discount : Q; quantity : Q }.
End Item.

Module PurchaseRecord.
(** [total_amount] is [None] when the record carries no such property. *)
Record t : Type :=
  Make { seller_id : string; total_amount : option Q; items : list Item.t }.
End PurchaseRecord.

(** The [data] argument. *)
Inductive data_arg : Type :=
| DataValue (v : value unit)
| DataObject (purchase_records : slot PurchaseRecord.t)
             (products : slot Product.t)
             (sellers : slot Seller.t).

Definition data_truthy (d : data_arg) : bool :=
  match d with
  | DataValue v => truthy v
  | DataObject _ _ _ => true
  end.

Definition data_typeof (d : data_arg) : string :=
  match d with
  | DataValue v => typeof v
  | DataObject _ _ _ => "object"
  end.

(** [data.purchase_records], [data.products], [data.sellers]; an object
    without the property yields [undefined]. *)
Definition data_purchase_records (d : data_arg) : slot PurchaseRecord.t :=
  match d with
  | DataValue _ => Other VUndefined
  | DataObject r _ _ => r
  end.

Definition data_products (d : data_arg) : slot Product.t :=
  match d with
  | DataValue _ => Other VUndefined
  | DataObject _ p _ => p
  end.

Definition data_sellers (d : data_arg) : slot Seller.t :=
  match d with
  | DataValue _ => Other VUndefined
  | DataObject _ _ s => s
  end.

(** ** Built-ins used by both revisions *)

(** [Object.fromEntries]: later entries overwrite earlier ones. *)
Definition Object_fromEntries {V} (entries : list (string * V)) : gmap string V :=
  foldl (fun m kv => <[kv.1 := kv.2]> m) ∅ entries.

(** [Array.prototype.sort(comparefn)]: the sort is stable; [x] moves behind
    [y] only when [comparefn(x, y) > 0]. *)
Fixpoint sort_insert {A} (comparefn : A -> A -> Q) (x : A) (l : list A) : list A :=
  match l with
  | [] => [x]
  | y :: l' =>
      if Qle_bool (comparefn x y) 0 then x :: y :: l'
      else y :: sort_insert comparefn x l'
  end.

Definition Array_sort {A} (comparefn : A -> A -> Q) (l : list A) : list A :=
  foldr (sort_insert comparefn) [] l.

(** [Array.prototype.slice(0, n)] *)
Definition Array_slice0 {A} (n : nat) (l : list A) : list A := take n l.

(** Property keys that are array indices: canonical decimal numerals below
    [2^32 - 1].  [Object.entries] lists them first, in ascending order. *)
Definition is_digit (c : Ascii.ascii) : bool :=
  let n := nat_of_ascii c in (48 <=? n)%nat && (n <=? 57)%nat.

Fixpoint digits_value (acc : N) (s : string) : option N :=
  match s with
  | EmptyString => Some acc
  | String c s' =>
      if is_digit c
      then digits_value (10 * acc + N.of_nat (nat_of_ascii c - 48))%N s'
      else None
  end.

Definition array_index (key : string) : option N :=
  match key with
  | EmptyString => None
  | String c rest =>
      if Ascii.eqb c "0" && negb (String.eqb rest "") then None
      else
        match digits_value 0 key with
        | Some n => if (n <? 4294967295)%N then Some n else None
        | None => None
        end
  end.

Fixpoint index_insert {V} (n : N) (kv : string * V)
    (l : list (N * (string * V))) : list (N * (string * V)) :=
  match l with
  | [] => [(n, kv)]
  | (m, kv') :: l' =>
      if (n <? m)%N then (n, kv) :: (m, kv') :: l'
      else (m, kv') :: index_insert n kv l'
  end.

(** Own keys of an object whose properties were created in the order of
    [props]: array indices ascending, then the other keys in creation order. *)
Definition index_props {V} (props : list (string * V)) : list (N * (string * V)) :=
  foldr (fun kv acc =>
           match array_index kv.1 with
           | Some n => index_insert n kv acc
           | None => acc
           end) [] props.

Definition named_props {V} (props : list (string * V)) : list (string * V) :=
  filter (fun kv => array_index kv.1 = None) props.

(** [Object.entries(o)] *)
Definition Object_entries {V} (props : list (string * V)) : list (string * V) :=
  (snd <$> index_props props) ++ named_props props.

(** [o[key]] on an object whose own properties are [props]. *)
Fixpoint get_prop {V} (key : string) (props : list (string * V)) : option V :=
  match props with
  | [] => None
  | (k, v) :: props' => if String.eqb k key then Some v else get_prop key props'
  end.

(** [o[key] = v] for a key that is not yet an own property. *)
Definition add_prop {V} (key : string) (v : V) (props : list (string * V))
  : list (string * V) := props ++ [(key, v)].

(** In-place update of the object stored under [key]. *)
Fixpoint update_prop {V} (key : string) (f : V -> V) (props : list (string * V))
  : list (string * V) :=
  match props with
  | [] => []
  | (k, v) :: props' =>
      if String.eqb k key then (k, f v) :: props'
      else (k, v) :: update_prop key f props'
  end.

(** ** calculateSimpleRevenue (identical in both revisions) *)

Definition calculateSimpleRevenue (purchase : Item.t) (_product : Product.t) : Q :=
  let discount := Item.discount purchase in
  let sale_price := Item.sale_price purchase in
  let quantity := Item.quantity purchase in
  let discountCoefficient := Num.sub 1 (Num.div discount 100) in
  Num.mul (Num.mul sale_price quantity) discountCoefficient.

(** ** src/src/main.js, with own-property reads *)

Module Main.

(** The objects stored in [seller.products_sold]. *)
Module ProductData.
Record t : Type :=
  Make { quantity : Q; revenue : Q; profit : Q; name : string }.
End ProductData.

(** The accumulator objects of [sellerStats]. *)
Module Stat.
Record t : Type :=
  Make { seller_id : string;
         name : string;
         revenue : Num.t;
         profit : Q;
         sales_count : Z;
         products_sold : list (string * ProductData.t) }.
End Stat.

(** Entries of [seller.top_products]. *)
Module TopProduct.
Record t : Type :=
  Make { sku : string; name : string; quantity : Q; revenue : Q; profit : Q }.
End TopProduct.

(** An accumulator after the bonus pass. *)
Module Ranked.
Record t : Type :=
  Make { stat : Stat.t;
         bonus : Q;
         bonus_rate : Q;
         rank : Z;
         top_products : list TopProduct.t }.
End Ranked.

(** The records of the returned array. *)
Module Report.
Record t : Type :=
  Make { seller_id : string;
         name : string;
         revenue : Num.t;
         profit : Q;
         sales_count : Z;
         top_products : list (string * Q);
         bonus : Q }.
End Report.

Definition RevenueStrategy : Type := Item.t -> Product.t -> Q.
Definition BonusStrategy : Type := Z -> Z -> Stat.t -> Q.

(** The [options] argument. *)
Inductive options_arg : Type :=
| OptionsValue (v : value unit)
| OptionsObject (calculateRevenue : value RevenueStrategy)
                (calculateBonusByProfit : value BonusStrategy).

Definition options_truthy (o : options_arg) : bool :=
  match o with
  | OptionsValue v => truthy v
  | OptionsObject _ _ => true
  end.

Definition options_typeof (o : options_arg) : string :=
  match o with
  | OptionsValue v => typeof v
  | OptionsObject _ _ => "object"
  end.

Definition options_calculateRevenue (o : options_arg) : value RevenueStrategy :=
  match o with
  | OptionsValue _ => VUndefined
  | OptionsObject r _ => r
  end.

Definition options_calculateBonusByProfit (o : options_arg) : value BonusStrategy :=
  match o with
  | OptionsValue _ => VUndefined
  | OptionsObject _ b => b
  end.

(** [calculateBonusByProfit(index, total, seller)] *)
Definition calculateBonusByProfit (index total : Z) (seller : Stat.t) : Q :=
  if index =? 0 then Num.mul 0.15 1000
  else if (index =? 1) || (index =? 2) then Num.mul 0.1 1000
  else if index =? total - 1 then Num.mul 0.0 1000
  else Num.mul 0.05 1000.

(** [data.sellers.map((seller) => ({ ... }))] *)
Definition new_stat (seller : Seller.t) : Stat.t :=
  {| Stat.seller_id := Seller.id seller;
     Stat.name := Seller.first_name seller +:+ " " +:+ Seller.last_name seller;
     Stat.revenue := Num.Fin 0;
     Stat.profit := 0;
     Stat.sales_count := 0;
     Stat.products_sold := [] |}.

(** [sellerIndex]: a seller id is mapped to the position of its
    accumulator in [sellerStats]. *)
Definition sellerIndex (sellerStats : list Stat.t) : gmap string nat :=
  Object_fromEntries (imap (fun i stat => (Stat.seller_id stat, i)) sellerStats).

Definition productIndex (products : list Product.t) : gmap string Product.t :=
  Object_fromEntries (map (fun product => (Product.sku product, product)) products).

Definition new_product_data (product : Product.t) : ProductData.t :=
  {| ProductData.quantity := 0;
     ProductData.revenue := 0;
     ProductData.profit := 0;
     ProductData.name := Product.name product |}.

Definition add_sale (quantity revenue profit : Q) (d : ProductData.t) : ProductData.t :=
  {| ProductData.quantity := Num.add (ProductData.quantity d) quantity;
     ProductData.revenue := Num.add (ProductData.revenue d) revenue;
     ProductData.profit := Num.add (ProductData.profit d) profit;
     ProductData.name := ProductData.name d |}.

Section Aggregation.
Variable calculateRevenue : RevenueStrategy.
Variable products : gmap string Product.t.

(** The statements of the item callback that follow the guard
    [if (!product) return], acting on the accumulator [seller]. *)
Definition credit_item (seller : Stat.t) (item : Item.t) (product : Product.t)
  : Stat.t :=
  let cost := Num.mul (Product.purchase_price product) (Item.quantity item) in
  let revenue := calculateRevenue item product in
  let profit := Num.sub revenue cost in
  let sold :=
    match get_prop (Item.sku item) (Stat.products_sold seller) with
    | None =>
        add_prop (Item.sku item) (new_product_data product)
          (Stat.products_sold seller)
    | Some _ => Stat.products_sold seller
    end in
  {| Stat.seller_id := Stat.seller_id seller;
     Stat.name := Stat.name seller;
     Stat.revenue := Stat.revenue seller;
     Stat.profit := Num.add (Stat.profit seller) profit;
     Stat.sales_count := Stat.sales_count seller;
     Stat.products_sold :=
       update_prop (Item.sku item)
         (add_sale (Item.quantity item) revenue profit) sold |}.

(** Body of [record.items.forEach((item) => { ... })]. *)
Definition process_item (seller : Stat.t) (item : Item.t) : Stat.t :=
  match products !! Item.sku item with
  | None => seller
  | Some product => credit_item seller item product
  end.

(** The statements of the record callback that precede the item loop. *)
Definition count_sale (record : PurchaseRecord.t) (seller : Stat.t) : Stat.t :=
  {| Stat.seller_id := Stat.seller_id seller;
     Stat.name := Stat.name seller;
     Stat.revenue :=
       Num.add_nan (Stat.revenue seller)
         (Num.of_property (PurchaseRecord.total_amount record));
     Stat.profit := Stat.profit seller;
     Stat.sales_count := Stat.sales_count seller + 1;
     Stat.products_sold := Stat.products_sold seller |}.

(** What the record callback does to the accumulator it found. *)
Definition apply_record (record : PurchaseRecord.t) (seller : Stat.t) : Stat.t :=
  foldl process_item (count_sale record seller) (PurchaseRecord.items record).

Variable sellers : gmap string nat.

(** Body of [data.purchase_records.forEach((record) => { ... })],
    acting on the array of accumulators. *)
Definition process_record (sellerStats : list Stat.t) (record : PurchaseRecord.t)
  : list Stat.t :=
  match sellers !! PurchaseRecord.seller_id record with
  | None => sellerStats
  | Some k => alter (apply_record record) k sellerStats
  end.
End Aggregation.

(** The accumulators after the [forEach] over [data.purchase_records]. *)
Definition aggregate (calculateRevenue : RevenueStrategy)
    (sellers : list Seller.t) (products : list Product.t)
    (purchase_records : list PurchaseRecord.t) : list Stat.t :=
  let sellerStats := map new_stat sellers in
  foldl (process_record calculateRevenue (productIndex products)
           (sellerIndex sellerStats))
    sellerStats purchase_records.

(** [sellerStats.sort((a, b) => b.profit - a.profit)] *)
Definition sortedSellers (sellerStats : list Stat.t) : list Stat.t :=
  Array_sort (fun a b => Num.sub (Stat.profit b) (Stat.profit a)) sellerStats.

(** [Object.entries(seller.products_sold).map(...).sort(...).slice(0, 10)] *)
Definition top_products_of (seller : Stat.t) : list TopProduct.t :=
  Array_slice0 10
    (Array_sort
       (fun a b => Num.sub (TopProduct.quantity b) (TopProduct.quantity a))
       (map (fun '(sku, productData) =>
               {| TopProduct.sku := sku;
                  TopProduct.name := ProductData.name productData;
                  TopProduct.quantity := ProductData.quantity productData;
                  TopProduct.revenue := Num.round2 (ProductData.revenue productData);
                  TopProduct.profit := Num.round2 (ProductData.profit productData) |})
          (Object_entries (Stat.products_sold seller)))).

(** Callback of [sortedSellers.map((seller, index) => { ... })]. *)
Definition assign_bonus (calculateBonusByProfit : BonusStrategy)
    (totalSellers : Z) (index : nat) (seller : Stat.t) : Ranked.t :=
  let bonusRate := calculateBonusByProfit (Z.of_nat index) totalSellers seller in
  let bonusAmount := Num.mul (Stat.profit seller) bonusRate in
  {| Ranked.stat := seller;
     Ranked.bonus := Num.round2 bonusAmount;
     Ranked.bonus_rate := bonusRate;
     Ranked.rank := Z.of_nat index + 1;
     Ranked.top_products := top_products_of seller |}.

Definition sellersWithBonuses (calculateBonusByProfit : BonusStrategy)
    (sorted : list Stat.t) : list Ranked.t :=
  let totalSellers := Z.of_nat (length sorted) in
  imap (assign_bonus calculateBonusByProfit totalSellers) sorted.

(** Callback of [sellersWithBonuses.map((seller) => ({ ... }))]. *)
Definition project (seller : Ranked.t) : Report.t :=
  {| Report.seller_id := Stat.seller_id (Ranked.stat seller);
     Report.name := Stat.name (Ranked.stat seller);
     Report.revenue := Num.round2_nan (Stat.revenue (Ranked.stat seller));
     Report.profit := Num.round2 (Stat.profit (Ranked.stat seller));
     Report.sales_count := Stat.sales_count (Ranked.stat seller);
     Report.top_products :=
       map (fun product => (TopProduct.sku product, TopProduct.quantity product))
         (Ranked.top_products seller);
     Report.bonus := Ranked.bonus seller |}.

(** Everything after the validation prologue. *)
Definition ranked (calculateRevenue : RevenueStrategy)
    (calculateBonusByProfit : BonusStrategy)
    (sellers : list Seller.t) (products : list Product.t)
    (purchase_records : list PurchaseRecord.t) : list Ranked.t :=
  sellersWithBonuses calculateBonusByProfit
    (sortedSellers (aggregate calculateRevenue sellers products purchase_records)).

Definition finalResult (calculateRevenue : RevenueStrategy)
    (calculateBonusByProfit : BonusStrategy)
    (sellers : list Seller.t) (products : list Product.t)
    (purchase_records : list PurchaseRecord.t) : list Report.t :=
  map project
    (ranked calculateRevenue calculateBonusByProfit sellers products purchase_records).

(** [analyzeSalesData(data, options)] *)
Definition analyzeSalesData (data : data_arg) (options : options_arg)
  : result (list Report.t) :=
  if negb (data_truthy data) || negb (String.eqb (data_typeof data) "object")
  then Throw (Error "Данные не предоставлены или имеют неверный формат")
  else if negb (slot_truthy (data_purchase_records data))
          || negb (isArray (data_purchase_records data))
          || (slot_length (data_purchase_records data) =? 0)%nat
  then Throw (Error "Отсутствуют или некорректны записи о покупках")
  else if negb (slot_truthy (data_products data))
          || negb (isArray (data_products data))
          || (slot_length (data_products data) =? 0)%nat
  then Throw (Error "Отсутствуют или некорректны данные о товарах")
  else if negb (slot_truthy (data_sellers data))
          || negb (isArray (data_sellers data))
          || (slot_length (data_sellers data) =? 0)%nat
  then Throw (Error "Отсутствуют или некорректны данные о продавцах")
  else if negb (options_truthy options)
          || negb (String.eqb (options_typeof options) "object")
  then Throw (Error "Опции не предоставлены")
  else
    match options_calculateRevenue options with
    | VFunction calculateRevenue =>
        match options_calculateBonusByProfit options with
        | VFunction calculateBonusByProfit =>
            Return
              (finalResult calculateRevenue calculateBonusByProfit
                 (slot_elems (data_sellers data))
                 (slot_elems (data_products data))
                 (slot_elems (data_purchase_records data)))
        | _ => Throw (Error "Функция calculateBonusByProfit не предоставлена")
        end
    | _ => Throw (Error "Функция calculateRevenue не предоставлена")
    end.

End Main.

(** [Array.prototype.map] with a callback that may throw: the first
    exception aborts the traversal. *)
Fixpoint Array_map_throwing {A B} (callback : A -> result B) (l : list A)
  : result (list B) :=
  match l with
  | [] => Return []
  | x :: l' =>
      match callback x with
      | Throw e => Throw e
      | Return y =>
          match Array_map_throwing callback l' with
          | Throw e => Throw e
          | Return ys => Return (y :: ys)
          end
      end
  end.

(** ** src/unnamed/part_000, with own-property reads *)

Module Part000.

(** What [seller.revenue] can hold in this revision: the number it was
    initialised with, or the string left by [+=] with a string operand. *)
Inductive revenue_value : Type :=
| RevNumber (z : Z)
| RevString (s : string).

(** [v += s] for a string [s]: concatenation after [ToString(v)]. *)
Definition append_string (v : revenue_value) (s : string) : revenue_value :=
  match v with
  | RevNumber z => RevString (Num.Z_toString z +:+ s)
  | RevString t => RevString (t +:+ s)
  end.

Module ProductData.
Record t : Type := Make { quantity : Q; revenue : Q; profit : Q }.
End ProductData.

Module Stat.
Record t : Type :=
  Make { seller_id : string;
         name : string;
         revenue : revenue_value;
         profit : Q;
         sales_count : Z;
         products_sold : list (string * ProductData.t) }.
End Stat.

(** An accumulator after the bonus pass; [top_products] holds
    [(sku, quantity)] pairs. *)
Module Ranked.
Record t : Type :=
  Make { stat : Stat.t; bonus : Q; top_products : list (string * Q) }.
End Ranked.

Module Report.
Record t : Type :=
  Make { seller_id : string;
         name : string;
         revenue : Q;
         profit : Q;
         sales_count : Z;
         top_products : list (string * Q);
         bonus : Q }.
End Report.

Definition RevenueStrategy : Type := Item.t -> Product.t -> Q.
Definition BonusStrategy : Type := Z -> Z -> Stat.t -> Q.

Inductive options_arg : Type :=
| OptionsValue (v : value unit)
| OptionsObject (calculateRevenue : value RevenueStrategy)
                (calculateBonus : value BonusStrategy).

Definition options_truthy (o : options_arg) : bool :=
  match o with
  | OptionsValue v => truthy v
  | OptionsObject _ _ => true
  end.

Definition options_typeof (o : options_arg) : string :=
  match o with
  | OptionsValue v => typeof v
  | OptionsObject _ _ => "object"
  end.

Definition options_calculateRevenue (o : options_arg) : value RevenueStrategy :=
  match o with
  | OptionsValue _ => VUndefined
  | OptionsObject r _ => r
  end.

Definition options_calculateBonus (o : options_arg) : value BonusStrategy :=
  match o with
  | OptionsValue _ => VUndefined
  | OptionsObject _ b => b
  end.

(** [calculateBonusByProfit(index, total, seller)] *)
Definition calculateBonusByProfit (index total : Z) (seller : Stat.t) : Q :=
  if index =? 0 then Num.mul (Stat.profit seller) 0.15
  else if (index =? 1) || (index =? 2) then Num.mul (Stat.profit seller) 0.1
  else if index =? total - 1 then Num.mul (Stat.profit seller) 0.0
  else Num.mul (Stat.profit seller) 0.05.

Definition new_stat (seller : Seller.t) : Stat.t :=
  {| Stat.seller_id := Seller.id seller;
     Stat.name := Seller.first_name seller +:+ " " +:+ Seller.last_name seller;
     Stat.revenue := RevNumber 0;
     Stat.profit := 0;
     Stat.sales_count := 0;
     Stat.products_sold := [] |}.

Definition sellerIndex (sellerStats : list Stat.t) : gmap string nat :=
  Object_fromEntries (imap (fun i stat => (Stat.seller_id stat, i)) sellerStats).

Definition productIndex (products : list Product.t) : gmap string Product.t :=
  Object_fromEntries (map (fun product => (Product.sku product, product)) products).

Definition new_product_data : ProductData.t :=
  {| ProductData.quantity := 0;
     ProductData.revenue := 0;
     ProductData.profit := 0 |}.

Definition add_sale (quantity revenue profit : Q) (d : ProductData.t) : ProductData.t :=
  {| ProductData.quantity := Num.add (ProductData.quantity d) quantity;
     ProductData.revenue := Num.add (ProductData.revenue d) revenue;
     ProductData.profit := Num.add (ProductData.profit d) profit |}.

Section Aggregation.
Variable calculateRevenue : RevenueStrategy.
Variable products : gmap string Product.t.

Definition credit_item (seller : Stat.t) (item : Item.t) (product : Product.t)
  : Stat.t :=
  let cost := Num.mul (Product.purchase_price product) (Item.quantity item) in
  let revenue := calculateRevenue item product in
  let profit := Num.sub revenue cost in
  let sold :=
    match get_prop (Item.sku item) (Stat.products_sold seller) with
    | None =>
        add_prop (Item.sku item) new_product_data (Stat.products_sold seller)
    | Some _ => Stat.products_sold seller
    end in
  {| Stat.seller_id := Stat.seller_id seller;
     Stat.name := Stat.name seller;
     Stat.revenue := append_string (Stat.revenue seller) (Num.toFixed2 revenue);
     Stat.profit := Num.add (Stat.profit seller) profit;
     Stat.sales_count := Stat.sales_count seller;
     Stat.products_sold :=
       update_prop (Item.sku item)
         (add_sale (Item.quantity item) revenue profit) sold |}.

Definition process_item (seller : Stat.t) (item : Item.t) : Stat.t :=
  match products !! Item.sku item with
  | None => seller
  | Some product => credit_item seller item product
  end.

Definition count_sale (seller : Stat.t) : Stat.t :=
  {| Stat.seller_id := Stat.seller_id seller;
     Stat.name := Stat.name seller;
     Stat.revenue := Stat.revenue seller;
     Stat.profit := Stat.profit seller;
     Stat.sales_count := Stat.sales_count seller + 1;
     Stat.products_sold := Stat.products_sold seller |}.

Definition apply_record (record : PurchaseRecord.t) (seller : Stat.t) : Stat.t :=
  foldl process_item (count_sale seller) (PurchaseRecord.items record).

Variable sellers : gmap string nat.

Definition process_record (sellerStats : list Stat.t) (record : PurchaseRecord.t)
  : list Stat.t :=
  match sellers !! PurchaseRecord.seller_id record with
  | None => sellerStats
  | Some k => alter (apply_record record) k sellerStats
  end.
End Aggregation.

Definition aggregate (calculateRevenue : RevenueStrategy)
    (sellers : list Seller.t) (products : list Product.t)
    (purchase_records : list PurchaseRecord.t) : list Stat.t :=
  let sellerStats := map new_stat sellers in
  foldl (process_record calculateRevenue (productIndex products)
           (sellerIndex sellerStats))
    sellerStats purchase_records.

Definition sortedSellers (sellerStats : list Stat.t) : list Stat.t :=
  Array_sort (fun a b => Num.sub (Stat.profit b) (Stat.profit a)) sellerStats.

Definition top_products_of (seller : Stat.t) : list (string * Q) :=
  Array_slice0 10
    (Array_sort
       (fun a b => Num.sub (snd b) (snd a))
       (map (fun '(sku, productData) => (sku, ProductData.quantity productData))
          (Object_entries (Stat.products_sold seller)))).

(** Callback of [sortedSellers.forEach((seller, index) => { ... })]. *)
Definition assign_bonus (calculateBonus : BonusStrategy)
    (totalSellers : Z) (index : nat) (seller : Stat.t) : Ranked.t :=
  let bonusAmount := calculateBonus (Z.of_nat index) totalSellers seller in
  {| Ranked.stat := seller;
     Ranked.bonus := Num.round2 bonusAmount;
     Ranked.top_products := top_products_of seller |}.

Definition withBonuses (calculateBonus : BonusStrategy) (sorted : list Stat.t)
  : list Ranked.t :=
  let totalSellers := Z.of_nat (length sorted) in
  imap (assign_bonus calculateBonus totalSellers) sorted.

(** [+seller.revenue.toFixed(2)]: strings have no [toFixed] method. *)
Definition revenue_toFixed2 (v : revenue_value) : result Q :=
  match v with
  | RevNumber z => Return (Num.round2 (inject_Z z))
  | RevString _ => Throw (TypeError "seller.revenue.toFixed is not a function")
  end.

(** Callback of [sortedSellers.map((seller) => ({ ... }))]. *)
Definition project (seller : Ranked.t) : result Report.t :=
  match revenue_toFixed2 (Stat.revenue (Ranked.stat seller)) with
  | Throw e => Throw e
  | Return revenue =>
      Return
        {| Report.seller_id := Stat.seller_id (Ranked.stat seller);
           Report.name := Stat.name (Ranked.stat seller);
           Report.revenue := revenue;
           Report.profit := Num.round2 (Stat.profit (Ranked.stat seller));
           Report.sales_count := Stat.sales_count (Ranked.stat seller);
           Report.top_products :=
             map (fun product => (fst product, snd product))
               (Ranked.top_products seller);
           Report.bonus := Ranked.bonus seller |}
  end.

Definition ranked (calculateRevenue : RevenueStrategy) (calculateBonus : BonusStrategy)
    (sellers : list Seller.t) (products : list Product.t)
    (purchase_records : list PurchaseRecord.t) : list Ranked.t :=
  withBonuses calculateBonus
    (sortedSellers (aggregate calculateRevenue sellers products purchase_records)).

Definition finalResult (calculateRevenue : RevenueStrategy)
    (calculateBonus : BonusStrategy)
    (sellers : list Seller.t) (products : list Product.t)
    (purchase_records : list PurchaseRecord.t) : result (list Report.t) :=
  Array_map_throwing project
    (ranked calculateRevenue calculateBonus sellers products purchase_records).

(** [analyzeSalesData(data, options)] *)
Definition analyzeSalesData (data : data_arg) (options : options_arg)
  : result (list Report.t) :=
  if negb (data_truthy data) || negb (String.eqb (data_typeof data) "object")
  then Throw (Error "Данные не предоставлены или имеют неверный формат")
  else if negb (slot_truthy (data_purchase_records data))
          || negb (isArray (data_purchase_records data))
          || (slot_length (data_purchase_records data) =? 0)%nat
  then Throw (Error "Отсутствуют или некорректны записи о покупках")
  else if negb (slot_truthy (data_products data))
          || negb (isArray (data_products data))
          || (slot_length (data_products data) =? 0)%nat
  then Throw (Error "Отсутствуют или некорректны данные о товарах")
  else if negb (slot_truthy (data_sellers data))
          || negb (isArray (data_sellers data))
          || (slot_length (data_sellers data) =? 0)%nat
  then Throw (Error "Отсутствуют или некорректны данные о продавцах")
  else if negb (options_truthy options)
          || negb (String.eqb (options_typeof options) "object")
  then Throw (Error "Опции не предоставлены")
  else
    match options_calculateRevenue options with
    | VFunction calculateRevenue =>
        match options_calculateBonus options with
        | VFunction calculateBonus =>
            finalResult calculateRevenue calculateBonus
              (slot_elems (data_sellers data))
              (slot_elems (data_products data))
              (slot_elems (data_purchase_records data))
        | _ => Throw (Error "Функция calculateBonusByProfit не предоставлена")
        end
    | _ => Throw (Error "Функция calculateSimpleRevenue не предоставлена")
    end.

End Part000.

(** * Property reads through the prototype chain

    [sellerIndex], [productIndex] and every [products_sold] are plain
    objects, and the source reads them with [o[key]].  Such a read finds an
    own property first and a property of [Object.prototype] next: for a key
    like "constructor" or "toString" that is not an own property the read
    gives a built-in object, which is truthy.  Modules [Main] and [Part000]
    above read own properties only.  Modules [MainProto] and [Part000Proto]
    below are the same two scripts with every such read going through
    [read]; they are the reference for every statement that speaks about an
    arbitrary input.

    The realm is taken as the language creates it: [Object.prototype] has
    the twelve properties listed in [Object_prototype_keys], and the built-in
    objects found through them have no property [purchase_price] and no
    property [products_sold].  The assignments the code makes through such a
    read land on built-in objects; they are not part of the value returned
    and are not recorded. *)

Definition Object_prototype_keys : list string :=
  [ "constructor"; "__defineGetter__"; "__defineSetter__"; "hasOwnProperty";
    "__lookupGetter__"; "__lookupSetter__"; "isPrototypeOf";
    "propertyIsEnumerable"; "toString"; "valueOf"; "__proto__";
    "toLocaleString" ].

Definition inherited (key : string) : bool :=
  existsb (String.eqb key) Object_prototype_keys.

(** What [o[key]] reads on a plain object [o]. *)
Inductive property (A : Type) : Type :=
| Own (v : A)
| Builtin (key : string)
| Absent.
Arguments Own {A} v.
Arguments Builtin {A} key.
Arguments Absent {A}.

(** [o[key]], [own] being the own property of [o] under [key], if any. *)
Definition read {A} (own : option A) (key : string) : property A :=
  match own with
  | Some v => Own v
  | None => if inherited key then Builtin key else Absent
  end.

(** The value [productIndex[item.sku]] once it has passed [if (!product)]. *)
Inductive product_arg : Type :=
| Catalogued (product : Product.t)
| BuiltinObject (key : string).

(** [product.purchase_price]: [undefined] on a built-in object. *)
Definition purchase_price_of (product : product_arg) : Num.t :=
  match product with
  | Catalogued product => Num.Fin (Product.purchase_price product)
  | BuiltinObject _ => Num.of_property None
  end.

(** The exception of [undefined[key]]. *)
Definition cannot_read (key : string) : error :=
  TypeError ("Cannot read properties of undefined (reading '" +:+ key +:+ "')").

(** [Array.prototype.forEach] over a store, with a callback that may throw. *)
Fixpoint forEach_throwing {S A} (callback : S -> A -> result S) (l : list A) (s : S)
  : result S :=
  match l with
  | [] => Return s
  | x :: l' =>
      match callback s x with
      | Throw e => Throw e
      | Return s' => forEach_throwing callback l' s'
      end
  end.

(** The item loop of a purchase record whose [seller_id] read a built-in
    object: the first line item that passes [if (!product)] reaches
    [seller.products_sold[item.sku]], where [seller.products_sold] is
    [undefined]. *)
Fixpoint builtin_seller_items (products : gmap string Product.t) (items : list Item.t)
  : result unit :=
  match items with
  | [] => Return tt
  | item :: items' =>
      match read (products !! Item.sku item) (Item.sku item) with
      | Absent => builtin_seller_items products items'
      | Own _ | Builtin _ => Throw (cannot_read (Item.sku item))
      end
  end.

(** ** src/src/main.js, with reads through the prototype chain *)

Module MainProto.

Module Stat.
Record t : Type :=
  Make { seller_id : string;
         name : string;
         revenue : Num.t;
         profit : Num.t;
         sales_count : Z;
         products_sold : list (string * Main.ProductData.t) }.
End Stat.

Module Ranked.
Record t : Type :=
  Make { stat : Stat.t;
         bonus : Num.t;
         bonus_rate : Num.t;
         rank : Z;
         top_products : list Main.TopProduct.t }.
End Ranked.

Module Report.
Record t : Type :=
  Make { seller_id : string;
         name : string;
         revenue : Num.t;
         profit : Num.t;
         sales_count : Z;
         top_products : list (string * Q);
         bonus : Num.t }.
End Report.

Definition RevenueStrategy : Type := Item.t -> product_arg -> Q.
Definition BonusStrategy : Type := Z -> Z -> Stat.t -> Num.t.

Inductive options_arg : Type :=
| OptionsValue (v : value unit)
| OptionsObject (calculateRevenue : value RevenueStrategy)
                (calculateBonusByProfit : value BonusStrategy).

Definition options_truthy (o : options_arg) : bool :=
  match o with
  | OptionsValue v => truthy v
  | OptionsObject _ _ => true
  end.

Definition options_typeof (o : options_arg) : string :=
  match o with
  | OptionsValue v => typeof v
  | OptionsObject _ _ => "object"
  end.

Definition options_calculateRevenue (o : options_arg) : value RevenueStrategy :=
  match o with
  | OptionsValue _ => VUndefined
  | OptionsObject r _ => r
  end.

Definition options_calculateBonusByProfit (o : options_arg) : value BonusStrategy :=
  match o with
  | OptionsValue _ => VUndefined
  | OptionsObject _ b => b
  end.

(** [calculateSimpleRevenue(purchase, _product)]: [_product] is not read. *)
Definition calculateSimpleRevenue (purchase : Item.t) (_product : product_arg) : Q :=
  let discountCoefficient := Num.sub 1 (Num.div (Item.discount purchase) 100) in
  Num.mul (Num.mul (Item.sale_price purchase) (Item.quantity purchase))
    discountCoefficient.

(** [calculateBonusByProfit(index, total, seller)] *)
Definition calculateBonusByProfit (index total : Z) (seller : Stat.t) : Num.t :=
  if index =? 0 then Num.Fin (Num.mul 0.15 1000)
  else if (index =? 1) || (index =? 2) then Num.Fin (Num.mul 0.1 1000)
  else if index =? total - 1 then Num.Fin (Num.mul 0.0 1000)
  else Num.Fin (Num.mul 0.05 1000).

Definition new_stat (seller : Seller.t) : Stat.t :=
  {| Stat.seller_id := Seller.id seller;
     Stat.name := Seller.first_name seller +:+ " " +:+ Seller.last_name seller;
     Stat.revenue := Num.Fin 0;
     Stat.profit := Num.Fin 0;
     Stat.sales_count := 0;
     Stat.products_sold := [] |}.

Definition sellerIndex (sellerStats : list Stat.t) : gmap string nat :=
  Object_fromEntries (imap (fun i stat => (Stat.seller_id stat, i)) sellerStats).

Definition productIndex (products : list Product.t) : gmap string Product.t :=
  Object_fromEntries (map (fun product => (Product.sku product, product)) products).

Section Aggregation.
Variable calculateRevenue : RevenueStrategy.
Variable products : gmap string Product.t.

(** The statements after [if (!product) return] for a product of the
    catalog.  [seller.products_sold[item.sku]] is read at the guard: when it
    is [undefined] the entry is created and then credited; when it is an own
    entry that entry is credited; when it is a built-in object no entry is
    created and the three [+=] write on that object. *)
Definition credit_item (seller : Stat.t) (item : Item.t) (product : Product.t)
  : Stat.t :=
  let cost := Num.mul (Product.purchase_price product) (Item.quantity item) in
  let revenue := calculateRevenue item (Catalogued product) in
  let profit := Num.sub revenue cost in
  {| Stat.seller_id := Stat.seller_id seller;
     Stat.name := Stat.name seller;
     Stat.revenue := Stat.revenue seller;
     Stat.profit := Num.add_nan (Stat.profit seller) (Num.Fin profit);
     Stat.sales_count := Stat.sales_count seller;
     Stat.products_sold :=
       match read (get_prop (Item.sku item) (Stat.products_sold seller))
               (Item.sku item) with
       | Absent =>
           update_prop (Item.sku item)
             (Main.add_sale (Item.quantity item) revenue profit)
             (add_prop (Item.sku item) (Main.new_product_data product)
                (Stat.products_sold seller))
       | Own _ =>
           update_prop (Item.sku item)
             (Main.add_sale (Item.quantity item) revenue profit)
             (Stat.products_sold seller)
       | Builtin _ => Stat.products_sold seller
       end |}.

(** The same statements when [product] is a built-in object: its
    [purchase_price] is [undefined], so [cost] and [profit] are [NaN].
    [item.sku] is then a key of [Object.prototype]; no own entry of
    [products_sold] is ever created under such a key (see [credit_item]), so
    the guard reads a built-in object and the three [+=] write on it. *)
Definition credit_builtin (seller : Stat.t) (item : Item.t) (key : string) : Stat.t :=
  let cost :=
    Num.mul_nan (purchase_price_of (BuiltinObject key)) (Num.Fin (Item.quantity item)) in
  let revenue := calculateRevenue item (BuiltinObject key) in
  let profit := Num.sub_nan (Num.Fin revenue) cost in
  {| Stat.seller_id := Stat.seller_id seller;
     Stat.name := Stat.name seller;
     Stat.revenue := Stat.revenue seller;
     Stat.profit := Num.add_nan (Stat.profit seller) profit;
     Stat.sales_count := Stat.sales_count seller;
     Stat.products_sold := Stat.products_sold seller |}.

(** Body of [record.items.forEach((item) => { ... })]. *)
Definition process_item (seller : Stat.t) (item : Item.t) : Stat.t :=
  match read (products !! Item.sku item) (Item.sku item) with
  | Absent => seller
  | Own product => credit_item seller item product
  | Builtin key => credit_builtin seller item key
  end.

Definition count_sale (record : PurchaseRecord.t) (seller : Stat.t) : Stat.t :=
  {| Stat.seller_id := Stat.seller_id seller;
     Stat.name := Stat.name seller;
     Stat.revenue :=
       Num.add_nan (Stat.revenue seller)
         (Num.of_property (PurchaseRecord.total_amount record));
     Stat.profit := Stat.profit seller;
     Stat.sales_count := Stat.sales_count seller + 1;
     Stat.products_sold := Stat.products_sold seller |}.

Definition apply_record (record : PurchaseRecord.t) (seller : Stat.t) : Stat.t :=
  foldl process_item (count_sale record seller) (PurchaseRecord.items record).

Variable sellers : gmap string nat.

(** Body of [data.purchase_records.forEach((record) => { ... })].  When
    [sellerIndex[record.seller_id]] is a built-in object, [sales_count] and
    [revenue] are written on it and the item loop runs on it. *)
Definition process_record (sellerStats : list Stat.t) (record : PurchaseRecord.t)
  : result (list Stat.t) :=
  match read (sellers !! PurchaseRecord.seller_id record)
          (PurchaseRecord.seller_id record) with
  | Absent => Return sellerStats
  | Own k => Return (alter (apply_record record) k sellerStats)
  | Builtin _ =>
      match builtin_seller_items products (PurchaseRecord.items record) with
      | Throw e => Throw e
      | Return _ => Return sellerStats
      end
  end.
End Aggregation.

Definition aggregate (calculateRevenue : RevenueStrategy)
    (sellers : list Seller.t) (products : list Product.t)
    (purchase_records : list PurchaseRecord.t) : result (list Stat.t) :=
  let sellerStats := map new_stat sellers in
  forEach_throwing
    (process_record calculateRevenue (productIndex products)
       (sellerIndex sellerStats))
    purchase_records sellerStats.

(** [sellerStats.sort((a, b) => b.profit - a.profit)]: a comparator result
    [NaN] counts as [0].  With a [NaN] among the profits the comparator is
    not consistent and the language leaves the order to the implementation;
    the order given here is that of the insertion sort [Array_sort]. *)
Definition sortedSellers (sellerStats : list Stat.t) : list Stat.t :=
  Array_sort
    (fun a b => Num.compare_value (Num.sub_nan (Stat.profit b) (Stat.profit a)))
    sellerStats.

Definition top_products_of (seller : Stat.t) : list Main.TopProduct.t :=
  Array_slice0 10
    (Array_sort
       (fun a b =>
          Num.sub (Main.TopProduct.quantity b) (Main.TopProduct.quantity a))
       (map (fun '(sku, productData) =>
               {| Main.TopProduct.sku := sku;
                  Main.TopProduct.name := Main.ProductData.name productData;
                  Main.TopProduct.quantity := Main.ProductData.quantity productData;
                  Main.TopProduct.revenue :=
                    Num.round2 (Main.ProductData.revenue productData);
                  Main.TopProduct.profit :=
                    Num.round2 (Main.ProductData.profit productData) |})
          (Object_entries (Stat.products_sold seller)))).

Definition assign_bonus (calculateBonusByProfit : BonusStrategy)
    (totalSellers : Z) (index : nat) (seller : Stat.t) : Ranked.t :=
  let bonusRate := calculateBonusByProfit (Z.of_nat index) totalSellers seller in
  let bonusAmount := Num.mul_nan (Stat.profit seller) bonusRate in
  {| Ranked.stat := seller;
     Ranked.bonus := Num.round2_nan bonusAmount;
     Ranked.bonus_rate := bonusRate;
     Ranked.rank := Z.of_nat index + 1;
     Ranked.top_products := top_products_of seller |}.

Definition sellersWithBonuses (calculateBonusByProfit : BonusStrategy)
    (sorted : list Stat.t) : list Ranked.t :=
  let totalSellers := Z.of_nat (length sorted) in
  imap (assign_bonus calculateBonusByProfit totalSellers) sorted.

Definition project (seller : Ranked.t) : Report.t :=
  {| Report.seller_id := Stat.seller_id (Ranked.stat seller);
     Report.name := Stat.name (Ranked.stat seller);
     Report.revenue := Num.round2_nan (Stat.revenue (Ranked.stat seller));
     Report.profit := Num.round2_nan (Stat.profit (Ranked.stat seller));
     Report.sales_count := Stat.sales_count (Ranked.stat seller);
     Report.top_products :=
       map (fun product =>
              (Main.TopProduct.sku product, Main.TopProduct.quantity product))
         (Ranked.top_products seller);
     Report.bonus := Ranked.bonus seller |}.

(** [sellersWithBonuses], when the record loop has not thrown. *)
Definition ranked (calculateRevenue : RevenueStrategy)
    (calculateBonusByProfit : BonusStrategy)
    (sellers : list Seller.t) (products : list Product.t)
    (purchase_records : list PurchaseRecord.t) : result (list Ranked.t) :=
  match aggregate calculateRevenue sellers products purchase_records with
  | Throw e => Throw e
  | Return sellerStats =>
      Return (sellersWithBonuses calculateBonusByProfit (sortedSellers sellerStats))
  end.

Definition finalResult (calculateRevenue : RevenueStrategy)
    (calculateBonusByProfit : BonusStrategy)
    (sellers : list Seller.t) (products : list Product.t)
    (purchase_records : list PurchaseRecord.t) : result (list Report.t) :=
  match ranked calculateRevenue calculateBonusByProfit
          sellers products purchase_records with
  | Throw e => Throw e
  | Return sellersWithBonuses => Return (map project sellersWithBonuses)
  end.

(** [analyzeSalesData(data, options)] *)
Definition analyzeSalesData (data : data_arg) (options : options_arg)
  : result (list Report.t) :=
  if negb (data_truthy data) || negb (String.eqb (data_typeof data) "object")
  then Throw (Error "Данные не предоставлены или имеют неверный формат")
  else if negb (slot_truthy (data_purchase_records data))
          || negb (isArray (data_purchase_records data))
          || (slot_length (data_purchase_records data) =? 0)%nat
  then Throw (Error "Отсутствуют или некорректны записи о покупках")
  else if negb (slot_truthy (data_products data))
          || negb (isArray (data_products data))
          || (slot_length (data_products data) =? 0)%nat
  then Throw (Error "Отсутствуют или некорректны данные о товарах")
  else if negb (slot_truthy (data_sellers data))
          || negb (isArray (data_sellers data))
          || (slot_length (data_sellers data) =? 0)%nat
  then Throw (Error "Отсутствуют или некорректны данные о продавцах")
  else if negb (options_truthy options)
          || negb (String.eqb (options_typeof options) "object")
  then Throw (Error "Опции не предоставлены")
  else
    match options_calculateRevenue options with
    | VFunction calculateRevenue =>
        match options_calculateBonusByProfit options with
        | VFunction calculateBonusByProfit =>
            finalResult calculateRevenue calculateBonusByProfit
              (slot_elems (data_sellers data))
              (slot_elems (data_products data))
              (slot_elems (data_purchase_records data))
        | _ => Throw (Error "Функция calculateBonusByProfit не предоставлена")
        end
    | _ => Throw (Error "Функция calculateRevenue не предоставлена")
    end.

End MainProto.

(** ** src/unnamed/part_000, with reads through the prototype chain *)

Module Part000Proto.

Module Stat.
Record t : Type :=
  Make { seller_id : string;
         name : string;
         revenue : Part000.revenue_value;
         profit : Num.t;
         sales_count : Z;
         products_sold : list (string * Part000.ProductData.t) }.
End Stat.

Module Ranked.
Record t : Type :=
  Make { stat : Stat.t; bonus : Num.t; top_products : list (string * Q) }.
End Ranked.

Module Report.
Record t : Type :=
  Make { seller_id : string;
         name : string;
         revenue : Q;
         profit : Num.t;
         sales_count : Z;
         top_products : list (string * Q);
         bonus : Num.t }.
End Report.

Definition RevenueStrategy : Type := Item.t -> product_arg -> Q.
Definition BonusStrategy : Type := Z -> Z -> Stat.t -> Num.t.

Inductive options_arg : Type :=
| OptionsValue (v : value unit)
| OptionsObject (calculateRevenue : value RevenueStrategy)
                (calculateBonus : value BonusStrategy).

Definition options_truthy (o : options_arg) : bool :=
  match o with
  | OptionsValue v => truthy v
  | OptionsObject _ _ => true
  end.

Definition options_typeof (o : options_arg) : string :=
  match o with
  | OptionsValue v => typeof v
  | OptionsObject _ _ => "object"
  end.

Definition options_calculateRevenue (o : options_arg) : value RevenueStrategy :=
  match o with
  | OptionsValue _ => VUndefined
  | OptionsObject r _ => r
  end.

Definition options_calculateBonus (o : options_arg) : value BonusStrategy :=
  match o with
  | OptionsValue _ => VUndefined
  | OptionsObject _ b => b
  end.

(** [calculateSimpleRevenue(purchase, _product)]: [_product] is not read. *)
Definition calculateSimpleRevenue (purchase : Item.t) (_product : product_arg) : Q :=
  let discountCoefficient := Num.sub 1 (Num.div (Item.discount purchase) 100) in
  Num.mul (Num.mul (Item.sale_price purchase) (Item.quantity purchase))
    discountCoefficient.

(** [calculateBonusByProfit(index, total, seller)] *)
Definition calculateBonusByProfit (index total : Z) (seller : Stat.t) : Num.t :=
  if index =? 0 then Num.mul_nan (Stat.profit seller) (Num.Fin 0.15)
  else if (index =? 1) || (index =? 2)
       then Num.mul_nan (Stat.profit seller) (Num.Fin 0.1)
  else if index =? total - 1 then Num.mul_nan (Stat.profit seller) (Num.Fin 0.0)
  else Num.mul_nan (Stat.profit seller) (Num.Fin 0.05).

Definition new_stat (seller : Seller.t) : Stat.t :=
  {| Stat.seller_id := Seller.id seller;
     Stat.name := Seller.first_name seller +:+ " " +:+ Seller.last_name seller;
     Stat.revenue := Part000.RevNumber 0;
     Stat.profit := Num.Fin 0;
     Stat.sales_count := 0;
     Stat.products_sold := [] |}.

Definition sellerIndex (sellerStats : list Stat.t) : gmap string nat :=
  Object_fromEntries (imap (fun i stat => (Stat.seller_id stat, i)) sellerStats).

Definition productIndex (products : list Product.t) : gmap string Product.t :=
  Object_fromEntries (map (fun product => (Product.sku product, product)) products).

Section Aggregation.
Variable calculateRevenue : RevenueStrategy.
Variable products : gmap string Product.t.

(** The statements after [if (!product) return] for a product of the
    catalog; [products_sold] as in [MainProto.credit_item]. *)
Definition credit_item (seller : Stat.t) (item : Item.t) (product : Product.t)
  : Stat.t :=
  let cost := Num.mul (Product.purchase_price product) (Item.quantity item) in
  let revenue := calculateRevenue item (Catalogued product) in
  let profit := Num.sub revenue cost in
  {| Stat.seller_id := Stat.seller_id seller;
     Stat.name := Stat.name seller;
     Stat.revenue :=
       Part000.append_string (Stat.revenue seller) (Num.toFixed2 revenue);
     Stat.profit := Num.add_nan (Stat.profit seller) (Num.Fin profit);
     Stat.sales_count := Stat.sales_count seller;
     Stat.products_sold :=
       match read (get_prop (Item.sku item) (Stat.products_sold seller))
               (Item.sku item) with
       | Absent =>
           update_prop (Item.sku item)
             (Part000.add_sale (Item.quantity item) revenue profit)
             (add_prop (Item.sku item) Part000.new_product_data
                (Stat.products_sold seller))
       | Own _ =>
           update_prop (Item.sku item)
             (Part000.add_sale (Item.quantity item) revenue profit)
             (Stat.products_sold seller)
       | Builtin _ => Stat.products_sold seller
       end |}.

(** The same statements when [product] is a built-in object. *)
Definition credit_builtin (seller : Stat.t) (item : Item.t) (key : string) : Stat.t :=
  let cost :=
    Num.mul_nan (purchase_price_of (BuiltinObject key)) (Num.Fin (Item.quantity item)) in
  let revenue := calculateRevenue item (BuiltinObject key) in
  let profit := Num.sub_nan (Num.Fin revenue) cost in
  {| Stat.seller_id := Stat.seller_id seller;
     Stat.name := Stat.name seller;
     Stat.revenue :=
       Part000.append_string (Stat.revenue seller) (Num.toFixed2 revenue);
     Stat.profit := Num.add_nan (Stat.profit seller) profit;
     Stat.sales_count := Stat.sales_count seller;
     Stat.products_sold := Stat.products_sold seller |}.

Definition process_item (seller : Stat.t) (item : Item.t) : Stat.t :=
  match read (products !! Item.sku item) (Item.sku item) with
  | Absent => seller
  | Own product => credit_item seller item product
  | Builtin key => credit_builtin seller item key
  end.

Definition count_sale (seller : Stat.t) : Stat.t :=
  {| Stat.seller_id := Stat.seller_id seller;
     Stat.name := Stat.name seller;
     Stat.revenue := Stat.revenue seller;
     Stat.profit := Stat.profit seller;
     Stat.sales_count := Stat.sales_count seller + 1;
     Stat.products_sold := Stat.products_sold seller |}.

Definition apply_record (record : PurchaseRecord.t) (seller : Stat.t) : Stat.t :=
  foldl process_item (count_sale seller) (PurchaseRecord.items record).

Variable sellers : gmap string nat.

Definition process_record (sellerStats : list Stat.t) (record : PurchaseRecord.t)
  : result (list Stat.t) :=
  match read (sellers !! PurchaseRecord.seller_id record)
          (PurchaseRecord.seller_id record) with
  | Absent => Return sellerStats
  | Own k => Return (alter (apply_record record) k sellerStats)
  | Builtin _ =>
      match builtin_seller_items products (PurchaseRecord.items record) with
      | Throw e => Throw e
      | Return _ => Return sellerStats
      end
  end.
End Aggregation.

Definition aggregate (calculateRevenue : RevenueStrategy)
    (sellers : list Seller.t) (products : list Product.t)
    (purchase_records : list PurchaseRecord.t) : result (list Stat.t) :=
  let sellerStats := map new_stat sellers in
  forEach_throwing
    (process_record calculateRevenue (productIndex products)
       (sellerIndex sellerStats))
    purchase_records sellerStats.

(** [sellerStats.sort((a, b) => b.profit - a.profit)], as in [MainProto]. *)
Definition sortedSellers (sellerStats : list Stat.t) : list Stat.t :=
  Array_sort
    (fun a b => Num.compare_value (Num.sub_nan (Stat.profit b) (Stat.profit a)))
    sellerStats.

Definition top_products_of (seller : Stat.t) : list (string * Q) :=
  Array_slice0 10
    (Array_sort
       (fun a b => Num.sub (snd b) (snd a))
       (map (fun '(sku, productData) =>
               (sku, Part000.ProductData.quantity productData))
          (Object_entries (Stat.products_sold seller)))).

Definition assign_bonus (calculateBonus : BonusStrategy)
    (totalSellers : Z) (index : nat) (seller : Stat.t) : Ranked.t :=
  let bonusAmount := calculateBonus (Z.of_nat index) totalSellers seller in
  {| Ranked.stat := seller;
     Ranked.bonus := Num.round2_nan bonusAmount;
     Ranked.top_products := top_products_of seller |}.

Definition withBonuses (calculateBonus : BonusStrategy) (sorted : list Stat.t)
  : list Ranked.t :=
  let totalSellers := Z.of_nat (length sorted) in
  imap (assign_bonus calculateBonus totalSellers) sorted.

Definition project (seller : Ranked.t) : result Report.t :=
  match Part000.revenue_toFixed2 (Stat.revenue (Ranked.stat seller)) with
  | Throw e => Throw e
  | Return revenue =>
      Return
        {| Report.seller_id := Stat.seller_id (Ranked.stat seller);
           Report.name := Stat.name (Ranked.stat seller);
           Report.revenue := revenue;
           Report.profit := Num.round2_nan (Stat.profit (Ranked.stat seller));
           Report.sales_count := Stat.sales_count (Ranked.stat seller);
           Report.top_products :=
             map (fun product => (fst product, snd product))
               (Ranked.top_products seller);
           Report.bonus := Ranked.bonus seller |}
  end.

(** The accumulators after the bonus pass, when the record loop has not
    thrown. *)
Definition ranked (calculateRevenue : RevenueStrategy) (calculateBonus : BonusStrategy)
    (sellers : list Seller.t) (products : list Product.t)
    (purchase_records : list PurchaseRecord.t) : result (list Ranked.t) :=
  match aggregate calculateRevenue sellers products purchase_records with
  | Throw e => Throw e
  | Return sellerStats =>
      Return (withBonuses calculateBonus (sortedSellers sellerStats))
  end.

Definition finalResult (calculateRevenue : RevenueStrategy)
    (calculateBonus : BonusStrategy)
    (sellers : list Seller.t) (products : list Product.t)
    (purchase_records : list PurchaseRecord.t) : result (list Report.t) :=
  match ranked calculateRevenue calculateBonus sellers products purchase_records with
  | Throw e => Throw e
  | Return sortedSellers => Array_map_throwing project sortedSellers
  end.

(** [analyzeSalesData(data, options)] *)
Definition analyzeSalesData (data : data_arg) (options : options_arg)
  : result (list Report.t) :=
  if negb (data_truthy data) || negb (String.eqb (data_typeof data) "object")
  then Throw (Error "Данные не предоставлены или имеют неверный формат")
  else if negb (slot_truthy (data_purchase_records data))
          || negb (isArray (data_purchase_records data))
          || (slot_length (data_purchase_records data) =? 0)%nat
  then Throw (Error "Отсутствуют или некорректны записи о покупках")
  else if negb (slot_truthy (data_products data))
          || negb (isArray (data_products data))
          || (slot_length (data_products data) =? 0)%nat
  then Throw (Error "Отсутствуют или некорректны данные о товарах")
  else if negb (slot_truthy (data_sellers data))
          || negb (isArray (data_sellers data))
          || (slot_length (data_sellers data) =? 0)%nat
  then Throw (Error "Отсутствуют или некорректны данные о продавцах")
  else if negb (options_truthy options)
          || negb (String.eqb (options_typeof options) "object")
  then Throw (Error "Опции не предоставлены")
  else
    match options_calculateRevenue options with
    | VFunction calculateRevenue =>
        match options_calculateBonus options with
        | VFunction calculateBonus =>
            finalResult calculateRevenue calculateBonus
              (slot_elems (data_sellers data))
              (slot_elems (data_products data))
              (slot_elems (data_purchase_records data))
        | _ => Throw (Error "Функция calculateBonusByProfit не предоставлена")
        end
    | _ => Throw (Error "Функция calculateSimpleRevenue не предоставлена")
    end.

End Part000Proto.

(** ** Resolution of references, stated on the input collections *)

(** The last element of [l] whose key is [k]. *)
Definition last_with {A} (key : A -> string) (k : string) (l : list A) : option A :=
  last (filter (fun x => key x = k) l).

(** The catalog entry a SKU refers to. *)
Definition catalog (products : list Product.t) (sku : string) : option Product.t :=
  last_with Product.sku sku products.

(** The position, in [data.sellers], of the seller a seller id refers to. *)
Definition owner (sellers : list Seller.t) (id : string) : option nat :=
  fst <$> last_with (fun p => Seller.id (snd p)) id (imap pair sellers).

(** The purchase records credited to the seller at position [k]. *)
Definition records_of (sellers : list Seller.t)
    (purchase_records : list PurchaseRecord.t) (k : nat) : list PurchaseRecord.t :=
  filter (fun record => owner sellers (PurchaseRecord.seller_id record) = Some k)
    purchase_records.

(** The line items of [records] that refer to a catalog entry, each with
    that entry, in input order. *)
Definition lines_of (products : list Product.t) (items : list Item.t)
  : list (Item.t * Product.t) :=
  items ≫= (fun item =>
    match catalog products (Item.sku item) with
    | Some product => [(item, product)]
    | None => []
    end).

Definition sold_lines (products : list Product.t) (records : list PurchaseRecord.t)
  : list (Item.t * Product.t) :=
  records ≫= (fun record => lines_of products (PurchaseRecord.items record)).

(** Revenue, cost and profit of one sold line, as the item loop computes them. *)
Definition line_revenue (calculateRevenue : Item.t -> Product.t -> Q)
    (line : Item.t * Product.t) : Q :=
  calculateRevenue (fst line) (snd line).

Definition line_cost (line : Item.t * Product.t) : Q :=
  Num.mul (Product.purchase_price (snd line)) (Item.quantity (fst line)).

Definition line_profit (calculateRevenue : Item.t -> Product.t -> Q)
    (line : Item.t * Product.t) : Q :=
  Num.sub (line_revenue calculateRevenue line) (line_cost line).

(** The sum of the stated [total_amount]s of [records], as [+=] computes it. *)
Definition stated_total (records : list PurchaseRecord.t) : Num.t :=
  foldl Num.add_nan (Num.Fin 0)
    (map (fun record => Num.of_property (PurchaseRecord.total_amount record)) records).


(** The total quantity of a SKU over sold lines, and the SKUs of the sold
    lines in order of first sale, each with its total quantity. *)
Definition quantity_sold (sku : string) (lines : list (Item.t * Product.t)) : Q :=
  foldl Num.add 0%Q
    (map (fun line => Item.quantity (fst line))
       (filter (fun line => Item.sku (fst line) = sku) lines)).

Definition tally (lines : list (Item.t * Product.t)) : list (string * Q) :=
  map (fun sku => (sku, quantity_sold sku lines))
    (foldl (fun acc x => if decide (x ∈ acc) then acc else acc ++ [x]) []
       (map (fun line => Item.sku (fst line)) lines)).

(** ** Removal of unmatched references *)

(** A purchase record matches a seller; a line item matches a product. *)
Definition seller_matches (sellers : list Seller.t) (record : PurchaseRecord.t) : Prop :=
  PurchaseRecord.seller_id record ∈ map Seller.id sellers.

Definition sku_matches (products : list Product.t) (item : Item.t) : Prop :=
  Item.sku item ∈ map Product.sku products.

#[global] Instance seller_matches_dec sellers record :
  Decision (seller_matches sellers record).
Proof. unfold seller_matches. apply _. Defined.

#[global] Instance sku_matches_dec products item :
  Decision (sku_matches products item).
Proof. unfold sku_matches. apply _. Defined.

Definition prune_items (products : list Product.t) (record : PurchaseRecord.t)
  : PurchaseRecord.t :=
  {| PurchaseRecord.seller_id := PurchaseRecord.seller_id record;
     PurchaseRecord.total_amount := PurchaseRecord.total_amount record;
     PurchaseRecord.items := filter (sku_matches products) (PurchaseRecord.items record) |}.

(** The purchase records with the unmatched records and the unmatched line
    items removed. *)
Definition prune (sellers : list Seller.t) (products : list Product.t)
    (records : list PurchaseRecord.t) : list PurchaseRecord.t :=
  map (prune_items products) (filter (seller_matches sellers) records).

(** ** The conditions of the validation prologue, as the specification
    words them *)

(** The dataset is present and is a record. *)
Definition dataset_is_record (d : data_arg) : bool :=
  match d with
  | DataObject _ _ _ | DataValue VObject => true
  | DataValue _ => false
  end.

(** A collection is present, is a sequence and is not empty. *)
Definition nonempty_sequence {A} (s : slot A) : bool :=
  match s with
  | Arr (_ :: _) => true
  | _ => false
  end.

Definition invalid_input (d : data_arg) : bool :=
  negb (dataset_is_record d)
  || negb (nonempty_sequence (data_sellers d))
  || negb (nonempty_sequence (data_products d))
  || negb (nonempty_sequence (data_purchase_records d)).

(** A strategy is present and invocable. *)
Definition invocable {F} (v : value F) : bool :=
  match v with
  | VFunction _ => true
  | _ => false
  end.

Definition input_messages : list string :=
  [ "Данные не предоставлены или имеют неверный формат";
    "Отсутствуют или некорректны записи о покупках";
    "Отсутствуют или некорректны данные о товарах";
    "Отсутствуют или некорректны данные о продавцах" ].

Module MainSpec.
Definition options_is_record (o : Main.options_arg) : bool :=
  match o with
  | Main.OptionsObject _ _ | Main.OptionsValue VObject => true
  | Main.OptionsValue _ => false
  end.

Definition invalid_configuration (o : Main.options_arg) : bool :=
  negb (options_is_record o)
  || negb (invocable (Main.options_calculateRevenue o))
  || negb (invocable (Main.options_calculateBonusByProfit o)).

Definition configuration_messages : list string :=
  [ "Опции не предоставлены";
    "Функция calculateRevenue не предоставлена";
    "Функция calculateBonusByProfit не предоставлена" ].
End MainSpec.

Module Part000Spec.
Definition options_is_record (o : Part000.options_arg) : bool :=
  match o with
  | Part000.OptionsObject _ _ | Part000.OptionsValue VObject => true
  | Part000.OptionsValue _ => false
  end.

Definition invalid_configuration (o : Part000.options_arg) : bool :=
  negb (options_is_record o)
  || negb (invocable (Part000.options_calculateRevenue o))
  || negb (invocable (Part000.options_calculateBonus o)).

Definition configuration_messages : list string :=
  [ "Опции не предоставлены";
    "Функция calculateSimpleRevenue не предоставлена";
    "Функция calculateBonusByProfit не предоставлена" ].
End Part000Spec.

(** ** Inputs that use no inherited key *)

(** No [seller_id] and no SKU of the purchase records is a property name of
    [Object.prototype]. *)
Definition plain_record (record : PurchaseRecord.t) : Prop :=
  inherited (PurchaseRecord.seller_id record) = false
  /\ Forall (fun item => inherited (Item.sku item) = false)
       (PurchaseRecord.items record).

Definition plain_keys (records : list PurchaseRecord.t) : Prop :=
  Forall plain_record records.

(** A revenue strategy, on the products of the catalog. *)
Definition own_products (calculateRevenue : Item.t -> product_arg -> Q)
  : Item.t -> Product.t -> Q :=
  fun item product => calculateRevenue item (Catalogued product).

(** An accumulator whose profit is a number. *)
Definition main_lift (seller : Main.Stat.t) : MainProto.Stat.t :=
  {| MainProto.Stat.seller_id := Main.Stat.seller_id seller;
     MainProto.Stat.name := Main.Stat.name seller;
     MainProto.Stat.revenue := Main.Stat.revenue seller;
     MainProto.Stat.profit := Num.Fin (Main.Stat.profit seller);
     MainProto.Stat.sales_count := Main.Stat.sales_count seller;
     MainProto.Stat.products_sold := Main.Stat.products_sold seller |}.

Definition part000_lift (seller : Part000.Stat.t) : Part000Proto.Stat.t :=
  {| Part000Proto.Stat.seller_id := Part000.Stat.seller_id seller;
     Part000Proto.Stat.name := Part000.Stat.name seller;
     Part000Proto.Stat.revenue := Part000.Stat.revenue seller;
     Part000Proto.Stat.profit := Num.Fin (Part000.Stat.profit seller);
     Part000Proto.Stat.sales_count := Part000.Stat.sales_count seller;
     Part000Proto.Stat.products_sold := Part000.Stat.products_sold seller |}.

(** No entry of a [products_sold] is held under an inherited key. *)
Definition plain_entries {V} (sold : list (string * V)) : Prop :=
  Forall (fun key => inherited key = false) sold.*1.

(** The fields of an accumulator of main.js that no line item touches. *)
Definition main_header (seller : Main.Stat.t) : string * string * Num.t * Z :=
  (Main.Stat.seller_id seller, Main.Stat.name seller, Main.Stat.revenue seller,
   Main.Stat.sales_count seller).

Definition main_proto_header (seller : MainProto.Stat.t) : string * string * Num.t * Z :=
  (MainProto.Stat.seller_id seller, MainProto.Stat.name seller,
   MainProto.Stat.revenue seller, MainProto.Stat.sales_count seller).

(** ** Definitions used in the statements *)

#[global] Instance Qeq_decision (x y : Q) : Decision (x == y)%Q := Qeq_dec x y.

#[global] Instance Qle_decision (x y : Q) : Decision (x <= y)%Q.
Proof.
  destruct (Qlt_le_dec y x) as [H | H]; [right | left]; [|exact H].
  apply Qlt_not_le, H.
Defined.

(** The comparator [(a, b) => key(b) - key(a)]. *)
Definition by_key_desc {A} (key : A -> Q) (a b : A) : Q := Num.sub (key b) (key a).

(** [descending key l]: every element's key is at least the key of every
    later element. *)
Definition descending {A} (key : A -> Q) (l : list A) : Prop :=
  StronglySorted (fun a b => (key b <= key a)%Q) l.

(** The three possible outcomes of the prologue. *)
Inductive prologue_outcome {A} (config_messages : list string)
    (bad_input bad_config : bool) (r : result A) : Prop :=
| rejected_input msg :
    bad_input = true -> r = Throw (Error msg) -> msg ∈ input_messages ->
    prologue_outcome config_messages bad_input bad_config r
| rejected_configuration msg :
    bad_input = false -> bad_config = true ->
    r = Throw (Error msg) -> msg ∈ config_messages ->
    prologue_outcome config_messages bad_input bad_config r
| accepted :
    bad_input = false -> bad_config = false ->
    (forall msg, r <> Throw (Error msg)) ->
    prologue_outcome config_messages bad_input bad_config r.

(** One iteration of the record loop over the array of accumulators: the
    accumulator aliased by the index entry is updated in place, the others
    are untouched. *)
Definition visit {S} (index : gmap string nat) (step : PurchaseRecord.t -> S -> S)
    (stats : list S) (record : PurchaseRecord.t) : list S :=
  match index !! PurchaseRecord.seller_id record with
  | None => stats
  | Some k => alter (step record) k stats
  end.

(** The accumulator of one seller, folded over the records credited to it. *)
Definition main_accumulator (calculateRevenue : Main.RevenueStrategy)
    (products : list Product.t) (records : list PurchaseRecord.t)
    (seller : Seller.t) : Main.Stat.t :=
  foldl (fun s r => Main.apply_record calculateRevenue (Main.productIndex products) r s)
    (Main.new_stat seller) records.

Definition part000_accumulator (calculateRevenue : Part000.RevenueStrategy)
    (products : list Product.t) (records : list PurchaseRecord.t)
    (seller : Seller.t) : Part000.Stat.t :=
  foldl (fun s r =>
           Part000.apply_record calculateRevenue (Part000.productIndex products) r s)
    (Part000.new_stat seller) records.

(** The distinct elements of a list, in order of first occurrence. *)
Definition first_occurrences (l : list string) : list string :=
  foldl (fun acc x => if decide (x ∈ acc) then acc else acc ++ [x]) [] l.

(** [a_1 + ... + a_n], added from the left starting from [0]. *)
Definition sum (l : list Q) : Q := foldl Num.add 0%Q l.

(** The update of [products_sold] made for one sold line: the entry of the
    SKU is created on first encounter, then credited. *)
Definition tally_line {V} (fresh : Item.t * Product.t -> V)
    (credit : Item.t * Product.t -> V -> V)
    (sold : list (string * V)) (line : Item.t * Product.t) : list (string * V) :=
  update_prop (Item.sku (fst line)) (credit line)
    match get_prop (Item.sku (fst line)) sold with
    | None => add_prop (Item.sku (fst line)) (fresh line) sold
    | Some _ => sold
    end.

Definition main_tally_line (calculateRevenue : Main.RevenueStrategy)
  : list (string * Main.ProductData.t) -> Item.t * Product.t
    -> list (string * Main.ProductData.t) :=
  tally_line (fun line => Main.new_product_data (snd line))
    (fun line =>
       Main.add_sale (Item.quantity (fst line))
         (line_revenue calculateRevenue line) (line_profit calculateRevenue line)).

Definition part000_tally_line (calculateRevenue : Part000.RevenueStrategy)
  : list (string * Part000.ProductData.t) -> Item.t * Product.t
    -> list (string * Part000.ProductData.t) :=
  tally_line (fun _ => Part000.new_product_data)
    (fun line =>
       Part000.add_sale (Item.quantity (fst line))
         (line_revenue calculateRevenue line) (line_profit calculateRevenue line)).

Definition is_string (v : Part000.revenue_value) : bool :=
  match v with
  | Part000.RevString _ => true
  | Part000.RevNumber _ => false
  end.

(** The list [Object.entries(...).map(...).sort(...).slice(0, 10)] as seen
    in the report: [(sku, quantity)] pairs. *)
Definition top_ten (sold : list (string * Q)) : list (string * Q) :=
  take 10 (Array_sort (by_key_desc snd) (Object_entries sold)).

(** What the report says about the products of one seller, [lines] being
    the sold lines of the purchase records credited to that seller: [top] is
    the first ten of the per-SKU totals sorted by descending quantity, ties
    in the enumeration order of [Object.entries], which is the order of
    first sale when no SKU is an array index. *)
Definition top_products_law (lines : list (Item.t * Product.t))
    (top : list (string * Q)) : Prop :=
  let entries := Object_entries (tally lines) in
  let all := Array_sort (by_key_desc snd) entries in
  top = take 10 all
  /\ (length top <= 10)%nat
  /\ descending snd top
  /\ all ≡ₚ tally lines
  /\ (forall sku quantity,
        (sku, quantity) ∈ top -> quantity = quantity_sold sku lines)
  /\ (forall q, filter (fun e => snd e == q)%Q all
                = filter (fun e => snd e == q)%Q entries)
  /\ ((forall sku, sku ∈ (tally lines).*1 -> array_index sku = None) ->
      entries = tally lines).

(** The message of the first check that fails, the checks taken in order. *)
Fixpoint first_failed (checks : list (bool * string)) : option string :=
  match checks with
  | [] => None
  | (passed, message) :: checks =>
      if passed then first_failed checks else Some message
  end.

(** The checks of main.js, in the order of the source. *)
Definition main_checks (d : data_arg) (o : Main.options_arg) : list (bool * string) :=
  [ (dataset_is_record d, "Данные не предоставлены или имеют неверный формат");
    (nonempty_sequence (data_purchase_records d),
      "Отсутствуют или некорректны записи о покупках");
    (nonempty_sequence (data_products d),
      "Отсутствуют или некорректны данные о товарах");
    (nonempty_sequence (data_sellers d),
      "Отсутствуют или некорректны данные о продавцах");
    (MainSpec.options_is_record o, "Опции не предоставлены");
    (invocable (Main.options_calculateRevenue o),
      "Функция calculateRevenue не предоставлена");
    (invocable (Main.options_calculateBonusByProfit o),
      "Функция calculateBonusByProfit не предоставлена") ].

(** The checks of part_000, in the order of the source. *)
Definition part000_checks (d : data_arg) (o : Part000.options_arg)
  : list (bool * string) :=
  [ (dataset_is_record d, "Данные не предоставлены или имеют неверный формат");
    (nonempty_sequence (data_purchase_records d),
      "Отсутствуют или некорректны записи о покупках");
    (nonempty_sequence (data_products d),
      "Отсутствуют или некорректны данные о товарах");
    (nonempty_sequence (data_sellers d),
      "Отсутствуют или некорректны данные о продавцах");
    (Part000Spec.options_is_record o, "Опции не предоставлены");
    (invocable (Part000.options_calculateRevenue o),
      "Функция calculateSimpleRevenue не предоставлена");
    (invocable (Part000.options_calculateBonus o),
      "Функция calculateBonusByProfit не предоставлена") ].

(** The sum of a list of counters. *)
Definition total_count (l : list Z) : Z := foldr Z.add 0 l.

(** ** Worked examples *)

Module Example1.
Definition S1 : Seller.t := Seller.Make "S1" "A" "B".
Definition P1 : Product.t := Product.Make "P1" "Widget" 10.
Definition line : Item.t := Item.Make "P1" 20 0 2.
Definition record : PurchaseRecord.t := PurchaseRecord.Make "S1" None [line].
Definition data : data_arg := DataObject (Arr [record]) (Arr [P1]) (Arr [S1]).

(** The same purchase record carrying its [total_amount]. *)
Definition record_with_total : PurchaseRecord.t :=
  PurchaseRecord.Make "S1" (Some 40%Q) [line].
Definition data_with_total : data_arg :=
  DataObject (Arr [record_with_total]) (Arr [P1]) (Arr [S1]).

Definition main_options : Main.options_arg :=
  Main.OptionsObject (VFunction calculateSimpleRevenue)
    (VFunction Main.calculateBonusByProfit).
Definition part000_options : Part000.options_arg :=
  Part000.OptionsObject (VFunction calculateSimpleRevenue)
    (VFunction Part000.calculateBonusByProfit).
End Example1.

(** A purchase whose stated total differs from the revenue of its lines. *)
Module Example2.
Definition record : PurchaseRecord.t :=
  PurchaseRecord.Make "S1" (Some 100%Q) [Example1.line].
Definition data : data_arg :=
  DataObject (Arr [record]) (Arr [Example1.P1]) (Arr [Example1.S1]).
End Example2.

(** An unmatched purchase record followed by a matched one that carries
    an unmatched line item. *)
Module Example4.
Definition unknown_line : Item.t := Item.Make "P9" 5 0 1.
Definition records : list PurchaseRecord.t :=
  [ PurchaseRecord.Make "S9" (Some 15%Q) [Example1.line];
    PurchaseRecord.Make "S1" (Some 45%Q) [Example1.line; unknown_line] ].
End Example4.

(** Three sellers, the first and the third with equal profit. *)
Module Example5.
Definition sellers : list Seller.t :=
  [ Seller.Make "S1" "A" "B"; Seller.Make "S2" "C" "D"; Seller.Make "S3" "E" "F" ].
Definition records : list PurchaseRecord.t :=
  [ PurchaseRecord.Make "S1" (Some 40%Q) [Example1.line];
    PurchaseRecord.Make "S3" (Some 40%Q) [Example1.line];
    PurchaseRecord.Make "S2" (Some 80%Q) [Example1.line; Example1.line] ].
Definition data : data_arg :=
  DataObject (Arr records) (Arr [Example1.P1]) (Arr sellers).
End Example5.

(** A seller without sales next to purchases of unknown products. *)
Module Example6.
Definition records : list PurchaseRecord.t :=
  [ PurchaseRecord.Make "S1" (Some 5%Q) [Example4.unknown_line] ].
End Example6.

(** Two products whose SKUs are decimal numerals, sold in the order
    "2" then "1", one unit each. *)
Module Example7.
Definition products : list Product.t :=
  [ Product.Make "2" "Bolt" 1; Product.Make "1" "Nut" 1 ].
Definition record : PurchaseRecord.t :=
  PurchaseRecord.Make "S1" (Some 6%Q)
    [ Item.Make "2" 3 0 1; Item.Make "1" 3 0 1 ].
Definition data : data_arg :=
  DataObject (Arr [record]) (Arr products) (Arr [Example1.S1]).
End Example7.

(** One purchase of two lines whose revenues, 10.004 and 20.004, are not
    multiples of a cent. *)
Module Example8.
Definition record : PurchaseRecord.t :=
  PurchaseRecord.Make "S1" (Some 30.008%Q)
    [ Item.Make "P1" 10.004 0 1; Item.Make "P1" 20.004 0 1 ].
Definition data : data_arg :=
  DataObject (Arr [record]) (Arr [Example1.P1]) (Arr [Example1.S1]).
End Example8.


(** The two scripts with their own strategies, read through the prototype
    chain. *)
Module ExampleProto.
Definition main_options : MainProto.options_arg :=
  MainProto.OptionsObject (VFunction MainProto.calculateSimpleRevenue)
    (VFunction MainProto.calculateBonusByProfit).
Definition part000_options : Part000Proto.options_arg :=
  Part000Proto.OptionsObject (VFunction Part000Proto.calculateSimpleRevenue)
    (VFunction Part000Proto.calculateBonusByProfit).
End ExampleProto.

(** A purchase of seller S1 followed by a purchase whose [seller_id],
    "constructor", is the id of no seller. *)
Module Example10.
Definition unmatched_record : PurchaseRecord.t :=
  PurchaseRecord.Make "constructor" (Some 40%Q) [Example1.line].
Definition records : list PurchaseRecord.t :=
  [ Example1.record_with_total; unmatched_record ].
Definition data : data_arg :=
  DataObject (Arr records) (Arr [Example1.P1]) (Arr [Example1.S1]).
Definition pruned : data_arg :=
  DataObject (Arr (prune [Example1.S1] [Example1.P1] records))
    (Arr [Example1.P1]) (Arr [Example1.S1]).
End Example10.

(** A purchase of seller S1 with a second line item whose SKU,
    "constructor", is the SKU of no product. *)
Module Example11.
Definition unmatched_line : Item.t := Item.Make "constructor" 5 0 1.
Definition records : list PurchaseRecord.t :=
  [ PurchaseRecord.Make "S1" (Some 45%Q) [Example1.line; unmatched_line] ].
Definition data : data_arg :=
  DataObject (Arr records) (Arr [Example1.P1]) (Arr [Example1.S1]).
Definition pruned : data_arg :=
  DataObject (Arr (prune [Example1.S1] [Example1.P1] records))
    (Arr [Example1.P1]) (Arr [Example1.S1]).
End Example11.

(** Three sellers: S1 sells one unit (profit 10), S2 has only a line item
    of SKU "constructor", S3 sells two units (profit 20). *)
Module Example12.
Definition records : list PurchaseRecord.t :=
  [ PurchaseRecord.Make "S1" (Some 20%Q) [Item.Make "P1" 20 0 1];
    PurchaseRecord.Make "S2" (Some 5%Q) [Example11.unmatched_line];
    PurchaseRecord.Make "S3" (Some 40%Q) [Example1.line] ].
Definition data : data_arg :=
  DataObject (Arr records) (Arr [Example1.P1]) (Arr Example5.sellers).
End Example12.

(** For part_000: a purchase of seller S1 of an unknown product, followed
    by a purchase whose [seller_id] is "constructor"; and a purchase of
    seller S1 whose only line item has the SKU "constructor". *)
Module Example13.
Definition records : list PurchaseRecord.t :=
  [ PurchaseRecord.Make "S1" (Some 5%Q) [Example4.unknown_line];
    Example10.unmatched_record ].
Definition data : data_arg :=
  DataObject (Arr records) (Arr [Example1.P1]) (Arr [Example1.S1]).
Definition pruned : data_arg :=
  DataObject (Arr (prune [Example1.S1] [Example1.P1] records))
    (Arr [Example1.P1]) (Arr [Example1.S1]).
End Example13.

Module Example14.
Definition records : list PurchaseRecord.t :=
  [ PurchaseRecord.Make "S1" (Some 5%Q) [Example11.unmatched_line] ].
Definition data : data_arg :=
  DataObject (Arr records) (Arr [Example1.P1]) (Arr [Example1.S1]).
Definition pruned : data_arg :=
  DataObject (Arr (prune [Example1.S1] [Example1.P1] records))
    (Arr [Example1.P1]) (Arr [Example1.S1]).
End Example14.

(** Four sellers with profits 20, 40, 10 and 30. *)
Module Example15.
Definition sellers : list Seller.t :=
  [ Seller.Make "S1" "A" "B"; Seller.Make "S2" "C" "D";
    Seller.Make "S3" "E" "F"; Seller.Make "S4" "G" "H" ].
Definition records : list PurchaseRecord.t :=
  [ PurchaseRecord.Make "S1" (Some 40%Q) [Example1.line];
    PurchaseRecord.Make "S2" (Some 80%Q) [Example1.line; Example1.line];
    PurchaseRecord.Make "S3" (Some 20%Q) [Item.Make "P1" 20 0 1];
    PurchaseRecord.Make "S4" (Some 60%Q) [Item.Make "P1" 20 0 3] ].
End Example15.

(** * Properties *)

(** ** Arithmetic helpers *)

Lemma sub_nonpos_iff (a b : Q) : Qle_bool (Num.sub b a) 0 = true <-> (b <= a)%Q.
Proof.
  unfold Num.sub. rewrite Qle_bool_iff, Qred_correct. split; intros H; lra.
Qed.

Lemma round2_mono (x y : Q) : (x <= y)%Q -> (Num.round2 x <= Num.round2 y)%Q.
Proof.
  intros Hxy. unfold Num.round2, Num.value, Num.toFixed2_digits.
  cbn [Num.negative Num.cents].
  rewrite !Qred_correct.
  assert (Hdiv : forall a b : Z, (a <= b)%Z ->
                   (inject_Z a / 100 <= inject_Z b / 100)%Q).
  { intros a b Hab. apply Qmult_le_compat_r; [| compute; discriminate].
    now rewrite <- Zle_Qle. }
  assert (Hfl : forall z : Q, (0 <= Qfloor (Qabs z * 100 + (1 # 2)))%Z).
  { intros z. change 0%Z with (Qfloor 0). apply Qfloor_resp_le.
    pose proof (Qabs_nonneg z). lra. }
  destruct (Qle_bool 0 x) eqn:Hx, (Qle_bool 0 y) eqn:Hy; cbn [negb].
  - apply Hdiv, Qfloor_resp_le.
    apply Qle_bool_iff in Hx, Hy. rewrite !Qabs_pos by assumption. lra.
  - apply Qle_bool_iff in Hx.
    assert (~ (0 <= y)%Q) by (rewrite <- Qle_bool_iff; congruence). lra.
  - apply Hdiv. pose proof (Hfl x). pose proof (Hfl y). lia.
  - assert (Hx' : ~ (0 <= x)%Q) by (rewrite <- Qle_bool_iff; congruence).
    assert (Hy' : ~ (0 <= y)%Q) by (rewrite <- Qle_bool_iff; congruence).
    apply Hdiv. apply Z.opp_le_mono. rewrite !Z.opp_involutive.
    apply Qfloor_resp_le.
    rewrite !Qabs_neg by lra. lra.
Qed.

(** ** [Object.fromEntries] *)

Section FromEntries.
Context {V : Type}.
Implicit Types (entries : list (string * V)) (key : string).

Lemma Object_fromEntries_snoc entries key v :
  Object_fromEntries (entries ++ [(key, v)])
  = <[key := v]> (Object_fromEntries entries).
Proof. unfold Object_fromEntries. now rewrite foldl_snoc. Qed.

Lemma Object_fromEntries_None entries key :
  Object_fromEntries entries !! key = None <-> key ∉ entries.*1.
Proof.
  induction entries as [| [k v] entries IH] using rev_ind.
  - unfold Object_fromEntries; simpl. rewrite lookup_empty. set_solver.
  - rewrite Object_fromEntries_snoc, fmap_app, lookup_insert_None; simpl.
    rewrite IH. set_solver.
Qed.

Lemma Object_fromEntries_is_Some entries key :
  is_Some (Object_fromEntries entries !! key) <-> key ∈ entries.*1.
Proof.
  rewrite <- not_eq_None_Some, Object_fromEntries_None.
  destruct (decide (key ∈ entries.*1)); tauto.
Qed.

(** The last entry for a key is the one that is kept. *)
Lemma Object_fromEntries_last entries1 entries2 key v :
  key ∉ entries2.*1 ->
  Object_fromEntries (entries1 ++ (key, v) :: entries2) !! key = Some v.
Proof.
  induction entries2 as [| [k w] entries2 IH] using rev_ind; intros Hnot.
  - rewrite Object_fromEntries_snoc. apply lookup_insert_eq.
  - rewrite fmap_app in Hnot; simpl in Hnot.
    change ((key, v) :: entries2 ++ [(k, w)])
      with (((key, v) :: entries2) ++ [(k, w)]).
    rewrite app_assoc, Object_fromEntries_snoc.
    rewrite lookup_insert_ne by set_solver.
    apply IH. set_solver.
Qed.
End FromEntries.

(** ** [Array.prototype.sort] with a comparator [(a, b) => key(b) - key(a)] *)

Section Sorting.
Context {A : Type} (key : A -> Q).

Lemma sort_insert_Permutation (c : A -> A -> Q) x l :
  sort_insert c x l ≡ₚ x :: l.
Proof.
  induction l as [| y l IH]; simpl; [reflexivity |].
  destruct (Qle_bool (c x y) 0); [reflexivity |].
  rewrite IH. apply perm_swap.
Qed.

Lemma Array_sort_Permutation (c : A -> A -> Q) l : Array_sort c l ≡ₚ l.
Proof.
  induction l as [| x l IH]; simpl; [reflexivity |].
  rewrite sort_insert_Permutation. now constructor.
Qed.

Lemma Array_sort_length (c : A -> A -> Q) l : length (Array_sort c l) = length l.
Proof. apply Permutation_length, Array_sort_Permutation. Qed.

Lemma sort_insert_descending x l :
  descending key l -> descending key (sort_insert (by_key_desc key) x l).
Proof.
  unfold descending.
  induction 1 as [| y l Hsorted IH Hall]; simpl.
  - repeat constructor.
  - destruct (Qle_bool ((by_key_desc key) x y) 0) eqn:Hc.
    + apply sub_nonpos_iff in Hc.
      constructor; [constructor; assumption |].
      constructor; [assumption |].
      eapply Forall_impl; [exact Hall |]. simpl. intros z Hz. lra.
    + assert (Hlt : (key x < key y)%Q).
      { apply Qnot_le_lt. intros Hle. apply sub_nonpos_iff in Hle.
        unfold by_key_desc in Hc. congruence. }
      constructor; [assumption |].
      rewrite sort_insert_Permutation. constructor; [lra | assumption].
Qed.

Lemma Array_sort_descending l : descending key (Array_sort (by_key_desc key) l).
Proof.
  induction l as [| x l IH]; simpl.
  - constructor.
  - now apply sort_insert_descending.
Qed.

Lemma sort_insert_filter q x l :
  filter (fun a => key a == q)%Q (sort_insert (by_key_desc key) x l)
  = filter (fun a => key a == q)%Q (x :: l).
Proof.
  induction l as [| y l IH]; simpl; [reflexivity |].
  destruct (Qle_bool ((by_key_desc key) x y) 0) eqn:Hc; [reflexivity |].
  assert (Hlt : (key x < key y)%Q).
  { apply Qnot_le_lt. intros Hle. apply sub_nonpos_iff in Hle.
    unfold by_key_desc in Hc. congruence. }
  rewrite (filter_cons _ y), IH, !filter_cons.
  destruct (decide (key y == q)%Q) as [Hy | Hy],
           (decide (key x == q)%Q) as [Hx | Hx]; try reflexivity.
  exfalso. rewrite Hx, Hy in Hlt. lra.
Qed.

(** Stability: elements with equal keys keep their relative order. *)
Lemma Array_sort_stable q l :
  filter (fun a => key a == q)%Q (Array_sort (by_key_desc key) l)
  = filter (fun a => key a == q)%Q l.
Proof.
  induction l as [| x l IH]; simpl; [reflexivity |].
  rewrite sort_insert_filter, !filter_cons, IH. reflexivity.
Qed.

Lemma descending_take n l : descending key l -> descending key (take n l).
Proof.
  unfold descending. intros H. revert n.
  induction H as [| x l Hsorted IH Hall]; intros [| n]; simpl;
    try constructor.
  - apply IH.
  - eapply Forall_forall. intros y Hy.
    rewrite Forall_forall in Hall. apply Hall.
    eapply elem_of_take in Hy. destruct Hy as (i & Hi & _).
    eapply list_elem_of_lookup_2, Hi.
Qed.
End Sorting.

(** ** The validation prologue *)

Lemma Array_map_throwing_no_Error (l : list Part000.Ranked.t) msg :
  Array_map_throwing Part000.project l <> Throw (Error msg).
Proof.
  induction l as [| x l IH]; simpl; [discriminate |].
  unfold Part000.project at 1.
  destruct (Part000.revenue_toFixed2 _) as [q | e] eqn:Hq.
  - destruct (Array_map_throwing Part000.project l) as [ys | e]; [discriminate |].
    intros [= ->]. now apply IH.
  - destruct (Part000.Stat.revenue _); simpl in Hq; [discriminate |].
    injection Hq as <-. discriminate.
Qed.

Lemma data_check_spec (d : data_arg) :
  negb (data_truthy d) || negb (String.eqb (data_typeof d) "object")
  = negb (dataset_is_record d).
Proof.
  destruct d as [v | r p s]; [| reflexivity].
  destruct v; simpl; try reflexivity; apply orb_true_r.
Qed.

Lemma slot_check_spec {A} (s : slot A) :
  negb (slot_truthy s) || negb (isArray s) || (slot_length s =? 0)%nat
  = negb (nonempty_sequence s).
Proof.
  destruct s as [v | [| x l]]; simpl; try reflexivity.
  now rewrite orb_true_r.
Qed.

Lemma main_options_check_spec (o : Main.options_arg) :
  negb (Main.options_truthy o) || negb (String.eqb (Main.options_typeof o) "object")
  = negb (MainSpec.options_is_record o).
Proof.
  destruct o as [v | r b]; [| reflexivity].
  destruct v; simpl; try reflexivity; apply orb_true_r.
Qed.

Lemma part000_options_check_spec (o : Part000.options_arg) :
  negb (Part000.options_truthy o)
  || negb (String.eqb (Part000.options_typeof o) "object")
  = negb (Part000Spec.options_is_record o).
Proof.
  destruct o as [v | r b]; [| reflexivity].
  destruct v; simpl; try reflexivity; apply orb_true_r.
Qed.

Lemma mem4 (x a b c d : string) : x ∈ [a; b; c; d] <-> x = a \/ x = b \/ x = c \/ x = d.
Proof. rewrite !elem_of_cons, elem_of_nil. tauto. Qed.

Lemma mem3 (x a b c : string) : x ∈ [a; b; c] <-> x = a \/ x = b \/ x = c.
Proof. rewrite !elem_of_cons, elem_of_nil. tauto. Qed.

Lemma messages_disjoint_main msg :
  msg ∈ input_messages -> msg ∈ MainSpec.configuration_messages -> False.
Proof.
  unfold input_messages, MainSpec.configuration_messages.
  rewrite mem4, mem3. intros [-> | [-> | [-> | ->]]] [H | [H | H]]; discriminate H.
Qed.

Lemma messages_disjoint_part000 msg :
  msg ∈ input_messages -> msg ∈ Part000Spec.configuration_messages -> False.
Proof.
  unfold input_messages, Part000Spec.configuration_messages.
  rewrite mem4, mem3. intros [-> | [-> | [-> | ->]]] [H | [H | H]]; discriminate H.
Qed.


Lemma main_prologue (d : data_arg) (o : Main.options_arg) :
  prologue_outcome MainSpec.configuration_messages
    (invalid_input d) (MainSpec.invalid_configuration o)
    (Main.analyzeSalesData d o).
Proof.
  unfold Main.analyzeSalesData.
  rewrite data_check_spec, !slot_check_spec, main_options_check_spec.
  unfold invalid_input, MainSpec.invalid_configuration.
  destruct (dataset_is_record d); simpl;
    [| eapply rejected_input; [reflexivity .. | apply mem4; tauto]].
  destruct (nonempty_sequence (data_purchase_records d)); simpl;
    [| eapply rejected_input;
       [now rewrite !orb_true_r | reflexivity | apply mem4; tauto]].
  destruct (nonempty_sequence (data_products d)); simpl;
    [| eapply rejected_input;
       [now rewrite !orb_true_r | reflexivity | apply mem4; tauto]].
  destruct (nonempty_sequence (data_sellers d)); simpl;
    [| eapply rejected_input; [reflexivity .. | apply mem4; tauto]].
  destruct (MainSpec.options_is_record o); simpl;
    [| eapply rejected_configuration; [reflexivity .. | apply mem3; tauto]].
  destruct (Main.options_calculateRevenue o); simpl;
    try (eapply rejected_configuration; [reflexivity .. | apply mem3; tauto]).
  destruct (Main.options_calculateBonusByProfit o); simpl;
    try (eapply rejected_configuration; [reflexivity .. | apply mem3; tauto]).
  apply accepted; [reflexivity .. | discriminate].
Qed.

Lemma part000_prologue (d : data_arg) (o : Part000.options_arg) :
  prologue_outcome Part000Spec.configuration_messages
    (invalid_input d) (Part000Spec.invalid_configuration o)
    (Part000.analyzeSalesData d o).
Proof.
  unfold Part000.analyzeSalesData.
  rewrite data_check_spec, !slot_check_spec, part000_options_check_spec.
  unfold invalid_input, Part000Spec.invalid_configuration.
  destruct (dataset_is_record d); simpl;
    [| eapply rejected_input; [reflexivity .. | apply mem4; tauto]].
  destruct (nonempty_sequence (data_purchase_records d)); simpl;
    [| eapply rejected_input;
       [now rewrite !orb_true_r | reflexivity | apply mem4; tauto]].
  destruct (nonempty_sequence (data_products d)); simpl;
    [| eapply rejected_input;
       [now rewrite !orb_true_r | reflexivity | apply mem4; tauto]].
  destruct (nonempty_sequence (data_sellers d)); simpl;
    [| eapply rejected_input; [reflexivity .. | apply mem4; tauto]].
  destruct (Part000Spec.options_is_record o); simpl;
    [| eapply rejected_configuration; [reflexivity .. | apply mem3; tauto]].
  destruct (Part000.options_calculateRevenue o); simpl;
    try (eapply rejected_configuration; [reflexivity .. | apply mem3; tauto]).
  destruct (Part000.options_calculateBonus o); simpl;
    try (eapply rejected_configuration; [reflexivity .. | apply mem3; tauto]).
  apply accepted; [reflexivity .. |]. intros msg.
  apply Array_map_throwing_no_Error.
Qed.

Lemma prologue_outcome_iff {A} config_messages bad_input bad_config (r : result A) :
  (forall msg, msg ∈ input_messages -> msg ∈ config_messages -> False) ->
  prologue_outcome config_messages bad_input bad_config r ->
  ((exists msg, r = Throw (Error msg) /\ msg ∈ input_messages)
     <-> bad_input = true)
  /\ ((exists msg, r = Throw (Error msg) /\ msg ∈ config_messages)
      <-> bad_input = false /\ bad_config = true)
  /\ ((forall msg, r <> Throw (Error msg))
      <-> bad_input = false /\ bad_config = false).
Proof.
  intros Hdisj [msg Hi -> Hmsg | msg Hi Hc -> Hmsg | Hi Hc Hno];
    rewrite Hi; try rewrite Hc;
    repeat split; intros;
    repeat match goal with
      | H : _ /\ _ |- _ => destruct H
      | H : exists _, _ |- _ => destruct H
      | H : Throw _ = Throw _ |- _ => injection H as H; subst
      | H : forall m, Throw (Error ?msg) <> Throw (Error m) |- _ =>
          destruct (H msg eq_refl)
      | H : ?r = Throw (Error ?msg), Hno : forall m, ?r <> Throw (Error m) |- _ =>
          destruct (Hno msg H)
      end;
    try discriminate; try (exfalso; eauto; fail); eauto.
Qed.

(** C5 (validation prologue).  In both revisions [analyzeSalesData]
    throws an [Error] carrying one of the four input messages exactly when
    the dataset is not a record or one of [sellers], [products],
    [purchase_records] is missing, not a sequence or empty; it throws an
    [Error] carrying one of the three configuration messages exactly when the
    input is valid and the options record or one of the two strategies is
    missing or not invocable; and it throws no such [Error] exactly when
    both are valid.  A thrown call yields no report, partial or otherwise. *)
Theorem validation_fail_fast (d : data_arg)
    (om : Main.options_arg) (op : Part000.options_arg) :
  (((exists msg, Main.analyzeSalesData d om = Throw (Error msg)
                 /\ msg ∈ input_messages)
      <-> invalid_input d = true)
   /\ ((exists msg, Main.analyzeSalesData d om = Throw (Error msg)
                    /\ msg ∈ MainSpec.configuration_messages)
        <-> invalid_input d = false /\ MainSpec.invalid_configuration om = true)
   /\ ((forall msg, Main.analyzeSalesData d om <> Throw (Error msg))
        <-> invalid_input d = false /\ MainSpec.invalid_configuration om = false))
  /\
  (((exists msg, Part000.analyzeSalesData d op = Throw (Error msg)
                 /\ msg ∈ input_messages)
      <-> invalid_input d = true)
   /\ ((exists msg, Part000.analyzeSalesData d op = Throw (Error msg)
                    /\ msg ∈ Part000Spec.configuration_messages)
        <-> invalid_input d = false /\ Part000Spec.invalid_configuration op = true)
   /\ ((forall msg, Part000.analyzeSalesData d op <> Throw (Error msg))
        <-> invalid_input d = false
            /\ Part000Spec.invalid_configuration op = false)).
Proof.
  split.
  - apply prologue_outcome_iff;
      [apply messages_disjoint_main | apply main_prologue].
  - apply prologue_outcome_iff;
      [apply messages_disjoint_part000 | apply part000_prologue].
Qed.

(** ** The bonus strategy *)

(** C3 (branch order of the bonus tiers).  For [total >= 1] sellers and a
    rank index [0 <= index < total], both revisions test [index = 0] first,
    then [index = 1] or [index = 2], then [index = total - 1], and otherwise
    take the default, so that a sole seller gets the top tier and index 1 of
    2 gets the second tier, not the last-place one.  part_000 returns the
    seller's profit times the rate of the tier, 0.15 / 0.10 / 0.00 / 0.05;
    main.js returns the constants [0.15*1000], [0.1*1000], [0.0*1000],
    [0.05*1000] of its source, that is 150 / 100 / 0 / 50, where its doc
    comment announces a coefficient from 0 to 0.15. *)
Theorem bonus_tiers_in_branch_order (total index : Z)
    (m : Main.Stat.t) (p : Part000.Stat.t) :
  1 <= total -> 0 <= index < total ->
  (index = 0 ->
     Part000.calculateBonusByProfit index total p
       = Num.mul (Part000.Stat.profit p) 0.15
     /\ Main.calculateBonusByProfit index total m = 150%Q)
  /\ (index = 1 \/ index = 2 ->
     Part000.calculateBonusByProfit index total p
       = Num.mul (Part000.Stat.profit p) 0.1
     /\ Main.calculateBonusByProfit index total m = 100%Q)
  /\ (3 <= index -> index = total - 1 ->
     Part000.calculateBonusByProfit index total p
       = Num.mul (Part000.Stat.profit p) 0.0
     /\ Main.calculateBonusByProfit index total m = 0%Q)
  /\ (3 <= index -> index <> total - 1 ->
     Part000.calculateBonusByProfit index total p
       = Num.mul (Part000.Stat.profit p) 0.05
     /\ Main.calculateBonusByProfit index total m = 50%Q)
  /\ (total = 1 ->
     Part000.calculateBonusByProfit index total p
       = Num.mul (Part000.Stat.profit p) 0.15
     /\ Main.calculateBonusByProfit index total m = 150%Q)
  /\ (total = 2 -> index = 1 ->
     Part000.calculateBonusByProfit index total p
       = Num.mul (Part000.Stat.profit p) 0.1
     /\ Main.calculateBonusByProfit index total m = 100%Q).
Proof.
  intros Htotal Hindex.
  unfold Part000.calculateBonusByProfit, Main.calculateBonusByProfit.
  repeat split; intros;
    repeat match goal with
      | |- context [?a =? ?b] =>
          destruct (Z.eqb_spec a b); simpl orb; cbv iota
      end;
    try reflexivity; lia.
Qed.

Lemma bonus_tiers_in_branch_order_witness :
  Part000.calculateBonusByProfit 0 1
    (Part000.Stat.Make "S1" "A B" (Part000.RevNumber 0) 20 1 [])
  = Num.mul 20 0.15
  /\ Main.calculateBonusByProfit 0 1
       (Main.Stat.Make "S1" "A B" (Num.Fin 0) 20 1 [])
     = 150%Q.
Proof.
  refine (proj1 (proj2 (proj2 (proj2 (proj2
            (bonus_tiers_in_branch_order 1 0
               (Main.Stat.Make "S1" "A B" (Num.Fin 0) 20 1 [])
               (Part000.Stat.Make "S1" "A B" (Part000.RevNumber 0) 20 1 [])
               _ _))))) _); [lia | lia | reflexivity].
Defined.

(** ** The worked example of the specification *)

(** On the example input of the specification neither revision returns a
    single record with revenue 40, profit 20 and bonus 3.00: main.js reads
    the absent [total_amount] (revenue [NaN]) and scales the bonus by 1000,
    part_000 throws in its final projection. *)
Lemma example_not_reproduced :
  Main.analyzeSalesData Example1.data Example1.main_options
  = Return [ Main.Report.Make "S1" "A B" Num.NaN 20 1 [("P1", 2%Q)] 3000 ]
  /\ Part000.analyzeSalesData Example1.data Example1.part000_options
     = Throw (TypeError "seller.revenue.toFixed is not a function")
  /\ ~ (exists r, Main.analyzeSalesData Example1.data Example1.main_options
                  = Return [r]
                /\ (exists q, Main.Report.revenue r = Num.Fin q /\ q == 40)%Q
                /\ (Main.Report.profit r == 20)%Q
                /\ (Main.Report.bonus r == 3)%Q)
  /\ ~ (exists r, Part000.analyzeSalesData Example1.data Example1.part000_options
                  = Return [r]
                /\ (Part000.Report.revenue r == 40)%Q
                /\ (Part000.Report.profit r == 20)%Q
                /\ (Part000.Report.bonus r == 3)%Q).
Proof.
  split; [vm_compute; reflexivity |].
  split; [vm_compute; reflexivity |].
  split.
  - intros (r & Hr & (q & Hq & _) & _).
    vm_compute in Hr. injection Hr as <-. discriminate Hq.
  - intros (r & Hr & _). vm_compute in Hr. discriminate Hr.
Qed.

(** C2, amended.  On the example input main.js returns a single record
    with profit 20, one sale and [P1] (quantity 2) as its only top product;
    once the purchase record carries its [total_amount] of 40 the revenue
    of that record is 40. *)
Theorem example_main_revenue_and_profit :
  (exists r, Main.analyzeSalesData Example1.data Example1.main_options = Return [r]
             /\ Main.Report.seller_id r = "S1"
             /\ Main.Report.name r = "A B"
             /\ Main.Report.profit r = 20%Q
             /\ Main.Report.sales_count r = 1
             /\ Main.Report.top_products r = [("P1", 2%Q)])
  /\ (exists r, Main.analyzeSalesData Example1.data_with_total Example1.main_options
                = Return [r]
              /\ Main.Report.seller_id r = "S1"
              /\ Main.Report.name r = "A B"
              /\ Main.Report.revenue r = Num.Fin 40
              /\ Main.Report.profit r = 20%Q
              /\ Main.Report.sales_count r = 1
              /\ Main.Report.top_products r = [("P1", 2%Q)]).
Proof.
  split; eexists; (split; [vm_compute; reflexivity |]); repeat split.
Qed.

(** ** Lookups in the two indexes *)

Lemma last_with_snoc {A} (key : A -> string) k (l : list A) x :
  last_with key k (l ++ [x])
  = if decide (key x = k) then Some x else last_with key k l.
Proof.
  unfold last_with. rewrite filter_app, filter_cons, filter_nil.
  destruct (decide (key x = k)).
  - apply last_snoc.
  - now rewrite app_nil_r.
Qed.

Lemma Object_fromEntries_last_with {A V} (key : A -> string) (val : A -> V)
    (l : list A) k :
  Object_fromEntries (map (fun x => (key x, val x)) l) !! k
  = val <$> last_with key k l.
Proof.
  induction l as [| x l IH] using rev_ind.
  - reflexivity.
  - rewrite map_app; simpl. rewrite Object_fromEntries_snoc, last_with_snoc.
    rewrite lookup_insert. simpl.
    destruct (decide (key x = k)); [reflexivity | exact IH].
Qed.

Lemma imap_pair_map {A B} (f : nat -> A -> B) (l : list A) :
  imap f l = map (fun p => f (fst p) (snd p)) (imap pair l).
Proof.
  apply list_eq. intros i.
  rewrite list_lookup_fmap, !list_lookup_imap.
  now destruct (l !! i).
Qed.

Lemma last_with_imap_map {A B} (g : A -> B) (key : B -> string)
    (l : list A) k :
  fst <$> last_with (fun p => key (snd p)) k (imap pair (map g l))
  = fst <$> last_with (fun p => key (g (snd p))) k (imap pair l).
Proof.
  induction l as [| x l IH] using rev_ind; [reflexivity |].
  rewrite map_app, !imap_app; simpl. rewrite !last_with_snoc; simpl.
  rewrite length_map, !Nat.add_0_r.
  destruct (decide (key (g x) = k)); [reflexivity | exact IH].
Qed.

Lemma productIndex_catalog_main products sku :
  Main.productIndex products !! sku = catalog products sku.
Proof.
  unfold Main.productIndex, catalog.
  rewrite (Object_fromEntries_last_with Product.sku id).
  now destruct (last_with _ _ _).
Qed.

Lemma productIndex_catalog_part000 products sku :
  Part000.productIndex products !! sku = catalog products sku.
Proof.
  unfold Part000.productIndex, catalog.
  rewrite (Object_fromEntries_last_with Product.sku id).
  now destruct (last_with _ _ _).
Qed.

Lemma sellerIndex_owner_main sellers id :
  Main.sellerIndex (map Main.new_stat sellers) !! id = owner sellers id.
Proof.
  unfold Main.sellerIndex, owner.
  rewrite imap_pair_map.
  rewrite (Object_fromEntries_last_with
             (fun p => Main.Stat.seller_id (snd p)) fst).
  apply (last_with_imap_map Main.new_stat Main.Stat.seller_id).
Qed.

Lemma sellerIndex_owner_part000 sellers id :
  Part000.sellerIndex (map Part000.new_stat sellers) !! id = owner sellers id.
Proof.
  unfold Part000.sellerIndex, owner.
  rewrite imap_pair_map.
  rewrite (Object_fromEntries_last_with
             (fun p => Part000.Stat.seller_id (snd p)) fst).
  apply (last_with_imap_map Part000.new_stat Part000.Stat.seller_id).
Qed.

Lemma last_with_None {A} (key : A -> string) k (l : list A) :
  last_with key k l = None <-> k ∉ map key l.
Proof.
  induction l as [| x l IH] using rev_ind.
  - unfold last_with; simpl. set_solver.
  - rewrite last_with_snoc, map_app; simpl.
    destruct (decide (key x = k)) as [<- | Hne].
    + split; [discriminate | set_solver].
    + rewrite IH. set_solver.
Qed.

Lemma last_with_Some_elem {A} (key : A -> string) k (l : list A) x :
  last_with key k l = Some x -> x ∈ l /\ key x = k.
Proof.
  induction l as [| y l IH] using rev_ind.
  - discriminate.
  - rewrite last_with_snoc.
    destruct (decide (key y = k)) as [<- | Hne].
    + intros [= <-]. set_solver.
    + intros H. apply IH in H. set_solver.
Qed.

(** A SKU refers to a catalog entry exactly when some product carries it. *)
Lemma catalog_None products sku :
  catalog products sku = None <-> sku ∉ map Product.sku products.
Proof. apply last_with_None. Qed.

Lemma owner_None sellers id :
  owner sellers id = None <-> id ∉ map Seller.id sellers.
Proof.
  unfold owner. rewrite fmap_None, last_with_None.
  replace (map (fun p => Seller.id (snd p)) (imap pair sellers))
    with (map Seller.id sellers); [reflexivity |].
  apply list_eq. intros i.
  rewrite !list_lookup_fmap, list_lookup_imap. now destruct (sellers !! i).
Qed.

Lemma owner_Some sellers id k :
  owner sellers id = Some k ->
  exists seller, sellers !! k = Some seller /\ Seller.id seller = id.
Proof.
  unfold owner. rewrite fmap_Some. intros ([i s] & Hlast & ->).
  apply last_with_Some_elem in Hlast as [Hin Hid]. simpl in *.
  apply elem_of_lookup_imap in Hin as (j & y & [= -> ->] & Hj). eauto.
Qed.

(** With distinct seller ids, a seller id refers to the seller carrying it. *)
Lemma owner_NoDup sellers k seller :
  NoDup (map Seller.id sellers) -> sellers !! k = Some seller ->
  owner sellers (Seller.id seller) = Some k.
Proof.
  intros Hnd Hk.
  destruct (owner sellers (Seller.id seller)) as [j |] eqn:Hj.
  - apply owner_Some in Hj as (s' & Hj & Hid).
    f_equal. eapply NoDup_lookup; [exact Hnd | |].
    + rewrite list_lookup_fmap, Hj. simpl. now rewrite Hid.
    + now rewrite list_lookup_fmap, Hk.
  - apply owner_None in Hj. exfalso. apply Hj.
    apply list_elem_of_fmap. exists seller. split; [reflexivity |].
    eapply list_elem_of_lookup_2, Hk.
Qed.

(** ** The array of accumulators under the record loop *)

Section Store.
Context {S : Type} (index : gmap string nat) (step : PurchaseRecord.t -> S -> S).

Lemma visit_fold_length records stats :
  length (foldl (visit index step) stats records) = length stats.
Proof.
  revert stats. induction records as [| r records IH]; intros stats; simpl.
  - reflexivity.
  - rewrite IH. unfold visit. destruct (index !! _); [| reflexivity].
    apply length_alter.
Qed.

Lemma visit_fold_lookup records stats k s0 :
  stats !! k = Some s0 ->
  foldl (visit index step) stats records !! k
  = Some (foldl (fun s r => step r s) s0
            (filter (fun r => index !! PurchaseRecord.seller_id r = Some k)
               records)).
Proof.
  revert stats s0.
  induction records as [| r records IH]; intros stats s0 Hk; simpl.
  - exact Hk.
  - rewrite filter_cons. unfold visit at 2.
    destruct (index !! PurchaseRecord.seller_id r) as [j |] eqn:Hj.
    + destruct (decide (Some j = Some k)) as [[= ->] | Hne].
      * simpl. apply IH. now rewrite list_lookup_alter_eq, Hk.
      * apply IH. rewrite list_lookup_alter_ne by congruence. exact Hk.
    + destruct (decide (None = Some k)); [discriminate |]. now apply IH.
Qed.
End Store.


(** Every accumulator is the fold over exactly the records whose seller id
    resolves to its seller. *)
Lemma main_aggregate_imap calculateRevenue sellers products records :
  Main.aggregate calculateRevenue sellers products records
  = imap (fun k seller =>
            main_accumulator calculateRevenue products
              (records_of sellers records k) seller)
      sellers.
Proof.
  apply list_eq. intros k. rewrite list_lookup_imap.
  unfold Main.aggregate.
  change (Main.process_record calculateRevenue (Main.productIndex products)
            (Main.sellerIndex (map Main.new_stat sellers)))
    with (visit (Main.sellerIndex (map Main.new_stat sellers))
            (Main.apply_record calculateRevenue (Main.productIndex products))).
  destruct (sellers !! k) as [seller |] eqn:Hk; simpl.
  - erewrite visit_fold_lookup
      by (rewrite list_lookup_fmap, Hk; reflexivity).
    unfold main_accumulator, records_of. do 2 f_equal.
    apply list_filter_iff. intros r. now rewrite sellerIndex_owner_main.
  - apply lookup_ge_None. rewrite visit_fold_length, length_map.
    now apply lookup_ge_None.
Qed.

Lemma part000_aggregate_imap calculateRevenue sellers products records :
  Part000.aggregate calculateRevenue sellers products records
  = imap (fun k seller =>
            part000_accumulator calculateRevenue products
              (records_of sellers records k) seller)
      sellers.
Proof.
  apply list_eq. intros k. rewrite list_lookup_imap.
  unfold Part000.aggregate.
  change (Part000.process_record calculateRevenue (Part000.productIndex products)
            (Part000.sellerIndex (map Part000.new_stat sellers)))
    with (visit (Part000.sellerIndex (map Part000.new_stat sellers))
            (Part000.apply_record calculateRevenue (Part000.productIndex products))).
  destruct (sellers !! k) as [seller |] eqn:Hk; simpl.
  - erewrite visit_fold_lookup
      by (rewrite list_lookup_fmap, Hk; reflexivity).
    unfold part000_accumulator, records_of. do 2 f_equal.
    apply list_filter_iff. intros r. now rewrite sellerIndex_owner_part000.
  - apply lookup_ge_None. rewrite visit_fold_length, length_map.
    now apply lookup_ge_None.
Qed.

(** ** Objects used as dictionaries with observable key order *)

Section Props.
Context {V : Type}.
Implicit Types (props : list (string * V)) (key : string).

Lemma get_prop_None props key : get_prop key props = None <-> key ∉ props.*1.
Proof.
  induction props as [| [k v] props IH]; simpl.
  - set_solver.
  - destruct (String.eqb_spec k key) as [-> | Hne].
    + split; [discriminate | set_solver].
    + rewrite IH. set_solver.
Qed.

Lemma get_prop_elem props key v :
  NoDup props.*1 -> (key, v) ∈ props -> get_prop key props = Some v.
Proof.
  induction props as [| [k w] props IH]; simpl; intros Hnd Hin.
  - set_solver.
  - apply NoDup_cons in Hnd as [Hk Hnd].
    apply elem_of_cons in Hin as [[= -> ->] | Hin].
    + now rewrite String.eqb_refl.
    + destruct (String.eqb_spec k key) as [-> | Hne]; [| now apply IH].
      exfalso. apply Hk. apply list_elem_of_fmap. now exists (key, v).
Qed.

Lemma get_prop_Some_elem props key v :
  get_prop key props = Some v -> (key, v) ∈ props.
Proof.
  induction props as [| [k w] props IH]; simpl; [discriminate |].
  destruct (String.eqb_spec k key) as [-> | Hne].
  - intros [= ->]. set_solver.
  - intros H. apply IH in H. set_solver.
Qed.

Lemma update_prop_keys props key (f : V -> V) :
  (update_prop key f props).*1 = props.*1.
Proof.
  induction props as [| [k v] props IH]; simpl; [reflexivity |].
  destruct (String.eqb k key); simpl; [reflexivity | f_equal; apply IH].
Qed.

Lemma get_prop_update props key key' (f : V -> V) :
  get_prop key' (update_prop key f props)
  = if decide (key' = key) then f <$> get_prop key props
    else get_prop key' props.
Proof.
  induction props as [| [k v] props IH]; simpl.
  - now destruct (decide _).
  - destruct (String.eqb_spec k key) as [-> | Hne]; simpl.
    + destruct (String.eqb_spec key key') as [<- | Hne'].
      * now rewrite decide_True.
      * now rewrite decide_False by congruence.
    + destruct (String.eqb_spec k key') as [<- | Hne'].
      * now rewrite decide_False by congruence.
      * exact IH.
Qed.

Lemma get_prop_add props key key' v :
  get_prop key' (add_prop key v props)
  = match get_prop key' props with
    | Some w => Some w
    | None => if decide (key' = key) then Some v else None
    end.
Proof.
  unfold add_prop.
  induction props as [| [k w] props IH]; simpl.
  - destruct (String.eqb_spec key key') as [<- | Hne].
    + now rewrite decide_True.
    + now rewrite decide_False by congruence.
  - destruct (String.eqb k key'); [reflexivity | exact IH].
Qed.
End Props.


Lemma first_occurrences_snoc l x :
  first_occurrences (l ++ [x])
  = if decide (x ∈ first_occurrences l) then first_occurrences l
    else first_occurrences l ++ [x].
Proof. unfold first_occurrences. now rewrite foldl_snoc. Qed.

Lemma elem_of_first_occurrences l x : x ∈ first_occurrences l <-> x ∈ l.
Proof.
  induction l as [| y l IH] using rev_ind.
  - reflexivity.
  - rewrite first_occurrences_snoc.
    destruct (decide (y ∈ first_occurrences l)) as [Hin | Hin]; set_solver.
Qed.

Lemma NoDup_first_occurrences l : NoDup (first_occurrences l).
Proof.
  induction l as [| y l IH] using rev_ind.
  - constructor.
  - rewrite first_occurrences_snoc.
    destruct (decide (y ∈ first_occurrences l)) as [Hin | Hin]; [exact IH |].
    apply NoDup_app. repeat split; [exact IH | set_solver | apply NoDup_singleton].
Qed.


(** ** The accumulator of one seller in main.js *)

Lemma lines_of_cons products item items :
  lines_of products (item :: items)
  = match catalog products (Item.sku item) with
    | Some product => [(item, product)]
    | None => []
    end ++ lines_of products items.
Proof. reflexivity. Qed.

Lemma sold_lines_cons products record records :
  sold_lines products (record :: records)
  = lines_of products (PurchaseRecord.items record) ++ sold_lines products records.
Proof. reflexivity. Qed.

Lemma main_items_fold calculateRevenue products items seller :
  foldl (Main.process_item calculateRevenue (Main.productIndex products)) seller items
  = {| Main.Stat.seller_id := Main.Stat.seller_id seller;
       Main.Stat.name := Main.Stat.name seller;
       Main.Stat.revenue := Main.Stat.revenue seller;
       Main.Stat.profit :=
         foldl Num.add (Main.Stat.profit seller)
           (map (line_profit calculateRevenue) (lines_of products items));
       Main.Stat.sales_count := Main.Stat.sales_count seller;
       Main.Stat.products_sold :=
         foldl (main_tally_line calculateRevenue) (Main.Stat.products_sold seller)
           (lines_of products items) |}.
Proof.
  revert seller. induction items as [| item items IH]; intros seller.
  - now destruct seller.
  - rewrite lines_of_cons. cbn [foldl]. rewrite IH. unfold Main.process_item.
    rewrite productIndex_catalog_main.
    destruct (catalog products (Item.sku item)) as [product |]; reflexivity.
Qed.

Lemma main_records_fold calculateRevenue products records seller :
  foldl (fun s r =>
           Main.apply_record calculateRevenue (Main.productIndex products) r s)
    seller records
  = {| Main.Stat.seller_id := Main.Stat.seller_id seller;
       Main.Stat.name := Main.Stat.name seller;
       Main.Stat.revenue :=
         foldl Num.add_nan (Main.Stat.revenue seller)
           (map (fun r => Num.of_property (PurchaseRecord.total_amount r)) records);
       Main.Stat.profit :=
         foldl Num.add (Main.Stat.profit seller)
           (map (line_profit calculateRevenue) (sold_lines products records));
       Main.Stat.sales_count :=
         Main.Stat.sales_count seller + Z.of_nat (length records);
       Main.Stat.products_sold :=
         foldl (main_tally_line calculateRevenue) (Main.Stat.products_sold seller)
           (sold_lines products records) |}.
Proof.
  revert seller. induction records as [| r records IH]; intros seller.
  - destruct seller; simpl. f_equal. lia.
  - rewrite sold_lines_cons. cbn [foldl]. rewrite IH. unfold Main.apply_record.
    rewrite main_items_fold, map_app, !foldl_app. simpl.
    f_equal. lia.
Qed.

Lemma main_accumulator_fields calculateRevenue products records seller :
  main_accumulator calculateRevenue products records seller
  = {| Main.Stat.seller_id := Seller.id seller;
       Main.Stat.name :=
         Seller.first_name seller +:+ " " +:+ Seller.last_name seller;
       Main.Stat.revenue := stated_total records;
       Main.Stat.profit :=
         sum (map (line_profit calculateRevenue) (sold_lines products records));
       Main.Stat.sales_count := Z.of_nat (length records);
       Main.Stat.products_sold :=
         foldl (main_tally_line calculateRevenue) [] (sold_lines products records) |}.
Proof. unfold main_accumulator. now rewrite main_records_fold. Qed.

(** ** From the accumulators to the report *)

Lemma main_returns calculateRevenue calculateBonusByProfit sellers products records :
  sellers <> [] -> products <> [] -> records <> [] ->
  Main.analyzeSalesData (DataObject (Arr records) (Arr products) (Arr sellers))
    (Main.OptionsObject (VFunction calculateRevenue)
       (VFunction calculateBonusByProfit))
  = Return (Main.finalResult calculateRevenue calculateBonusByProfit
              sellers products records).
Proof.
  destruct sellers, products, records; try congruence. reflexivity.
Qed.

Lemma part000_returns calculateRevenue calculateBonus sellers products records :
  sellers <> [] -> products <> [] -> records <> [] ->
  Part000.analyzeSalesData (DataObject (Arr records) (Arr products) (Arr sellers))
    (Part000.OptionsObject (VFunction calculateRevenue) (VFunction calculateBonus))
  = Part000.finalResult calculateRevenue calculateBonus sellers products records.
Proof.
  destruct sellers, products, records; try congruence. reflexivity.
Qed.

Lemma main_ranked_stats calculateBonusByProfit sorted :
  map Main.Ranked.stat (Main.sellersWithBonuses calculateBonusByProfit sorted)
  = sorted.
Proof.
  unfold Main.sellersWithBonuses. apply list_eq. intros i.
  rewrite list_lookup_fmap, list_lookup_imap. now destruct (sorted !! i).
Qed.

(** A field of the report that is computed from the accumulator alone. *)
Lemma main_report_field {B} (f : Main.Report.t -> B) (g : Main.Stat.t -> B)
    calculateRevenue calculateBonusByProfit sellers products records :
  (forall r, f (Main.project r) = g (Main.Ranked.stat r)) ->
  map f (Main.finalResult calculateRevenue calculateBonusByProfit
           sellers products records)
  = map g (Main.sortedSellers
             (Main.aggregate calculateRevenue sellers products records)).
Proof.
  intros Hfg. unfold Main.finalResult, Main.ranked.
  rewrite <- (main_ranked_stats calculateBonusByProfit (Main.sortedSellers _)) at 2.
  rewrite !map_map. apply map_ext. intros r. apply Hfg.
Qed.

(** ** Unmatched references *)

Lemma visit_fold_prune {S} (index : gmap string nat)
    (step : PurchaseRecord.t -> S -> S) sellers products :
  (forall id, id ∉ map Seller.id sellers -> index !! id = None) ->
  (forall r s, step (prune_items products r) s = step r s) ->
  forall records stats,
    foldl (visit index step) stats (prune sellers products records)
    = foldl (visit index step) stats records.
Proof.
  intros Hindex Hstep. unfold prune.
  induction records as [| r records IH]; intros stats; [reflexivity |].
  rewrite filter_cons.
  destruct (decide (seller_matches sellers r)) as [Hm | Hm]; simpl.
  - rewrite IH. f_equal. unfold visit. simpl.
    destruct (index !! PurchaseRecord.seller_id r); [| reflexivity].
    apply list_eq. intros i. rewrite !list_lookup_alter.
    destruct (decide _); [| reflexivity].
    destruct (stats !! _); simpl; [| reflexivity]. now rewrite Hstep.
  - rewrite IH. f_equal. unfold visit. now rewrite Hindex.
Qed.

Lemma main_items_prune calculateRevenue products items seller :
  foldl (Main.process_item calculateRevenue (Main.productIndex products)) seller
    (filter (sku_matches products) items)
  = foldl (Main.process_item calculateRevenue (Main.productIndex products)) seller
      items.
Proof.
  revert seller. induction items as [| item items IH]; intros seller;
    [reflexivity |].
  rewrite filter_cons.
  destruct (decide (sku_matches products item)) as [Hm | Hm]; simpl.
  - apply IH.
  - rewrite IH. f_equal. unfold Main.process_item.
    rewrite productIndex_catalog_main.
    now apply catalog_None in Hm as ->.
Qed.

Lemma part000_items_prune calculateRevenue products items seller :
  foldl (Part000.process_item calculateRevenue (Part000.productIndex products)) seller
    (filter (sku_matches products) items)
  = foldl (Part000.process_item calculateRevenue (Part000.productIndex products))
      seller items.
Proof.
  revert seller. induction items as [| item items IH]; intros seller;
    [reflexivity |].
  rewrite filter_cons.
  destruct (decide (sku_matches products item)) as [Hm | Hm]; simpl.
  - apply IH.
  - rewrite IH. f_equal. unfold Part000.process_item.
    rewrite productIndex_catalog_part000.
    now apply catalog_None in Hm as ->.
Qed.

Lemma main_aggregate_prune calculateRevenue sellers products records :
  Main.aggregate calculateRevenue sellers products (prune sellers products records)
  = Main.aggregate calculateRevenue sellers products records.
Proof.
  unfold Main.aggregate.
  apply (visit_fold_prune
           (Main.sellerIndex (map Main.new_stat sellers))
           (Main.apply_record calculateRevenue (Main.productIndex products))).
  - intros id Hid. rewrite sellerIndex_owner_main. now apply owner_None.
  - intros r s. unfold Main.apply_record. simpl. apply main_items_prune.
Qed.

Lemma part000_aggregate_prune calculateRevenue sellers products records :
  Part000.aggregate calculateRevenue sellers products (prune sellers products records)
  = Part000.aggregate calculateRevenue sellers products records.
Proof.
  unfold Part000.aggregate.
  apply (visit_fold_prune
           (Part000.sellerIndex (map Part000.new_stat sellers))
           (Part000.apply_record calculateRevenue (Part000.productIndex products))).
  - intros id Hid. rewrite sellerIndex_owner_part000. now apply owner_None.
  - intros r s. unfold Part000.apply_record. simpl. apply part000_items_prune.
Qed.

(** ** The final projection of part_000 *)

Lemma part000_item_keeps_string calculateRevenue products seller item :
  is_string (Part000.Stat.revenue seller) = true ->
  is_string (Part000.Stat.revenue
               (Part000.process_item calculateRevenue products seller item)) = true.
Proof.
  unfold Part000.process_item. destruct (products !! Item.sku item); [| trivial].
  simpl. now destruct (Part000.Stat.revenue seller).
Qed.

Lemma part000_items_keep_string calculateRevenue products items seller :
  is_string (Part000.Stat.revenue seller) = true ->
  is_string (Part000.Stat.revenue
               (foldl (Part000.process_item calculateRevenue products) seller items))
  = true.
Proof.
  revert seller. induction items as [| item items IH]; intros seller Hs; simpl.
  - exact Hs.
  - now apply IH, part000_item_keeps_string.
Qed.

Lemma part000_items_make_string calculateRevenue products items seller item :
  item ∈ items -> is_Some (products !! Item.sku item) ->
  is_string (Part000.Stat.revenue
               (foldl (Part000.process_item calculateRevenue products) seller items))
  = true.
Proof.
  revert seller. induction items as [| x items IH]; intros seller Hin Hsome.
  - set_solver.
  - simpl. apply elem_of_cons in Hin as [<- | Hin]; [| now apply IH].
    apply part000_items_keep_string.
    unfold Part000.process_item. destruct Hsome as [product ->]. simpl.
    now destruct (Part000.Stat.revenue seller).
Qed.

Lemma part000_records_keep_string calculateRevenue products records seller :
  is_string (Part000.Stat.revenue seller) = true ->
  is_string (Part000.Stat.revenue
               (foldl (fun s r => Part000.apply_record calculateRevenue products r s)
                  seller records)) = true.
Proof.
  revert seller. induction records as [| r records IH]; intros seller Hs; simpl.
  - exact Hs.
  - apply IH. unfold Part000.apply_record. now apply part000_items_keep_string.
Qed.

Lemma part000_records_make_string calculateRevenue products records seller
    record item :
  record ∈ records -> item ∈ PurchaseRecord.items record ->
  is_Some (products !! Item.sku item) ->
  is_string (Part000.Stat.revenue
               (foldl (fun s r => Part000.apply_record calculateRevenue products r s)
                  seller records)) = true.
Proof.
  revert seller. induction records as [| r records IH]; intros seller Hr Hi Hsome.
  - set_solver.
  - simpl. apply elem_of_cons in Hr as [<- | Hr]; [| now apply IH].
    apply part000_records_keep_string. unfold Part000.apply_record.
    eapply part000_items_make_string; eassumption.
Qed.

Lemma Array_map_throwing_string (l : list Part000.Ranked.t) x :
  x ∈ l -> is_string (Part000.Stat.revenue (Part000.Ranked.stat x)) = true ->
  Array_map_throwing Part000.project l
  = Throw (TypeError "seller.revenue.toFixed is not a function").
Proof.
  induction l as [| y l IH]; intros Hin Hx; [set_solver |].
  simpl. unfold Part000.project at 1.
  destruct (Part000.Stat.revenue (Part000.Ranked.stat y)) as [z | s] eqn:Hy;
    simpl; [| reflexivity].
  apply elem_of_cons in Hin as [-> | Hin].
  - rewrite Hy in Hx. discriminate.
  - now rewrite IH.
Qed.



(** ** Ranking *)

Lemma descending_mono {A} (key key' : A -> Q) (l : list A) :
  (forall a b, (key b <= key a)%Q -> (key' b <= key' a)%Q) ->
  descending key l -> descending key' l.
Proof.
  intros Hmono. unfold descending. induction 1 as [| x l Hs IH Hall].
  - constructor.
  - constructor; [exact IH |]. eapply Forall_impl; [exact Hall |]. auto.
Qed.

Lemma Array_map_throwing_Return {A B} (f : A -> result B) (l : list A) out :
  Array_map_throwing f l = Return out -> Forall2 (fun x y => f x = Return y) l out.
Proof.
  revert out. induction l as [| x l IH]; intros out; simpl.
  - intros [= <-]. constructor.
  - destruct (f x) as [y |] eqn:Hx; [| discriminate].
    destruct (Array_map_throwing f l) as [ys |]; [| discriminate].
    intros [= <-]. constructor; [exact Hx | now apply IH].
Qed.

Lemma main_aggregate_ids calculateRevenue sellers products records :
  map Main.Stat.seller_id (Main.aggregate calculateRevenue sellers products records)
  = map Seller.id sellers.
Proof.
  rewrite main_aggregate_imap. apply list_eq. intros k.
  rewrite !list_lookup_fmap, list_lookup_imap.
  destruct (sellers !! k); [| reflexivity]. simpl.
  now rewrite main_accumulator_fields.
Qed.

Lemma part000_aggregate_length calculateRevenue sellers products records :
  length (Part000.aggregate calculateRevenue sellers products records)
  = length sellers.
Proof. rewrite part000_aggregate_imap. apply length_imap. Qed.

(** ** [Object.entries] *)

Section Entries.
Context {V : Type}.
Implicit Types (props : list (string * V)).

Lemma index_insert_Permutation n (kv : string * V) l :
  index_insert n kv l ≡ₚ (n, kv) :: l.
Proof.
  induction l as [| [m kv'] l IH]; simpl; [reflexivity |].
  destruct (n <? m)%N; [reflexivity |].
  rewrite IH. apply perm_swap.
Qed.

Lemma Object_entries_Permutation props : Object_entries props ≡ₚ props.
Proof.
  unfold Object_entries, index_props, named_props.
  induction props as [| [k v] props IH]; [reflexivity |].
  rewrite filter_cons. simpl.
  destruct (array_index k) as [n |] eqn:Hk.
  - rewrite decide_False by discriminate.
    rewrite index_insert_Permutation. simpl. now rewrite IH.
  - rewrite decide_True by reflexivity.
    rewrite <- Permutation_middle. now rewrite IH.
Qed.

Lemma index_props_nil props :
  (forall key, key ∈ props.*1 -> array_index key = None) -> index_props props = [].
Proof.
  unfold index_props.
  induction props as [| [k v] props IH]; intros Hkeys; [reflexivity |].
  simpl. rewrite (Hkeys k) by set_solver.
  apply IH. intros key Hkey. apply Hkeys. set_solver.
Qed.

Lemma named_props_all props :
  (forall key, key ∈ props.*1 -> array_index key = None) -> named_props props = props.
Proof.
  unfold named_props.
  induction props as [| [k v] props IH]; intros Hkeys; [reflexivity |].
  rewrite filter_cons, decide_True by (apply Hkeys; set_solver).
  f_equal. apply IH. intros key Hkey. apply Hkeys. set_solver.
Qed.

(** Without array-index keys the enumeration is in creation order. *)
Lemma Object_entries_named props :
  (forall key, key ∈ props.*1 -> array_index key = None) ->
  Object_entries props = props.
Proof.
  intros Hkeys. unfold Object_entries.
  now rewrite index_props_nil, named_props_all.
Qed.

(** The enumeration order depends on the keys only. *)
Lemma index_insert_fmap {W} (f : V -> W) n (kv : string * V) l :
  index_insert n (kv.1, f kv.2) (prod_map id (prod_map id f) <$> l)
  = prod_map id (prod_map id f) <$> index_insert n kv l.
Proof.
  induction l as [| [m kv'] l IH]; simpl; [reflexivity |].
  destruct (n <? m)%N; simpl; [reflexivity |]. f_equal. apply IH.
Qed.

Lemma index_props_cons k (v : V) props :
  index_props ((k, v) :: props)
  = match array_index k with
    | Some n => index_insert n (k, v) (index_props props)
    | None => index_props props
    end.
Proof. reflexivity. Qed.

Lemma index_props_fmap {W} (f : V -> W) props :
  index_props (prod_map id f <$> props)
  = prod_map id (prod_map id f) <$> index_props props.
Proof.
  induction props as [| [k v] props IH]; [reflexivity |].
  rewrite fmap_cons. unfold prod_map at 1. cbn [fst snd id].
  rewrite index_props_cons.
  change (index_props ((k, f v) :: (prod_map id f <$> props)))
    with (match array_index k with
          | Some n => index_insert n (k, f v) (index_props (prod_map id f <$> props))
          | None => index_props (prod_map id f <$> props)
          end).
  rewrite IH.
  destruct (array_index k) as [n |]; [| reflexivity].
  apply (index_insert_fmap f n (k, v)).
Qed.

Lemma Object_entries_fmap {W} (f : V -> W) props :
  Object_entries (prod_map id f <$> props) = prod_map id f <$> Object_entries props.
Proof.
  unfold Object_entries. rewrite fmap_app. f_equal.
  - rewrite index_props_fmap, <- !list_fmap_compose.
    apply list_fmap_ext. now intros i [n [k v]].
  - unfold named_props. induction props as [| [k v] props IH]; [reflexivity |].
    rewrite fmap_cons, !filter_cons. simpl.
    destruct (decide (array_index k = None)); simpl; now rewrite IH.
Qed.
End Entries.

Lemma sort_insert_fmap {A B} (f : A -> B) (c : B -> B -> Q) x l :
  map f (sort_insert (fun a b => c (f a) (f b)) x l) = sort_insert c (f x) (map f l).
Proof.
  induction l as [| y l IH]; simpl; [reflexivity |].
  destruct (Qle_bool (c (f x) (f y)) 0); simpl; [reflexivity |]. f_equal. apply IH.
Qed.

Lemma Array_sort_fmap {A B} (f : A -> B) (c : B -> B -> Q) l :
  map f (Array_sort (fun a b => c (f a) (f b)) l) = Array_sort c (map f l).
Proof.
  induction l as [| x l IH]; simpl; [reflexivity |].
  rewrite sort_insert_fmap. f_equal. apply IH.
Qed.

(** ** The per-product aggregates of one seller *)

Section Tally.
Context {V W : Type}.
Implicit Types (props : list (string * V)).

Lemma update_prop_fmap (g : V -> W) (f : V -> V) (f' : W -> W) key props :
  (forall v, g (f v) = f' (g v)) ->
  prod_map id g <$> update_prop key f props
  = update_prop key f' (prod_map id g <$> props).
Proof.
  intros Hg. induction props as [| [k v] props IH]; simpl; [reflexivity |].
  destruct (String.eqb k key); simpl.
  - unfold prod_map at 1. simpl. now rewrite Hg.
  - f_equal. apply IH.
Qed.

Lemma update_prop_snoc (f : V -> V) key v props :
  key ∉ props.*1 ->
  update_prop key f (props ++ [(key, v)]) = props ++ [(key, f v)].
Proof.
  induction props as [| [k w] props IH]; simpl; intros Hnot.
  - now rewrite String.eqb_refl.
  - destruct (String.eqb_spec k key) as [-> | Hne]; [set_solver |].
    f_equal. apply IH. set_solver.
Qed.

Lemma get_prop_fmap (g : V -> W) key props :
  get_prop key (prod_map id g <$> props) = g <$> get_prop key props.
Proof.
  induction props as [| [k v] props IH]; simpl; [reflexivity |].
  destruct (String.eqb k key); [reflexivity | exact IH].
Qed.
End Tally.

Lemma update_prop_keyed {W} (h : W -> W) (F : string -> W) key keys :
  NoDup keys ->
  update_prop key h (map (fun k => (k, F k)) keys)
  = map (fun k => (k, if decide (k = key) then h (F k) else F k)) keys.
Proof.
  induction keys as [| k keys IH]; intros Hnd; simpl; [reflexivity |].
  apply NoDup_cons in Hnd as [Hk Hnd].
  destruct (String.eqb_spec k key) as [-> | Hne].
  - rewrite decide_True by reflexivity. f_equal.
    apply map_ext_in. intros k Hin.
    rewrite decide_False; [reflexivity |].
    intros ->. apply Hk. now apply list_elem_of_In.
  - rewrite decide_False by assumption. f_equal. now apply IH.
Qed.

Lemma quantity_sold_snoc sku lines line :
  quantity_sold sku (lines ++ [line])
  = if decide (Item.sku (fst line) = sku)
    then Num.add (quantity_sold sku lines) (Item.quantity (fst line))
    else quantity_sold sku lines.
Proof.
  unfold quantity_sold. rewrite filter_app, filter_cons, filter_nil.
  destruct (decide (Item.sku line.1 = sku)).
  - rewrite map_app. apply (foldl_snoc Num.add).
  - now rewrite app_nil_r.
Qed.

Lemma quantity_sold_unsold sku lines :
  sku ∉ map (fun line => Item.sku (fst line)) lines -> quantity_sold sku lines = 0%Q.
Proof.
  intros Hnot. unfold quantity_sold.
  replace (filter _ lines) with (@nil (Item.t * Product.t)); [reflexivity |].
  induction lines as [| line lines IH]; [reflexivity |].
  rewrite filter_cons, decide_False by set_solver.
  apply IH. set_solver.
Qed.

Lemma tally_unfold lines :
  tally lines
  = map (fun sku => (sku, quantity_sold sku lines))
      (first_occurrences (map (fun line => Item.sku (fst line)) lines)).
Proof. reflexivity. Qed.

Lemma tally_keys lines :
  (tally lines).*1 = first_occurrences (map (fun line => Item.sku (fst line)) lines).
Proof.
  unfold tally. fold (first_occurrences (map (fun line => Item.sku line.1) lines)).
  rewrite <- list_fmap_compose. apply list_fmap_id.
Qed.

(** The quantities stored in [products_sold] are the totals per SKU, the
    SKUs being in order of first sale. *)
Section TallyQuantities.
Context {V : Type} (quantity : V -> Q).
Context (fresh : Item.t * Product.t -> V) (credit : Item.t * Product.t -> V -> V).
Hypothesis fresh_quantity : forall line, quantity (fresh line) = 0%Q.
Hypothesis credit_quantity : forall line v,
  quantity (credit line v) = Num.add (quantity v) (Item.quantity (fst line)).

Lemma tally_quantities lines :
  prod_map id quantity <$> foldl (tally_line fresh credit) [] lines = tally lines.
Proof.
  induction lines as [| line lines IH] using rev_ind; [reflexivity |].
  rewrite foldl_snoc.
  set (ps := foldl (tally_line fresh credit) [] lines) in *.
  assert (Hkeys : ps.*1
                  = first_occurrences
                      (map (fun l : Item.t * Product.t => Item.sku l.1) lines)).
  { rewrite <- tally_keys, <- IH, <- list_fmap_compose. reflexivity. }
  set (skus := map (fun l : Item.t * Product.t => Item.sku l.1) lines) in *.
  unfold tally_line.
  rewrite (update_prop_fmap _ _
             (fun x => Num.add x (Item.quantity line.1)))
    by apply credit_quantity.
  rewrite (tally_unfold (lines ++ [line])), map_app.
  change (map (fun l : Item.t * Product.t => Item.sku l.1) [line])
    with [Item.sku line.1].
  fold skus. rewrite first_occurrences_snoc.
  destruct (get_prop (Item.sku line.1) ps) as [d |] eqn:Hget.
  - assert (Hin : Item.sku line.1 ∈ first_occurrences skus).
    { rewrite <- Hkeys. destruct (decide (Item.sku line.1 ∈ ps.*1)); [assumption |].
      apply get_prop_None in n. congruence. }
    rewrite decide_True by assumption.
    rewrite IH, tally_unfold. fold skus.
    rewrite update_prop_keyed by apply NoDup_first_occurrences.
    apply map_ext. intros k. rewrite quantity_sold_snoc.
    destruct (decide (k = Item.sku line.1)) as [-> | Hne].
    + now rewrite decide_True.
    + now rewrite decide_False by congruence.
  - assert (Hnotin : Item.sku line.1 ∉ first_occurrences skus).
    { rewrite <- Hkeys. now apply get_prop_None. }
    rewrite decide_False by assumption.
    unfold add_prop. rewrite fmap_app. simpl.
    rewrite update_prop_snoc
      by (rewrite <- list_fmap_compose; simpl;
          change (list_fmap _ _ (fun x => (prod_map id quantity x).1) ps)
            with (ps.*1); now apply get_prop_None).
    rewrite IH, map_app. simpl. f_equal.
    + rewrite tally_unfold. fold skus.
      apply map_ext_in. intros k Hk. rewrite quantity_sold_snoc.
      rewrite decide_False; [reflexivity |].
      intros Heq. apply Hnotin. rewrite Heq. now apply list_elem_of_In.
    + rewrite fresh_quantity, quantity_sold_snoc, decide_True by reflexivity.
      rewrite quantity_sold_unsold; [reflexivity |].
      fold skus. now rewrite <- elem_of_first_occurrences.
Qed.
End TallyQuantities.

Lemma main_tally_quantities calculateRevenue lines :
  prod_map id Main.ProductData.quantity
    <$> foldl (main_tally_line calculateRevenue) [] lines
  = tally lines.
Proof. now apply tally_quantities. Qed.

Lemma part000_tally_quantities calculateRevenue lines :
  prod_map id Part000.ProductData.quantity
    <$> foldl (part000_tally_line calculateRevenue) [] lines
  = tally lines.
Proof. now apply tally_quantities. Qed.

(** ** The accumulator of one seller in part_000 *)

Lemma part000_items_fold calculateRevenue products items seller :
  foldl (Part000.process_item calculateRevenue (Part000.productIndex products))
    seller items
  = {| Part000.Stat.seller_id := Part000.Stat.seller_id seller;
       Part000.Stat.name := Part000.Stat.name seller;
       Part000.Stat.revenue :=
         foldl Part000.append_string (Part000.Stat.revenue seller)
           (map (fun line => Num.toFixed2 (line_revenue calculateRevenue line))
              (lines_of products items));
       Part000.Stat.profit :=
         foldl Num.add (Part000.Stat.profit seller)
           (map (line_profit calculateRevenue) (lines_of products items));
       Part000.Stat.sales_count := Part000.Stat.sales_count seller;
       Part000.Stat.products_sold :=
         foldl (part000_tally_line calculateRevenue)
           (Part000.Stat.products_sold seller) (lines_of products items) |}.
Proof.
  revert seller. induction items as [| item items IH]; intros seller.
  - now destruct seller.
  - rewrite lines_of_cons. cbn [foldl]. rewrite IH. unfold Part000.process_item.
    rewrite productIndex_catalog_part000.
    destruct (catalog products (Item.sku item)) as [product |]; reflexivity.
Qed.

Lemma part000_records_fold calculateRevenue products records seller :
  foldl (fun s r =>
           Part000.apply_record calculateRevenue (Part000.productIndex products) r s)
    seller records
  = {| Part000.Stat.seller_id := Part000.Stat.seller_id seller;
       Part000.Stat.name := Part000.Stat.name seller;
       Part000.Stat.revenue :=
         foldl Part000.append_string (Part000.Stat.revenue seller)
           (map (fun line => Num.toFixed2 (line_revenue calculateRevenue line))
              (sold_lines products records));
       Part000.Stat.profit :=
         foldl Num.add (Part000.Stat.profit seller)
           (map (line_profit calculateRevenue) (sold_lines products records));
       Part000.Stat.sales_count :=
         Part000.Stat.sales_count seller + Z.of_nat (length records);
       Part000.Stat.products_sold :=
         foldl (part000_tally_line calculateRevenue)
           (Part000.Stat.products_sold seller) (sold_lines products records) |}.
Proof.
  revert seller. induction records as [| r records IH]; intros seller.
  - destruct seller; simpl. f_equal. lia.
  - rewrite sold_lines_cons. cbn [foldl]. rewrite IH. unfold Part000.apply_record.
    rewrite part000_items_fold, !map_app, !foldl_app. simpl.
    f_equal. lia.
Qed.

Lemma part000_accumulator_fields calculateRevenue products records seller :
  part000_accumulator calculateRevenue products records seller
  = {| Part000.Stat.seller_id := Seller.id seller;
       Part000.Stat.name :=
         Seller.first_name seller +:+ " " +:+ Seller.last_name seller;
       Part000.Stat.revenue :=
         foldl Part000.append_string (Part000.RevNumber 0)
           (map (fun line => Num.toFixed2 (line_revenue calculateRevenue line))
              (sold_lines products records));
       Part000.Stat.profit :=
         sum (map (line_profit calculateRevenue) (sold_lines products records));
       Part000.Stat.sales_count := Z.of_nat (length records);
       Part000.Stat.products_sold :=
         foldl (part000_tally_line calculateRevenue) []
           (sold_lines products records) |}.
Proof. unfold part000_accumulator. now rewrite part000_records_fold. Qed.

(** ** Top products *)

Lemma main_report_top_products calculateBonusByProfit total index seller :
  Main.Report.top_products
    (Main.project (Main.assign_bonus calculateBonusByProfit total index seller))
  = top_ten (prod_map id Main.ProductData.quantity <$> Main.Stat.products_sold seller).
Proof.
  unfold Main.project, Main.assign_bonus, Main.top_products_of, top_ten.
  cbn [Main.Report.top_products Main.Ranked.top_products].
  unfold Array_slice0. rewrite <- firstn_map. f_equal.
  rewrite (Array_sort_fmap
             (fun product => (Main.TopProduct.sku product,
                              Main.TopProduct.quantity product))
             (by_key_desc snd)).
  f_equal. rewrite Object_entries_fmap, map_map.
  apply map_ext. now intros [sku d].
Qed.

Lemma part000_top_products seller :
  Part000.top_products_of seller
  = top_ten (prod_map id Part000.ProductData.quantity
               <$> Part000.Stat.products_sold seller).
Proof.
  unfold Part000.top_products_of, top_ten, Array_slice0. f_equal.
  rewrite Object_entries_fmap. f_equal. apply map_ext. now intros [sku d].
Qed.


Lemma top_ten_law lines : top_products_law lines (top_ten (tally lines)).
Proof.
  unfold top_products_law, top_ten.
  assert (Hperm : Array_sort (by_key_desc snd) (Object_entries (tally lines))
                  ≡ₚ tally lines).
  { now rewrite Array_sort_Permutation, Object_entries_Permutation. }
  repeat split.
  - rewrite length_take. lia.
  - apply descending_take, Array_sort_descending.
  - exact Hperm.
  - intros sku quantity Hin.
    assert (Hall : (sku, quantity) ∈ tally lines).
    { rewrite <- Hperm.
      apply list_elem_of_lookup in Hin as [i Hi].
      apply lookup_take_Some in Hi as [Hi _].
      eapply list_elem_of_lookup_2, Hi. }
    rewrite tally_unfold in Hall.
    apply list_elem_of_In, in_map_iff in Hall as (k & [= -> ->] & _). reflexivity.
  - intros q. apply (Array_sort_stable snd).
  - apply Object_entries_named.
Qed.

(** ** Rounding *)

(** C8 (rounding only at the output).  On a purchase with line revenues
    10.004 and 20.004, part_000 rounds each line revenue with [toFixed(2)]
    before adding it to the seller's revenue; the rounded values are strings,
    so the accumulator ends up holding the text "010.0020.00" and the call
    throws instead of reporting 30.01, the rounding of the full-precision
    sum 30.008.  The profit of the same accumulator is kept in full
    precision (10.008), and main.js rounds only in its projections. *)
Theorem part000_accumulates_rounded_revenue :
  map (line_revenue calculateSimpleRevenue)
    (sold_lines [Example1.P1] (records_of [Example1.S1] [Example8.record] 0))
  = [Qred 10.004; Qred 20.004]
  /\ Num.round2 (sum [Qred 10.004; Qred 20.004]) = Qred 30.01
  /\ Part000.aggregate calculateSimpleRevenue [Example1.S1] [Example1.P1]
       [Example8.record]
     = [ Part000.Stat.Make "S1" "A B" (Part000.RevString "010.0020.00")
           (Qred 10.008) 1
           [("P1", Part000.ProductData.Make 2 (Qred 30.008) (Qred 10.008))] ]
  /\ Part000.analyzeSalesData Example8.data Example1.part000_options
     = Throw (TypeError "seller.revenue.toFixed is not a function")
  /\ Main.analyzeSalesData Example8.data Example1.main_options
     = Return [ Main.Report.Make "S1" "A B" (Num.Fin (Qred 30.01)) (Qred 10.01) 1
                  [("P1", 2%Q)] (Qred 1501.2) ].
Proof. repeat split; vm_compute; reflexivity. Qed.

(** * Objects and references

    The functions above pass accumulators by value.  To speak about mutation
    of the caller's objects, the same pipeline is written once more over a
    heap: every object sits in a cell, a reference is the location of a cell,
    property reads are loads and property writes are stores.  The caller's
    arrays [data.sellers], [data.products], [data.purchase_records] and their
    elements are cells that exist before the call; [data.sellers.map(...)]
    allocates the accumulators and the array [sellerStats]; [sellerIndex] and
    [productIndex] map keys to references, the latter to the caller's own
    product objects.  The objects nested in a purchase record (its items) and
    in an accumulator ([products_sold] and its entries) are kept inside the
    cell of their owner.  The model is generic in the accumulator and is
    instantiated with both revisions.

    The two indexes are read by own property, as in [Main] and [Part000].
    A read through a key inherited from [Object.prototype] finds a built-in
    object of the realm; the writes that follow it land on that object,
    which is none of the caller's cells, or the call throws. *)

Module Heap.
Section Model.
Context {Stat Ranked Report : Type}.
Variable new_stat : Seller.t -> Stat.
Variable stat_id : Stat -> string.
Variable count_sale : PurchaseRecord.t -> Stat -> Stat.
Variable credit_item : Stat -> Item.t -> Product.t -> Stat.
Variable profit : Stat -> Q.
Variable assign_bonus : Z -> nat -> Stat -> Ranked.
Variable project : Ranked -> result Report.

Abbreviation loc := nat (only parsing).

Inductive cell : Type :=
| CSeller (s : Seller.t)
| CProduct (p : Product.t)
| CRecord (r : PurchaseRecord.t)
| CArray (elems : list loc)
| CStat (s : Stat)
| CRanked (r : Ranked).

Abbreviation heap := (list cell) (only parsing).

(** Computations that read and write the heap; [None] is a read or write
    through a dangling or ill-typed reference. *)
Definition M (A : Type) : Type := heap -> option (A * heap).

Definition ret {A} (a : A) : M A := fun h => Some (a, h).

Definition bind {A B} (m : M A) (k : A -> M B) : M B :=
  fun h => match m h with
           | Some (a, h') => k a h'
           | None => None
           end.

Definition stuck {A} : M A := fun _ => None.

Notation "'do' x <- m ; k" := (bind m (fun x => k))
  (at level 10, x name, m at level 100, k at level 200).

Definition load (l : loc) : M cell :=
  fun h => match h !! l with
           | Some c => Some (c, h)
           | None => None
           end.

Definition store (l : loc) (c : cell) : M unit :=
  fun h => match h !! l with
           | Some _ => Some (tt, <[l := c]> h)
           | None => None
           end.

Definition alloc (c : cell) : M loc := fun h => Some (length h, h ++ [c]).

Definition load_seller (l : loc) : M Seller.t :=
  do c <- load l; match c with CSeller s => ret s | _ => stuck end.

Definition load_product (l : loc) : M Product.t :=
  do c <- load l; match c with CProduct p => ret p | _ => stuck end.

Definition load_record (l : loc) : M PurchaseRecord.t :=
  do c <- load l; match c with CRecord r => ret r | _ => stuck end.

Definition load_array (l : loc) : M (list loc) :=
  do c <- load l; match c with CArray ls => ret ls | _ => stuck end.

Definition load_stat (l : loc) : M Stat :=
  do c <- load l; match c with CStat s => ret s | _ => stuck end.

Definition load_ranked (l : loc) : M Ranked :=
  do c <- load l; match c with CRanked r => ret r | _ => stuck end.

(** [array.map(callback)] and [array.forEach(callback)] *)
Fixpoint mapM {A B} (callback : A -> M B) (l : list A) : M (list B) :=
  match l with
  | [] => ret []
  | x :: l' => do y <- callback x; do ys <- mapM callback l'; ret (y :: ys)
  end.

Fixpoint forEach {A} (callback : nat -> A -> M unit) (index : nat) (l : list A)
  : M unit :=
  match l with
  | [] => ret tt
  | x :: l' => do _ <- callback index x; forEach callback (S index) l'
  end.

(** Body of the item loop for the accumulator referenced by [seller]. *)
Definition credit_line (productIndex : gmap string loc) (seller : loc)
    (item : Item.t) : M unit :=
  match productIndex !! Item.sku item with
  | None => ret tt
  | Some product_ref =>
      do product <- load_product product_ref;
      do st <- load_stat seller;
      store seller (CStat (credit_item st item product))
  end.

(** Body of the record loop. *)
Definition credit_record (sellerIndex productIndex : gmap string loc)
    (record_ref : loc) : M unit :=
  do record <- load_record record_ref;
  match sellerIndex !! PurchaseRecord.seller_id record with
  | None => ret tt
  | Some seller =>
      do st <- load_stat seller;
      do _ <- store seller (CStat (count_sale record st));
      forEach (fun _ item => credit_line productIndex seller item) 0
        (PurchaseRecord.items record)
  end.

(** Everything [analyzeSalesData] does after its prologue, given the
    references held in [data.sellers], [data.products] and
    [data.purchase_records]. *)
Definition run (sellers products purchase_records : loc)
  : M (result (list Report)) :=
  do seller_refs <- load_array sellers;
  do stat_refs <-
    mapM (fun l => do s <- load_seller l; alloc (CStat (new_stat s))) seller_refs;
  do sellerStats <- alloc (CArray stat_refs);
  do seller_entries <-
    mapM (fun l => do st <- load_stat l; ret (stat_id st, l)) stat_refs;
  do product_refs <- load_array products;
  do product_entries <-
    mapM (fun l => do p <- load_product l; ret (Product.sku p, l)) product_refs;
  do record_refs <- load_array purchase_records;
  do _ <-
    forEach (fun _ record_ref =>
               credit_record (Object_fromEntries seller_entries)
                 (Object_fromEntries product_entries) record_ref)
      0 record_refs;
  do refs <- load_array sellerStats;
  do keyed <- mapM (fun l => do st <- load_stat l; ret (l, profit st)) refs;
  do _ <- store sellerStats
            (CArray (map fst (Array_sort (by_key_desc snd) keyed)));
  do sorted <- load_array sellerStats;
  do _ <-
    forEach (fun index l =>
               do st <- load_stat l;
               store l (CRanked (assign_bonus (Z.of_nat (length sorted)) index st)))
      0 sorted;
  do ranked <- mapM load_ranked sorted;
  ret (Array_map_throwing project ranked).

(** The same pipeline on values. *)
Definition credit_items (products : gmap string Product.t)
    (record : PurchaseRecord.t) (seller : Stat) : Stat :=
  foldl (fun s item =>
           match products !! Item.sku item with
           | None => s
           | Some product => credit_item s item product
           end)
    (count_sale record seller) (PurchaseRecord.items record).

Definition pure_aggregate (sellers : list Seller.t) (products : list Product.t)
    (records : list PurchaseRecord.t) : list Stat :=
  let sellerStats := map new_stat sellers in
  foldl (visit (Object_fromEntries (imap (fun i st => (stat_id st, i)) sellerStats))
           (credit_items
              (Object_fromEntries (map (fun p => (Product.sku p, p)) products))))
    sellerStats records.

Definition pure_run (sellers : list Seller.t) (products : list Product.t)
    (records : list PurchaseRecord.t) : result (list Report) :=
  let sorted :=
    Array_sort (by_key_desc profit) (pure_aggregate sellers products records) in
  Array_map_throwing project
    (imap (assign_bonus (Z.of_nat (length sorted))) sorted).

(** The caller's data as it lies in the heap. *)
Definition input_at (h : heap) (sellers_ref products_ref records_ref : loc)
    (sellers : list Seller.t) (products : list Product.t)
    (records : list PurchaseRecord.t) : Prop :=
  exists seller_refs product_refs record_refs,
    h !! sellers_ref = Some (CArray seller_refs)
    /\ Forall2 (fun l s => h !! l = Some (CSeller s)) seller_refs sellers
    /\ h !! products_ref = Some (CArray product_refs)
    /\ Forall2 (fun l p => h !! l = Some (CProduct p)) product_refs products
    /\ h !! records_ref = Some (CArray record_refs)
    /\ Forall2 (fun l r => h !! l = Some (CRecord r)) record_refs records.

(** ** Elementary steps *)

Lemma bind_Some {A B} (m : M A) (k : A -> M B) h a h' :
  m h = Some (a, h') -> bind m k h = k a h'.
Proof. unfold bind. now intros ->. Qed.

Lemma load_seller_Some h l s :
  h !! l = Some (CSeller s) -> load_seller l h = Some (s, h).
Proof. unfold load_seller, bind, load. now intros ->. Qed.

Lemma load_product_Some h l p :
  h !! l = Some (CProduct p) -> load_product l h = Some (p, h).
Proof. unfold load_product, bind, load. now intros ->. Qed.

Lemma load_record_Some h l r :
  h !! l = Some (CRecord r) -> load_record l h = Some (r, h).
Proof. unfold load_record, bind, load. now intros ->. Qed.

Lemma load_array_Some h l ls :
  h !! l = Some (CArray ls) -> load_array l h = Some (ls, h).
Proof. unfold load_array, bind, load. now intros ->. Qed.

Lemma load_stat_Some h l s :
  h !! l = Some (CStat s) -> load_stat l h = Some (s, h).
Proof. unfold load_stat, bind, load. now intros ->. Qed.

Lemma load_ranked_Some h l r :
  h !! l = Some (CRanked r) -> load_ranked l h = Some (r, h).
Proof. unfold load_ranked, bind, load. now intros ->. Qed.

Lemma store_Some h l c c' :
  h !! l = Some c' -> store l c h = Some (tt, <[l := c]> h).
Proof. unfold store. now intros ->. Qed.

(** A traversal whose callback only reads. *)
Lemma mapM_read {A B} (callback : A -> M B) (l : list A) (ys : list B) h :
  Forall2 (fun x y => callback x h = Some (y, h)) l ys ->
  mapM callback l h = Some (ys, h).
Proof.
  induction 1 as [| x y l ys Hxy _ IH]; [reflexivity |].
  simpl. rewrite (bind_Some _ _ _ _ _ Hxy), (bind_Some _ _ _ _ _ IH). reflexivity.
Qed.

(** ** The region of the heap allocated by the call *)

Lemma region_lookup (h0 cells rest : heap) k :
  (k < length cells)%nat ->
  (h0 ++ cells ++ rest) !! (length h0 + k)%nat = cells !! k.
Proof.
  intros Hk. rewrite lookup_app_r by lia.
  replace (length h0 + k - length h0)%nat with k by lia.
  now apply lookup_app_l.
Qed.

Lemma region_insert (h0 cells rest : heap) k c :
  (k < length cells)%nat ->
  <[(length h0 + k)%nat := c]> (h0 ++ cells ++ rest) = h0 ++ <[k := c]> cells ++ rest.
Proof.
  intros Hk. rewrite insert_app_r. f_equal. now apply insert_app_l.
Qed.

Lemma input_lookup (h0 ext : heap) l c :
  h0 !! l = Some c -> (h0 ++ ext) !! l = Some c.
Proof. apply lookup_app_l_Some. Qed.

(** ** Allocation of the accumulators and construction of the indexes *)

Lemma alloc_stats (h0 : heap) refs sellers ext :
  Forall2 (fun l s => h0 !! l = Some (CSeller s)) refs sellers ->
  mapM (fun l => do s <- load_seller l; alloc (CStat (new_stat s))) refs (h0 ++ ext)
  = Some (seq (length h0 + length ext) (length sellers),
          h0 ++ ext ++ map CStat (map new_stat sellers)).
Proof.
  intros Hin. revert ext.
  induction Hin as [| l s refs sellers Hl _ IH]; intros ext.
  - simpl. now rewrite app_nil_r.
  - simpl mapM.
    erewrite bind_Some; cycle 1.
    { erewrite bind_Some by (apply load_seller_Some, input_lookup, Hl).
      reflexivity. }
    rewrite <- app_assoc.
    erewrite bind_Some by apply IH.
    unfold ret. rewrite !length_app. simpl.
    rewrite <- app_assoc. simpl.
    replace (length h0 + (length ext + 1))%nat with (S (length h0 + length ext))
      by lia.
    reflexivity.
Qed.

Lemma read_stats {B} (g : loc -> Stat -> B) (h0 : heap) stats rest :
  mapM (fun l => do st <- load_stat l; ret (g l st))
    (seq (length h0) (length stats)) (h0 ++ map CStat stats ++ rest)
  = Some (imap (fun i st => g (length h0 + i)%nat st) stats,
          h0 ++ map CStat stats ++ rest).
Proof.
  apply mapM_read. apply Forall2_same_length_lookup_2.
  - now rewrite length_seq, length_imap.
  - intros i l y Hl Hy.
    apply lookup_seq in Hl as [-> Hi].
    rewrite list_lookup_imap in Hy.
    destruct (stats !! i) as [st |] eqn:Hst; [| discriminate].
    injection Hy as <-.
    erewrite bind_Some; [reflexivity |].
    apply load_stat_Some. rewrite region_lookup by now rewrite length_map.
    change (map CStat stats) with (CStat <$> stats).
    now rewrite list_lookup_fmap, Hst.
Qed.

Lemma read_products (h0 : heap) ext refs products :
  Forall2 (fun l p => h0 !! l = Some (CProduct p)) refs products ->
  mapM (fun l => do p <- load_product l; ret (Product.sku p, l)) refs (h0 ++ ext)
  = Some (zip_with (fun l p => (Product.sku p, l)) refs products, h0 ++ ext).
Proof.
  intros Hin. apply mapM_read.
  induction Hin as [| l p refs products Hl _ IH]; simpl; constructor;
    [| exact IH].
  erewrite bind_Some by (apply load_product_Some, input_lookup, Hl). reflexivity.
Qed.

(** The index of references agrees with the index of positions. *)
Lemma sellerIndex_refs (n0 : nat) (stats : list Stat) id :
  Object_fromEntries (imap (fun i st => (stat_id st, (n0 + i)%nat)) stats) !! id
  = Nat.add n0
      <$> Object_fromEntries (imap (fun i st => (stat_id st, i)) stats) !! id.
Proof.
  rewrite (imap_pair_map (fun i st => (stat_id st, (n0 + i)%nat))).
  rewrite (imap_pair_map (fun i st => (stat_id st, i))).
  rewrite (Object_fromEntries_last_with (fun p => stat_id (snd p))
             (fun p => (n0 + fst p)%nat)).
  rewrite (Object_fromEntries_last_with (fun p => stat_id (snd p)) fst).
  now destruct (last_with _ _ _).
Qed.

(** The index of product references resolves a SKU to a cell of the
    caller's heap holding the catalog entry of the SKU. *)
Lemma productIndex_refs (h0 : heap) refs products sku :
  Forall2 (fun l p => h0 !! l = Some (CProduct p)) refs products ->
  match Object_fromEntries (zip_with (fun l p => (Product.sku p, l)) refs products)
          !! sku with
  | Some l =>
      exists p, h0 !! l = Some (CProduct p)
                /\ Object_fromEntries (map (fun p => (Product.sku p, p)) products)
                     !! sku = Some p
  | None =>
      Object_fromEntries (map (fun p => (Product.sku p, p)) products) !! sku = None
  end.
Proof.
  revert refs. induction products as [| p products IH] using rev_ind;
    intros refs Hin.
  - apply Forall2_nil_inv_r in Hin as ->. reflexivity.
  - apply Forall2_app_inv_r in Hin as (refs1 & refs2 & Hin1 & Hin2 & ->).
    apply Forall2_cons_inv_r in Hin2 as (l & refs3 & Hl & Hnil & ->).
    apply Forall2_nil_inv_r in Hnil as ->.
    rewrite zip_with_app by (eapply Forall2_length, Hin1).
    rewrite map_app. simpl.
    rewrite !Object_fromEntries_snoc, !lookup_insert.
    destruct (decide (Product.sku p = sku)); [eauto | now apply IH].
Qed.


(** ** The record loop *)

Section RecordLoop.
Variables (h0 rest : heap).
Variables (sellerIndex productIndex : gmap string loc).
Variables (positions : gmap string nat) (catalog_index : gmap string Product.t).
Variable n : nat.

Hypothesis sellerIndex_positions : forall id,
  sellerIndex !! id = Nat.add (length h0) <$> positions !! id.
Hypothesis positions_valid : forall id k, positions !! id = Some k -> (k < n)%nat.
Hypothesis productIndex_catalog : forall sku,
  match productIndex !! sku with
  | Some l => exists p, h0 !! l = Some (CProduct p) /\ catalog_index !! sku = Some p
  | None => catalog_index !! sku = None
  end.

Let step (s : Stat) (item : Item.t) : Stat :=
  match catalog_index !! Item.sku item with
  | None => s
  | Some product => credit_item s item product
  end.

Lemma credit_line_spec stats k st item :
  stats !! k = Some st ->
  credit_line productIndex (length h0 + k) item (h0 ++ map CStat stats ++ rest)
  = Some (tt, h0 ++ map CStat (<[k := step st item]> stats) ++ rest).
Proof.
  intros Hk. unfold credit_line, step.
  pose proof (productIndex_catalog (Item.sku item)) as Hp.
  assert (Hlt : (k < length (map CStat stats))%nat).
  { rewrite length_map. eapply lookup_lt_Some, Hk. }
  destruct (productIndex !! Item.sku item) as [l |].
  - destruct Hp as (p & Hl & ->).
    erewrite bind_Some by (apply load_product_Some, input_lookup, Hl).
    assert (Hcell : (h0 ++ map CStat stats ++ rest) !! (length h0 + k)%nat
                    = Some (CStat st)).
    { rewrite region_lookup by assumption.
      change (map CStat stats) with (CStat <$> stats).
      now rewrite list_lookup_fmap, Hk. }
    erewrite bind_Some by (apply load_stat_Some, Hcell).
    erewrite store_Some by exact Hcell.
    rewrite region_insert by assumption.
    change (map CStat stats) with (CStat <$> stats).
    now rewrite <- list_fmap_insert.
  - rewrite Hp. unfold ret. now rewrite list_insert_id.
Qed.

Lemma credit_lines_spec items : forall stats k st index,
  stats !! k = Some st ->
  forEach (fun _ item => credit_line productIndex (length h0 + k) item) index items
    (h0 ++ map CStat stats ++ rest)
  = Some (tt, h0 ++ map CStat (<[k := foldl step st items]> stats) ++ rest).
Proof.
  induction items as [| item items IH]; intros stats k st index Hk.
  - simpl. unfold ret. now rewrite list_insert_id.
  - simpl forEach.
    erewrite bind_Some by (apply credit_line_spec, Hk).
    erewrite IH
      by (apply list_lookup_insert_eq; eapply lookup_lt_Some, Hk).
    now rewrite list_insert_insert_eq.
Qed.

Lemma alter_as_insert {A} (f : A -> A) (l : list A) k x :
  l !! k = Some x -> alter f k l = <[k := f x]> l.
Proof.
  intros Hk. apply list_eq. intros i.
  rewrite list_lookup_alter, list_lookup_insert.
  pose proof (lookup_lt_Some _ _ _ Hk) as Hlt.
  destruct (decide (k = i)) as [<- | Hne].
  - rewrite decide_True by (split; [reflexivity | exact Hlt]). now rewrite Hk.
  - rewrite decide_False by tauto. reflexivity.
Qed.

Lemma credit_record_spec stats record_ref record :
  length stats = n ->
  h0 !! record_ref = Some (CRecord record) ->
  credit_record sellerIndex productIndex record_ref (h0 ++ map CStat stats ++ rest)
  = Some (tt, h0 ++ map CStat (visit positions (credit_items catalog_index) stats record)
                 ++ rest).
Proof.
  intros Hlen Hrec. unfold credit_record, visit.
  erewrite bind_Some by (apply load_record_Some, input_lookup, Hrec).
  rewrite sellerIndex_positions.
  destruct (positions !! PurchaseRecord.seller_id record) as [k |] eqn:Hpos;
    [| reflexivity].
  simpl. rewrite <- Hlen in positions_valid.
  destruct (lookup_lt_is_Some_2 stats k (positions_valid _ _ Hpos)) as [st Hk].
  assert (Hlt : (k < length (map CStat stats))%nat).
  { rewrite length_map. eapply lookup_lt_Some, Hk. }
  assert (Hcell : (h0 ++ map CStat stats ++ rest) !! (length h0 + k)%nat
                  = Some (CStat st)).
  { rewrite region_lookup by assumption.
    change (map CStat stats) with (CStat <$> stats).
    now rewrite list_lookup_fmap, Hk. }
  erewrite bind_Some by (apply load_stat_Some, Hcell).
  erewrite bind_Some by (eapply store_Some, Hcell).
  rewrite region_insert by assumption.
  change (map CStat stats) with (CStat <$> stats).
  rewrite <- list_fmap_insert.
  change (CStat <$> <[k := count_sale record st]> stats)
    with (map CStat (<[k := count_sale record st]> stats)).
  erewrite credit_lines_spec
    by (apply list_lookup_insert_eq; eapply lookup_lt_Some, Hk).
  rewrite list_insert_insert_eq, (alter_as_insert _ _ _ _ Hk). reflexivity.
Qed.

Lemma visit_length {S} (index : gmap string nat) (f : PurchaseRecord.t -> S -> S)
    (stats : list S) record :
  length (visit index f stats record) = length stats.
Proof.
  unfold visit. destruct (index !! _); [apply length_alter | reflexivity].
Qed.

Lemma records_loop_spec record_refs records : forall stats index,
  length stats = n ->
  Forall2 (fun l r => h0 !! l = Some (CRecord r)) record_refs records ->
  forEach (fun _ record_ref => credit_record sellerIndex productIndex record_ref)
    index record_refs (h0 ++ map CStat stats ++ rest)
  = Some (tt, h0 ++ map CStat
                      (foldl (visit positions (credit_items catalog_index))
                         stats records)
                 ++ rest).
Proof.
  intros stats index Hlen Hin. revert stats index Hlen.
  induction Hin as [| l r record_refs records Hl _ IH]; intros stats index Hlen.
  - reflexivity.
  - simpl forEach.
    rewrite (bind_Some _ _ _ _ _ (credit_record_spec stats l r Hlen Hl)).
    apply IH. now rewrite visit_length.
Qed.
End RecordLoop.


(** ** Sorting the array of references, the bonus pass and the projection *)

Lemma positions_lt (stats : list Stat) id k :
  Object_fromEntries (imap (fun i st => (stat_id st, i)) stats) !! id = Some k ->
  (k < length stats)%nat.
Proof.
  rewrite imap_pair_map.
  rewrite (Object_fromEntries_last_with (fun p => stat_id (snd p)) fst).
  rewrite fmap_Some. intros ([i st] & Hlast & ->).
  apply last_with_Some_elem in Hlast as [Hin _].
  apply elem_of_lookup_imap in Hin as (j & y & [= -> ->] & Hj).
  eapply lookup_lt_Some, Hj.
Qed.

(** The accumulators paired with their positions, sorted by profit. *)
Definition sorted_pairs (stats : list Stat) : list (nat * Stat) :=
  Array_sort (by_key_desc (fun p => profit (snd p))) (imap pair stats).

Lemma sorted_refs (n0 : nat) (stats : list Stat) :
  map fst (Array_sort (by_key_desc snd)
             (imap (fun i st => ((n0 + i)%nat, profit st)) stats))
  = map (fun p => (n0 + fst p)%nat) (sorted_pairs stats).
Proof.
  unfold sorted_pairs.
  rewrite (imap_pair_map (fun i st => ((n0 + i)%nat, profit st))).
  rewrite <- (Array_sort_fmap (fun p : nat * Stat => ((n0 + p.1)%nat, profit p.2))
                (by_key_desc snd)).
  rewrite map_map. reflexivity.
Qed.

Lemma sorted_stats (stats : list Stat) :
  Array_sort (by_key_desc profit) stats = map snd (sorted_pairs stats).
Proof.
  unfold sorted_pairs.
  assert (Hstats : stats = map snd (imap pair stats)).
  { apply list_eq. intros i.
    change (map snd (imap pair stats)) with (snd <$> imap pair stats).
    rewrite list_lookup_fmap, list_lookup_imap. now destruct (stats !! i). }
  rewrite Hstats at 1.
  rewrite <- (Array_sort_fmap snd (by_key_desc profit)). reflexivity.
Qed.

Lemma sorted_pairs_elem (stats : list Stat) i st :
  (i, st) ∈ sorted_pairs stats -> stats !! i = Some st.
Proof.
  unfold sorted_pairs. rewrite Array_sort_Permutation.
  intros (j & y & [= -> ->] & Hj)%elem_of_lookup_imap. exact Hj.
Qed.

Lemma sorted_pairs_NoDup (stats : list Stat) : NoDup (map fst (sorted_pairs stats)).
Proof.
  unfold sorted_pairs. rewrite Array_sort_Permutation.
  replace (map fst (imap pair stats)) with (seq 0 (length stats));
    [apply NoDup_seq |].
  apply list_eq. intros i.
  change (map fst (imap pair stats)) with (fst <$> imap pair stats).
  rewrite list_lookup_fmap, list_lookup_imap.
  destruct (stats !! i) as [st |] eqn:Hi; simpl.
  - apply lookup_seq. split; [reflexivity | eapply lookup_lt_Some, Hi].
  - apply lookup_seq_ge. now apply lookup_ge_None.
Qed.

Lemma bonus_loop_spec (h0 rest : heap) (total : Z) (pairs : list (nat * Stat)) :
  forall (cells : heap) (index : nat),
    NoDup (map fst pairs) ->
    (forall i st, (i, st) ∈ pairs -> cells !! i = Some (CStat st)) ->
    exists cells' : heap,
      forEach (fun index l =>
                 do st <- load_stat l;
                 store l (CRanked (assign_bonus total index st)))
        index (map (fun p => (length h0 + fst p)%nat) pairs)
        (h0 ++ cells ++ rest)
      = Some (tt, h0 ++ cells' ++ rest)
      /\ length cells' = length cells
      /\ (forall i, i ∉ map fst pairs -> cells' !! i = cells !! i)
      /\ (forall j i st,
            pairs !! j = Some (i, st) ->
            cells' !! i = Some (CRanked (assign_bonus total (index + j) st))).
Proof.
  induction pairs as [| [i st] pairs IH]; intros cells index Hnd Hcells.
  - exists cells. repeat split; try reflexivity. intros j i st. discriminate.
  - simpl in Hnd. apply NoDup_cons in Hnd as [Hi Hnd].
    assert (Hcell : cells !! i = Some (CStat st)) by (apply Hcells; left).
    assert (Hlt : (i < length cells)%nat) by (eapply lookup_lt_Some, Hcell).
    assert (Hload : (h0 ++ cells ++ rest) !! (length h0 + i)%nat = Some (CStat st))
      by now rewrite region_lookup.
    destruct (IH (<[i := CRanked (assign_bonus total index st)]> cells) (S index) Hnd)
      as (cells' & Hrun & Hlen & Hout & Hin).
    { intros i' st' Hin'.
      rewrite list_lookup_insert_ne; [apply Hcells; now right |].
      intros ->. apply Hi. apply list_elem_of_fmap. now exists (i', st'). }
    exists cells'. simpl forEach.
    erewrite bind_Some; cycle 1.
    { erewrite bind_Some by (apply load_stat_Some, Hload).
      eapply store_Some, Hload. }
    rewrite region_insert by assumption.
    split; [exact Hrun |].
    split; [now rewrite Hlen, length_insert |].
    split.
    + intros i' Hi'. simpl in Hi'.
      rewrite Hout by set_solver.
      apply list_lookup_insert_ne. set_solver.
    + intros [| j] i' st' Hj; simpl in Hj.
      * injection Hj as <- <-. rewrite Hout by assumption.
        rewrite Nat.add_0_r. now apply list_lookup_insert_eq.
      * rewrite (Hin _ _ _ Hj). do 3 f_equal. lia.
Qed.

Lemma read_ranked (h0 rest cells : heap) (total : Z) (pairs : list (nat * Stat)) :
  (forall j i st,
      pairs !! j = Some (i, st) ->
      cells !! i = Some (CRanked (assign_bonus total j st))) ->
  mapM load_ranked (map (fun p => (length h0 + fst p)%nat) pairs)
    (h0 ++ cells ++ rest)
  = Some (imap (assign_bonus total) (map snd pairs), h0 ++ cells ++ rest).
Proof.
  intros Hcells. apply mapM_read. apply Forall2_same_length_lookup_2.
  - now rewrite length_imap, !length_map.
  - intros j l r Hl Hr.
    change (map (fun p : nat * Stat => (length h0 + p.1)%nat) pairs)
      with ((fun p : nat * Stat => (length h0 + p.1)%nat) <$> pairs) in Hl.
    change (map snd pairs) with (snd <$> pairs) in Hr.
    rewrite list_lookup_fmap in Hl. rewrite list_lookup_imap, list_lookup_fmap in Hr.
    destruct (pairs !! j) as [[i st] |] eqn:Hj; [| discriminate].
    injection Hl as <-. injection Hr as <-.
    apply load_ranked_Some.
    rewrite region_lookup by (eapply lookup_lt_Some, Hcells, Hj).
    eapply Hcells, Hj.
Qed.


(** ** The whole call *)

(** On a heap that holds the caller's data the call terminates, returns
    what the pipeline on values returns, and leaves a heap that extends the
    initial one: no cell that existed before the call has changed. *)
Lemma run_spec (h : heap) sellers_ref products_ref records_ref
    sellers products records :
  input_at h sellers_ref products_ref records_ref sellers products records ->
  exists ext : heap,
    run sellers_ref products_ref records_ref h
    = Some (pure_run sellers products records, h ++ ext).
Proof.
  intros (seller_refs & product_refs & record_refs
          & Hsa & Hsellers & Hpa & Hproducts & Hra & Hrecords).
  set (stats0 := map new_stat sellers).
  set (positions := Object_fromEntries (imap (fun i st => (stat_id st, i)) stats0)).
  set (catalog_index :=
         Object_fromEntries (map (fun p => (Product.sku p, p)) products)).
  set (stats := pure_aggregate sellers products records).
  assert (Hlen0 : length stats0 = length sellers) by apply length_map.
  assert (Hlen : length stats = length sellers).
  { unfold stats, pure_aggregate. now rewrite visit_fold_length. }
  destruct (bonus_loop_spec h [CArray (map (fun p => (length h + fst p)%nat)
                                         (sorted_pairs stats))]
              (Z.of_nat (length (sorted_pairs stats))) (sorted_pairs stats)
              (map CStat stats) 0 (sorted_pairs_NoDup stats))
    as (cells' & Hbonus & Hcells_len & _ & Hcells).
  { intros i st Hin. apply sorted_pairs_elem in Hin.
    change (map CStat stats) with (CStat <$> stats).
    now rewrite list_lookup_fmap, Hin. }
  exists (cells' ++ [CArray (map (fun p => (length h + fst p)%nat)
                               (sorted_pairs stats))]).
  unfold run.
  erewrite bind_Some by (apply load_array_Some, Hsa).
  erewrite bind_Some
    by (rewrite <- (app_nil_r h) at 1; apply alloc_stats, Hsellers).
  simpl app. rewrite Nat.add_0_r.
  erewrite bind_Some by reflexivity.
  rewrite <- app_assoc. fold stats0. rewrite <- Hlen0.
  erewrite bind_Some by apply (read_stats (fun l st => (stat_id st, l))).
  erewrite bind_Some by (apply load_array_Some, input_lookup, Hpa).
  erewrite bind_Some by (apply read_products, Hproducts).
  erewrite bind_Some by (apply load_array_Some, input_lookup, Hra).
  erewrite bind_Some; cycle 1.
  { apply (records_loop_spec h _ _ _ positions catalog_index (length stats0)).
    - apply sellerIndex_refs.
    - apply positions_lt.
    - intros sku. now apply productIndex_refs.
    - reflexivity.
    - exact Hrecords. }
  fold (pure_aggregate sellers products records). fold stats.
  assert (Hlens : length (h ++ map CStat stats0) = (length h + length stats)%nat).
  { rewrite length_app, length_map, Hlen0, Hlen. reflexivity. }
  rewrite Hlens.
  assert (Harr : forall refs,
             (h ++ map CStat stats ++ [CArray refs]) !! (length h + length stats)%nat
             = Some (CArray refs)).
  { intros refs. rewrite app_assoc.
    rewrite lookup_app_r by (rewrite length_app, length_map; lia).
    rewrite length_app, length_map.
    now replace (length h + length stats - (length h + length stats))%nat
      with 0%nat by lia. }
  erewrite bind_Some by (apply load_array_Some, Harr).
  rewrite Hlen0, <- Hlen.
  erewrite bind_Some by apply (read_stats (fun l st => (l, profit st))).
  erewrite bind_Some by (eapply store_Some, Harr).
  assert (Hstore : forall refs refs',
             <[(length h + length stats)%nat := CArray refs']>
               (h ++ map CStat stats ++ [CArray refs])
             = h ++ map CStat stats ++ [CArray refs']).
  { intros refs refs'. rewrite !app_assoc.
    rewrite insert_app_r_alt by (rewrite length_app, length_map; lia).
    rewrite length_app, length_map.
    now replace (length h + length stats - (length h + length stats))%nat
      with 0%nat by lia. }
  rewrite Hstore, sorted_refs.
  erewrite bind_Some by (apply load_array_Some, Harr).
  rewrite length_map.
  erewrite bind_Some by exact Hbonus.
  erewrite bind_Some by (apply read_ranked; intros j i st Hj; apply (Hcells j i st Hj)).
  unfold ret, pure_run. fold stats.
  rewrite sorted_stats, length_map. reflexivity.
Qed.

End Model.
End Heap.

(** ** The two revisions on the heap *)

Definition main_run (calculateRevenue : Main.RevenueStrategy)
    (calculateBonusByProfit : Main.BonusStrategy)
    (sellers products purchase_records : nat) :=
  Heap.run Main.new_stat Main.Stat.seller_id Main.count_sale
    (Main.credit_item calculateRevenue) Main.Stat.profit
    (Main.assign_bonus calculateBonusByProfit)
    (fun seller => Return (Main.project seller))
    sellers products purchase_records.

Definition part000_run (calculateRevenue : Part000.RevenueStrategy)
    (calculateBonus : Part000.BonusStrategy)
    (sellers products purchase_records : nat) :=
  Heap.run Part000.new_stat Part000.Stat.seller_id (fun _ => Part000.count_sale)
    (Part000.credit_item calculateRevenue) Part000.Stat.profit
    (Part000.assign_bonus calculateBonus) Part000.project
    sellers products purchase_records.

Lemma Array_map_throwing_total {A B} (f : A -> B) (l : list A) :
  Array_map_throwing (fun x => Return (f x)) l = Return (map f l).
Proof.
  induction l as [| x l IH]; simpl; [reflexivity |]. now rewrite IH.
Qed.

Lemma main_pure_run calculateRevenue calculateBonusByProfit sellers products records :
  Heap.pure_run Main.new_stat Main.Stat.seller_id Main.count_sale
    (Main.credit_item calculateRevenue) Main.Stat.profit
    (Main.assign_bonus calculateBonusByProfit)
    (fun seller => Return (Main.project seller)) sellers products records
  = Return (Main.finalResult calculateRevenue calculateBonusByProfit
              sellers products records).
Proof. unfold Heap.pure_run. rewrite Array_map_throwing_total. reflexivity. Qed.

Lemma part000_pure_run calculateRevenue calculateBonus sellers products records :
  Heap.pure_run Part000.new_stat Part000.Stat.seller_id (fun _ => Part000.count_sale)
    (Part000.credit_item calculateRevenue) Part000.Stat.profit
    (Part000.assign_bonus calculateBonus) Part000.project sellers products records
  = Part000.finalResult calculateRevenue calculateBonus sellers products records.
Proof. reflexivity. Qed.

Lemma input_at_extend {Stat Ranked} (h ext : list (Heap.cell (Stat := Stat) (Ranked := Ranked)))
    sellers_ref products_ref records_ref sellers products records :
  Heap.input_at h sellers_ref products_ref records_ref sellers products records ->
  Heap.input_at (h ++ ext) sellers_ref products_ref records_ref
    sellers products records.
Proof.
  intros (srefs & prefs & rrefs & Hs & Hss & Hp & Hps & Hr & Hrs).
  exists srefs, prefs, rrefs.
  repeat split; try (now apply lookup_app_l_Some);
    (eapply Forall2_impl; [eassumption |]); intros l x Hl;
    now apply lookup_app_l_Some.
Qed.

(** The worked example laid out in a heap: the three objects at locations
    0 to 2, the arrays [data.sellers], [data.products] and
    [data.purchase_records] at locations 3 to 5. *)
Module Example9.
Definition main_heap : list (Heap.cell (Stat := Main.Stat.t) (Ranked := Main.Ranked.t)) :=
  [ Heap.CSeller Example1.S1; Heap.CProduct Example1.P1;
    Heap.CRecord Example1.record_with_total;
    Heap.CArray [0%nat]; Heap.CArray [1%nat]; Heap.CArray [2%nat] ].
Definition part000_heap
  : list (Heap.cell (Stat := Part000.Stat.t) (Ranked := Part000.Ranked.t)) :=
  [ Heap.CSeller Example1.S1; Heap.CProduct Example1.P1;
    Heap.CRecord Example1.record_with_total;
    Heap.CArray [0%nat]; Heap.CArray [1%nat]; Heap.CArray [2%nat] ].
End Example9.


Lemma example9_main_input :
  Heap.input_at Example9.main_heap 3 4 5
    [Example1.S1] [Example1.P1] [Example1.record_with_total].
Proof.
  exists [0%nat], [1%nat], [2%nat].
  repeat split; repeat constructor.
Qed.

Lemma example9_part000_input :
  Heap.input_at Example9.part000_heap 3 4 5
    [Example1.S1] [Example1.P1] [Example1.record_with_total].
Proof.
  exists [0%nat], [1%nat], [2%nat].
  repeat split; repeat constructor.
Qed.


(** The heap after the call on the worked example: the six cells of the
    caller followed by the ranked accumulator and the array [sellerStats]. *)
Example example9_final_heap :
  main_run calculateSimpleRevenue Main.calculateBonusByProfit 3 4 5
    Example9.main_heap
  = Some (Return [ Main.Report.Make "S1" "A B" (Num.Fin 40) 20 1
                     [("P1", 2%Q)] 3000 ],
          Example9.main_heap
            ++ [ Heap.CRanked
                   (Main.Ranked.Make
                      (Main.Stat.Make "S1" "A B" (Num.Fin 40) 20 1
                         [("P1", Main.ProductData.Make 2 40 20 "Widget")])
                      3000 150 1
                      [Main.TopProduct.Make "P1" "Widget" 2 40 20]);
                 Heap.CArray [6%nat] ]).
Proof. vm_compute. reflexivity. Qed.

(** * Inputs without inherited keys

    On purchase records whose seller ids and SKUs are not property names of
    [Object.prototype], every read of the two indexes and of [products_sold]
    is an own-property read, and the record loop of [MainProto] and
    [Part000Proto] computes what the loop of [Main] and [Part000] computes. *)

Lemma read_plain {A} (own : option A) key :
  inherited key = false ->
  read own key = match own with Some v => Own v | None => Absent end.
Proof. intros Hkey. unfold read. now rewrite Hkey. Qed.

(** ** main.js *)

Lemma main_proto_sellerIndex sellers :
  MainProto.sellerIndex (map MainProto.new_stat sellers)
  = Main.sellerIndex (map Main.new_stat sellers).
Proof.
  unfold MainProto.sellerIndex, Main.sellerIndex. f_equal.
  apply list_eq. intros i.
  change (map MainProto.new_stat sellers) with (MainProto.new_stat <$> sellers).
  change (map Main.new_stat sellers) with (Main.new_stat <$> sellers).
  rewrite !list_lookup_imap, !list_lookup_fmap. now destruct (sellers !! i).
Qed.

Lemma main_proto_credit_item calculateRevenue seller item product :
  inherited (Item.sku item) = false ->
  MainProto.credit_item calculateRevenue (main_lift seller) item product
  = main_lift (Main.credit_item (own_products calculateRevenue) seller item product).
Proof.
  intros Hsku. unfold MainProto.credit_item, Main.credit_item, main_lift.
  cbn [MainProto.Stat.products_sold MainProto.Stat.profit MainProto.Stat.seller_id
       MainProto.Stat.name MainProto.Stat.revenue MainProto.Stat.sales_count
       Main.Stat.products_sold Main.Stat.profit Main.Stat.seller_id
       Main.Stat.name Main.Stat.revenue Main.Stat.sales_count].
  rewrite read_plain by exact Hsku.
  destruct (get_prop (Item.sku item) (Main.Stat.products_sold seller)); reflexivity.
Qed.

Lemma main_proto_process_item calculateRevenue products seller item :
  inherited (Item.sku item) = false ->
  MainProto.process_item calculateRevenue products (main_lift seller) item
  = main_lift (Main.process_item (own_products calculateRevenue) products seller item).
Proof.
  intros Hsku. unfold MainProto.process_item, Main.process_item.
  rewrite read_plain by exact Hsku.
  destruct (products !! Item.sku item); [| reflexivity].
  now apply main_proto_credit_item.
Qed.

Lemma main_proto_items calculateRevenue products items seller :
  Forall (fun item => inherited (Item.sku item) = false) items ->
  foldl (MainProto.process_item calculateRevenue products) (main_lift seller) items
  = main_lift
      (foldl (Main.process_item (own_products calculateRevenue) products) seller items).
Proof.
  intros Hitems. revert seller.
  induction Hitems as [| item items Hitem _ IH]; intros seller; [reflexivity |].
  simpl. now rewrite main_proto_process_item, IH.
Qed.

Lemma main_proto_apply_record calculateRevenue products record seller :
  plain_record record ->
  MainProto.apply_record calculateRevenue products record (main_lift seller)
  = main_lift
      (Main.apply_record (own_products calculateRevenue) products record seller).
Proof.
  intros [_ Hitems]. unfold MainProto.apply_record, Main.apply_record.
  now rewrite <- main_proto_items.
Qed.

Lemma main_proto_process_record calculateRevenue products index stats record :
  plain_record record ->
  MainProto.process_record calculateRevenue products index (map main_lift stats) record
  = Return
      (map main_lift
         (Main.process_record (own_products calculateRevenue) products index
            stats record)).
Proof.
  intros Hplain. unfold MainProto.process_record, Main.process_record.
  rewrite read_plain by apply Hplain.
  destruct (index !! PurchaseRecord.seller_id record) as [k |]; [| reflexivity].
  f_equal. symmetry. apply (list_fmap_alter main_lift).
  apply Forall_forall. intros s _. symmetry. now apply main_proto_apply_record.
Qed.

Lemma main_proto_records calculateRevenue products index records stats :
  plain_keys records ->
  forEach_throwing (MainProto.process_record calculateRevenue products index)
    records (map main_lift stats)
  = Return
      (map main_lift
         (foldl (Main.process_record (own_products calculateRevenue) products index)
            stats records)).
Proof.
  intros Hplain. revert stats.
  induction Hplain as [| record records Hrecord _ IH]; intros stats; [reflexivity |].
  simpl. rewrite main_proto_process_record by exact Hrecord. apply IH.
Qed.

(** On such records the record loop of main.js does not throw, and every
    accumulator has a number as profit. *)
Lemma main_proto_aggregate calculateRevenue sellers products records :
  plain_keys records ->
  MainProto.aggregate calculateRevenue sellers products records
  = Return
      (map main_lift
         (Main.aggregate (own_products calculateRevenue) sellers products records)).
Proof.
  intros Hplain. unfold MainProto.aggregate, Main.aggregate.
  rewrite main_proto_sellerIndex.
  replace (map MainProto.new_stat sellers) with (map main_lift (map Main.new_stat sellers))
    by (rewrite map_map; reflexivity).
  now apply main_proto_records.
Qed.

Lemma main_proto_sorted stats :
  MainProto.sortedSellers (map main_lift stats)
  = map main_lift (Main.sortedSellers stats).
Proof.
  unfold MainProto.sortedSellers, Main.sortedSellers. symmetry.
  apply (Array_sort_fmap main_lift
           (fun a b =>
              Num.compare_value
                (Num.sub_nan (MainProto.Stat.profit b) (MainProto.Stat.profit a)))).
Qed.

Lemma main_proto_ranked calculateRevenue calculateBonusByProfit
    sellers products records :
  plain_keys records ->
  MainProto.ranked calculateRevenue calculateBonusByProfit sellers products records
  = Return
      (imap (MainProto.assign_bonus calculateBonusByProfit (Z.of_nat (length sellers)))
         (map main_lift
            (Main.sortedSellers
               (Main.aggregate (own_products calculateRevenue)
                  sellers products records)))).
Proof.
  intros Hplain. unfold MainProto.ranked.
  rewrite main_proto_aggregate by exact Hplain.
  unfold MainProto.sellersWithBonuses. rewrite main_proto_sorted, length_map.
  unfold Main.sortedSellers.
  now rewrite Array_sort_length, main_aggregate_imap, length_imap.
Qed.

(** ** part_000 *)

Lemma part000_proto_sellerIndex sellers :
  Part000Proto.sellerIndex (map Part000Proto.new_stat sellers)
  = Part000.sellerIndex (map Part000.new_stat sellers).
Proof.
  unfold Part000Proto.sellerIndex, Part000.sellerIndex. f_equal.
  apply list_eq. intros i.
  change (map Part000Proto.new_stat sellers) with (Part000Proto.new_stat <$> sellers).
  change (map Part000.new_stat sellers) with (Part000.new_stat <$> sellers).
  rewrite !list_lookup_imap, !list_lookup_fmap. now destruct (sellers !! i).
Qed.

Lemma part000_proto_credit_item calculateRevenue seller item product :
  inherited (Item.sku item) = false ->
  Part000Proto.credit_item calculateRevenue (part000_lift seller) item product
  = part000_lift
      (Part000.credit_item (own_products calculateRevenue) seller item product).
Proof.
  intros Hsku. unfold Part000Proto.credit_item, Part000.credit_item, part000_lift.
  cbn [Part000Proto.Stat.products_sold Part000Proto.Stat.profit
       Part000Proto.Stat.seller_id Part000Proto.Stat.name
       Part000Proto.Stat.revenue Part000Proto.Stat.sales_count
       Part000.Stat.products_sold Part000.Stat.profit Part000.Stat.seller_id
       Part000.Stat.name Part000.Stat.revenue Part000.Stat.sales_count].
  rewrite read_plain by exact Hsku.
  destruct (get_prop (Item.sku item) (Part000.Stat.products_sold seller));
    reflexivity.
Qed.

Lemma part000_proto_process_item calculateRevenue products seller item :
  inherited (Item.sku item) = false ->
  Part000Proto.process_item calculateRevenue products (part000_lift seller) item
  = part000_lift
      (Part000.process_item (own_products calculateRevenue) products seller item).
Proof.
  intros Hsku. unfold Part000Proto.process_item, Part000.process_item.
  rewrite read_plain by exact Hsku.
  destruct (products !! Item.sku item); [| reflexivity].
  now apply part000_proto_credit_item.
Qed.

Lemma part000_proto_items calculateRevenue products items seller :
  Forall (fun item => inherited (Item.sku item) = false) items ->
  foldl (Part000Proto.process_item calculateRevenue products)
    (part000_lift seller) items
  = part000_lift
      (foldl (Part000.process_item (own_products calculateRevenue) products)
         seller items).
Proof.
  intros Hitems. revert seller.
  induction Hitems as [| item items Hitem _ IH]; intros seller; [reflexivity |].
  simpl. now rewrite part000_proto_process_item, IH.
Qed.

Lemma part000_proto_apply_record calculateRevenue products record seller :
  plain_record record ->
  Part000Proto.apply_record calculateRevenue products record (part000_lift seller)
  = part000_lift
      (Part000.apply_record (own_products calculateRevenue) products record seller).
Proof.
  intros [_ Hitems]. unfold Part000Proto.apply_record, Part000.apply_record.
  now rewrite <- part000_proto_items.
Qed.

Lemma part000_proto_process_record calculateRevenue products index stats record :
  plain_record record ->
  Part000Proto.process_record calculateRevenue products index
    (map part000_lift stats) record
  = Return
      (map part000_lift
         (Part000.process_record (own_products calculateRevenue) products index
            stats record)).
Proof.
  intros Hplain. unfold Part000Proto.process_record, Part000.process_record.
  rewrite read_plain by apply Hplain.
  destruct (index !! PurchaseRecord.seller_id record) as [k |]; [| reflexivity].
  f_equal. symmetry. apply (list_fmap_alter part000_lift).
  apply Forall_forall. intros s _. symmetry. now apply part000_proto_apply_record.
Qed.

Lemma part000_proto_records calculateRevenue products index records stats :
  plain_keys records ->
  forEach_throwing (Part000Proto.process_record calculateRevenue products index)
    records (map part000_lift stats)
  = Return
      (map part000_lift
         (foldl (Part000.process_record (own_products calculateRevenue) products index)
            stats records)).
Proof.
  intros Hplain. revert stats.
  induction Hplain as [| record records Hrecord _ IH]; intros stats; [reflexivity |].
  simpl. rewrite part000_proto_process_record by exact Hrecord. apply IH.
Qed.

Lemma part000_proto_aggregate calculateRevenue sellers products records :
  plain_keys records ->
  Part000Proto.aggregate calculateRevenue sellers products records
  = Return
      (map part000_lift
         (Part000.aggregate (own_products calculateRevenue) sellers products records)).
Proof.
  intros Hplain. unfold Part000Proto.aggregate, Part000.aggregate.
  rewrite part000_proto_sellerIndex.
  replace (map Part000Proto.new_stat sellers)
    with (map part000_lift (map Part000.new_stat sellers))
    by (rewrite map_map; reflexivity).
  now apply part000_proto_records.
Qed.

Lemma part000_proto_sorted stats :
  Part000Proto.sortedSellers (map part000_lift stats)
  = map part000_lift (Part000.sortedSellers stats).
Proof.
  unfold Part000Proto.sortedSellers, Part000.sortedSellers. symmetry.
  apply (Array_sort_fmap part000_lift
           (fun a b =>
              Num.compare_value
                (Num.sub_nan (Part000Proto.Stat.profit b)
                   (Part000Proto.Stat.profit a)))).
Qed.

Lemma part000_proto_ranked calculateRevenue calculateBonus sellers products records :
  plain_keys records ->
  Part000Proto.ranked calculateRevenue calculateBonus sellers products records
  = Return
      (imap (Part000Proto.assign_bonus calculateBonus (Z.of_nat (length sellers)))
         (map part000_lift
            (Part000.sortedSellers
               (Part000.aggregate (own_products calculateRevenue)
                  sellers products records)))).
Proof.
  intros Hplain. unfold Part000Proto.ranked.
  rewrite part000_proto_aggregate by exact Hplain.
  unfold Part000Proto.withBonuses. rewrite part000_proto_sorted, length_map.
  unfold Part000.sortedSellers.
  now rewrite Array_sort_length, part000_aggregate_length.
Qed.

(** ** Revenue and profit in the report of main.js *)

(** A field of a report entry that is computed from the accumulator alone. *)
Lemma main_proto_report_field {B} (f : MainProto.Report.t -> B) (g : Main.Stat.t -> B)
    calculateBonusByProfit total sorted :
  (forall i s,
     f (MainProto.project
          (MainProto.assign_bonus calculateBonusByProfit total i (main_lift s)))
     = g s) ->
  map f (map MainProto.project
           (imap (MainProto.assign_bonus calculateBonusByProfit total)
              (map main_lift sorted)))
  = map g sorted.
Proof.
  intros Hfg. apply list_eq. intros i.
  change (map f ?l) with (f <$> l). change (map g ?l) with (g <$> l).
  change (map MainProto.project ?l) with (MainProto.project <$> l).
  change (map main_lift ?l) with (main_lift <$> l).
  rewrite !list_lookup_fmap, list_lookup_imap, list_lookup_fmap.
  destruct (sorted !! i) as [s |]; [| reflexivity]. simpl. now rewrite Hfg.
Qed.

Lemma main_proto_finalResult calculateRevenue calculateBonusByProfit
    sellers products records :
  plain_keys records ->
  MainProto.finalResult calculateRevenue calculateBonusByProfit
    sellers products records
  = Return
      (map MainProto.project
         (imap (MainProto.assign_bonus calculateBonusByProfit
                  (Z.of_nat (length sellers)))
            (map main_lift
               (Main.sortedSellers
                  (Main.aggregate (own_products calculateRevenue)
                     sellers products records))))).
Proof.
  intros Hplain. unfold MainProto.finalResult.
  now rewrite main_proto_ranked.
Qed.

(** On a purchase whose stated total (100) differs from the revenue of
    its only line (40), main.js reports the stated total and part_000
    reports nothing. *)
Lemma revenue_is_not_line_revenue :
  plain_keys [Example2.record]
  /\ sum (map (line_revenue (own_products MainProto.calculateSimpleRevenue))
            (sold_lines [Example1.P1]
               (records_of [Example1.S1] [Example2.record] 0)))
     = 40%Q
  /\ (exists r,
        MainProto.analyzeSalesData Example2.data ExampleProto.main_options
        = Return [r]
        /\ MainProto.Report.seller_id r = "S1"
        /\ MainProto.Report.revenue r = Num.Fin 100)
  /\ ~ (exists r,
          MainProto.analyzeSalesData Example2.data ExampleProto.main_options
          = Return [r]
          /\ exists q,
               MainProto.Report.revenue r = Num.Fin q
               /\ (q == sum (map (line_revenue
                                    (own_products MainProto.calculateSimpleRevenue))
                               (sold_lines [Example1.P1]
                                  (records_of [Example1.S1]
                                     [Example2.record] 0))))%Q)
  /\ Part000Proto.analyzeSalesData Example2.data ExampleProto.part000_options
     = Throw (TypeError "seller.revenue.toFixed is not a function").
Proof.
  split; [repeat constructor |].
  split; [vm_compute; reflexivity |].
  split; [eexists; split; [vm_compute; reflexivity | split; reflexivity] |].
  split; [| vm_compute; reflexivity].
  intros (r & Hr & q & Hq & Heq).
  vm_compute in Hr. injection Hr as <-. simpl in Hq. injection Hq as <-.
  vm_compute in Heq. discriminate Heq.
Qed.

(** C1, amended.  On purchase records that use no key inherited from
    [Object.prototype], main.js returns a report whose sellers are the input
    sellers; each one's revenue is the two-decimal rounding of the sum of
    the stated [total_amount] of the purchase records credited to it ([NaN]
    when one of them states none); the revenue computed per line item by the
    Revenue Strategy enters the seller's profit, which is the two-decimal
    rounding of the sum of revenue minus cost over the sold lines of those
    records. *)
Theorem main_revenue_is_stated_total calculateRevenue calculateBonusByProfit
    sellers products records :
  plain_keys records ->
  exists reports,
    MainProto.finalResult calculateRevenue calculateBonusByProfit
      sellers products records
    = Return reports
    /\ map (fun r => (MainProto.Report.seller_id r, MainProto.Report.revenue r,
                      MainProto.Report.profit r))
         reports
       ≡ₚ imap (fun k seller =>
                  (Seller.id seller,
                   Num.round2_nan (stated_total (records_of sellers records k)),
                   Num.Fin
                     (Num.round2
                        (sum (map (line_profit (own_products calculateRevenue))
                                (sold_lines products
                                   (records_of sellers records k)))))))
            sellers.
Proof.
  intros Hplain. eexists. split; [now apply main_proto_finalResult |].
  rewrite (main_proto_report_field _
             (fun s => (Main.Stat.seller_id s,
                        Num.round2_nan (Main.Stat.revenue s),
                        Num.Fin (Num.round2 (Main.Stat.profit s)))))
    by reflexivity.
  unfold Main.sortedSellers. rewrite Array_sort_Permutation.
  rewrite main_aggregate_imap.
  match goal with |- ?l ≡ₚ ?r => assert (l = r) as ->; [| reflexivity] end.
  apply list_eq. intros k.
  rewrite list_lookup_fmap, !list_lookup_imap.
  destruct (sellers !! k) as [seller |]; [| reflexivity]. simpl.
  now rewrite main_accumulator_fields.
Qed.

Lemma main_revenue_is_stated_total_witness :
  exists reports,
    MainProto.finalResult MainProto.calculateSimpleRevenue
      MainProto.calculateBonusByProfit [Example1.S1] [Example1.P1] [Example2.record]
    = Return reports
    /\ map (fun r => (MainProto.Report.seller_id r, MainProto.Report.revenue r,
                      MainProto.Report.profit r))
         reports
       ≡ₚ imap (fun k seller =>
                  (Seller.id seller,
                   Num.round2_nan
                     (stated_total (records_of [Example1.S1] [Example2.record] k)),
                   Num.Fin
                     (Num.round2
                        (sum (map (line_profit
                                     (own_products MainProto.calculateSimpleRevenue))
                                (sold_lines [Example1.P1]
                                   (records_of [Example1.S1]
                                      [Example2.record] k)))))))
            [Example1.S1].
Proof.
  apply (main_revenue_is_stated_total MainProto.calculateSimpleRevenue
           MainProto.calculateBonusByProfit [Example1.S1] [Example1.P1]
           [Example2.record]).
  repeat constructor.
Defined.

(** ** Top products *)

Lemma main_proto_report_top_products calculateBonusByProfit total index seller :
  MainProto.Report.top_products
    (MainProto.project
       (MainProto.assign_bonus calculateBonusByProfit total index (main_lift seller)))
  = top_ten (prod_map id Main.ProductData.quantity <$> Main.Stat.products_sold seller).
Proof.
  exact (main_report_top_products (fun _ _ _ => 0%Q) total index seller).
Qed.

Lemma part000_proto_top_products seller :
  Part000Proto.top_products_of (part000_lift seller)
  = top_ten (prod_map id Part000.ProductData.quantity
               <$> Part000.Stat.products_sold seller).
Proof. exact (part000_top_products seller). Qed.

Lemma Array_map_throwing_lookup {A B} (f : A -> result B) (l : list A) out j y :
  Array_map_throwing f l = Return out -> out !! j = Some y ->
  exists x, l !! j = Some x /\ f x = Return y.
Proof.
  intros Hret Hj. apply Array_map_throwing_Return in Hret.
  destruct (Forall2_lookup_r _ _ _ _ _ Hret Hj) as (x & Hx & Hxy). eauto.
Qed.

(** With the SKUs "2" and "1" sold in this order, one unit each, the two
    entries tie on quantity and come out as "1", "2": the order of first
    sale is not preserved. *)
Lemma ties_follow_key_enumeration :
  plain_keys [Example7.record]
  /\ tally (sold_lines Example7.products
              (records_of [Example1.S1] [Example7.record] 0))
     = [("2", 1%Q); ("1", 1%Q)]
  /\ (exists r,
        MainProto.analyzeSalesData Example7.data ExampleProto.main_options
        = Return [r]
        /\ MainProto.Report.top_products r = [("1", 1%Q); ("2", 1%Q)]
        /\ filter (fun e => snd e == 1)%Q (MainProto.Report.top_products r)
           <> filter (fun e => snd e == 1)%Q
                (tally (sold_lines Example7.products
                          (records_of [Example1.S1] [Example7.record] 0)))).
Proof.
  split; [repeat constructor |].
  split; [vm_compute; reflexivity |].
  eexists. split; [vm_compute; reflexivity |].
  split; [reflexivity |].
  vm_compute. discriminate.
Qed.

(** C7, amended.  On purchase records that use no key inherited from
    [Object.prototype]: main.js returns a report, every entry of which
    belongs to an input seller, and its [top_products] has at most ten
    entries, is sorted by descending quantity, and every entry carries the
    total quantity of its SKU over the matched line items of the purchase
    records credited to that seller; entries of equal quantity keep the
    enumeration order of [Object.entries], array-index SKUs first in
    ascending order and then the other SKUs in order of first sale, which is
    the order of first sale when no SKU sold by the seller is an array index.
    In part_000 the same holds of the [top_products] the bonus pass stores
    in each accumulator, and of every report it returns. *)
Theorem top_products_per_seller calculateRevenue calculateBonusByProfit
    calculateBonus sellers products records :
  plain_keys records ->
  (exists reports,
     MainProto.finalResult calculateRevenue calculateBonusByProfit
       sellers products records
     = Return reports
     /\ Forall (fun report =>
                  exists k seller,
                    sellers !! k = Some seller
                    /\ MainProto.Report.seller_id report = Seller.id seller
                    /\ top_products_law
                         (sold_lines products (records_of sellers records k))
                         (MainProto.Report.top_products report))
          reports)
  /\ (exists ranked,
        Part000Proto.ranked calculateRevenue calculateBonus sellers products records
        = Return ranked
        /\ Forall (fun accumulator =>
                     exists k seller,
                       sellers !! k = Some seller
                       /\ Part000Proto.Stat.seller_id
                            (Part000Proto.Ranked.stat accumulator)
                          = Seller.id seller
                       /\ top_products_law
                            (sold_lines products (records_of sellers records k))
                            (Part000Proto.Ranked.top_products accumulator))
             ranked
        /\ forall reports,
             Part000Proto.finalResult calculateRevenue calculateBonus
               sellers products records
             = Return reports ->
             Forall (fun report =>
                       exists k seller,
                         sellers !! k = Some seller
                         /\ Part000Proto.Report.seller_id report = Seller.id seller
                         /\ top_products_law
                              (sold_lines products (records_of sellers records k))
                              (Part000Proto.Report.top_products report))
               reports).
Proof.
  intros Hplain. split.
  - eexists. split; [now apply main_proto_finalResult |].
    apply Forall_forall. intros report Hin.
    apply list_elem_of_fmap in Hin as (r & -> & Hr).
    apply elem_of_lookup_imap in Hr as (i & s' & -> & Hs').
    change (map main_lift ?l) with (main_lift <$> l) in Hs'.
    rewrite list_lookup_fmap in Hs'.
    destruct (Main.sortedSellers _ !! i) as [s |] eqn:Hs; [| discriminate].
    injection Hs' as <-.
    apply list_elem_of_lookup_2 in Hs.
    unfold Main.sortedSellers in Hs. rewrite Array_sort_Permutation in Hs.
    rewrite main_aggregate_imap in Hs.
    apply elem_of_lookup_imap in Hs as (k & seller & -> & Hk).
    exists k, seller. split; [exact Hk |].
    rewrite main_proto_report_top_products, main_accumulator_fields.
    split; [reflexivity |]. cbn [Main.Stat.products_sold].
    rewrite main_tally_quantities. apply top_ten_law.
  - assert (Hranked : forall accumulator,
      accumulator
      ∈ imap (Part000Proto.assign_bonus calculateBonus (Z.of_nat (length sellers)))
          (map part000_lift
             (Part000.sortedSellers
                (Part000.aggregate (own_products calculateRevenue)
                   sellers products records))) ->
      exists k seller,
        sellers !! k = Some seller
        /\ Part000Proto.Stat.seller_id (Part000Proto.Ranked.stat accumulator)
           = Seller.id seller
        /\ top_products_law
             (sold_lines products (records_of sellers records k))
             (Part000Proto.Ranked.top_products accumulator)).
    { intros accumulator Hin.
      apply elem_of_lookup_imap in Hin as (i & s' & -> & Hs').
      change (map part000_lift ?l) with (part000_lift <$> l) in Hs'.
      rewrite list_lookup_fmap in Hs'.
      destruct (Part000.sortedSellers _ !! i) as [s |] eqn:Hs; [| discriminate].
      injection Hs' as <-.
      apply list_elem_of_lookup_2 in Hs.
      unfold Part000.sortedSellers in Hs. rewrite Array_sort_Permutation in Hs.
      rewrite part000_aggregate_imap in Hs.
      apply elem_of_lookup_imap in Hs as (k & seller & -> & Hk).
      exists k, seller. split; [exact Hk |].
      unfold Part000Proto.assign_bonus.
      cbn [Part000Proto.Ranked.stat Part000Proto.Ranked.top_products].
      rewrite part000_proto_top_products, part000_accumulator_fields.
      split; [reflexivity |]. cbn [Part000.Stat.products_sold].
      rewrite part000_tally_quantities. apply top_ten_law. }
    eexists. split; [now apply part000_proto_ranked |].
    split; [apply Forall_forall; exact Hranked |].
    intros reports Hret. unfold Part000Proto.finalResult in Hret.
    rewrite part000_proto_ranked in Hret by exact Hplain.
    apply Forall_forall. intros report Hin.
    apply list_elem_of_lookup in Hin as [j Hj].
    destruct (Array_map_throwing_lookup _ _ _ _ _ Hret Hj) as (x & Hx & Hproj).
    apply list_elem_of_lookup_2 in Hx.
    destruct (Hranked x Hx) as (k & seller & Hk & Hid & Hlaw).
    exists k, seller. split; [exact Hk |].
    unfold Part000Proto.project in Hproj.
    destruct (Part000.revenue_toFixed2 _); [| discriminate].
    injection Hproj as <-.
    cbn [Part000Proto.Report.seller_id Part000Proto.Report.top_products].
    split; [exact Hid |].
    replace (map (fun product : string * Q => (product.1, product.2))
               (Part000Proto.Ranked.top_products x))
      with (Part000Proto.Ranked.top_products x); [exact Hlaw |].
    rewrite <- (map_id (Part000Proto.Ranked.top_products x)) at 1.
    apply map_ext. now intros [a b].
Qed.

Lemma top_products_per_seller_witness :
  (exists reports,
     MainProto.finalResult MainProto.calculateSimpleRevenue
       MainProto.calculateBonusByProfit [Example1.S1] Example7.products
       [Example7.record]
     = Return reports
     /\ Forall (fun report =>
                  exists k seller,
                    [Example1.S1] !! k = Some seller
                    /\ MainProto.Report.seller_id report = Seller.id seller
                    /\ top_products_law
                         (sold_lines Example7.products
                            (records_of [Example1.S1] [Example7.record] k))
                         (MainProto.Report.top_products report))
          reports)
  /\ (exists ranked,
        Part000Proto.ranked Part000Proto.calculateSimpleRevenue
          Part000Proto.calculateBonusByProfit [Example1.S1] Example7.products
          [Example7.record]
        = Return ranked
        /\ Forall (fun accumulator =>
                     exists k seller,
                       [Example1.S1] !! k = Some seller
                       /\ Part000Proto.Stat.seller_id
                            (Part000Proto.Ranked.stat accumulator)
                          = Seller.id seller
                       /\ top_products_law
                            (sold_lines Example7.products
                               (records_of [Example1.S1] [Example7.record] k))
                            (Part000Proto.Ranked.top_products accumulator))
             ranked
        /\ forall reports,
             Part000Proto.finalResult Part000Proto.calculateSimpleRevenue
               Part000Proto.calculateBonusByProfit [Example1.S1] Example7.products
               [Example7.record]
             = Return reports ->
             Forall (fun report =>
                       exists k seller,
                         [Example1.S1] !! k = Some seller
                         /\ Part000Proto.Report.seller_id report = Seller.id seller
                         /\ top_products_law
                              (sold_lines Example7.products
                                 (records_of [Example1.S1] [Example7.record] k))
                              (Part000Proto.Report.top_products report))
               reports).
Proof.
  apply (top_products_per_seller MainProto.calculateSimpleRevenue
           MainProto.calculateBonusByProfit Part000Proto.calculateBonusByProfit
           [Example1.S1] Example7.products [Example7.record]).
  repeat constructor.
Defined.

(** ** Unmatched references with plain keys *)

Lemma plain_keys_prune sellers products records :
  plain_keys records -> plain_keys (prune sellers products records).
Proof.
  unfold plain_keys, prune. intros Hplain.
  induction Hplain as [| record records [Hid Hitems] _ IH]; [constructor |].
  rewrite filter_cons. destruct (decide (seller_matches sellers record)); [| exact IH].
  simpl. constructor; [| exact IH]. split; [exact Hid |].
  unfold prune_items. cbn [PurchaseRecord.items].
  apply Forall_forall. intros item Hitem.
  apply list_elem_of_filter in Hitem as [_ Hitem].
  eapply Forall_forall in Hitems; eassumption.
Qed.

(** X18 (unmatched references that are not inherited keys are skipped).
    On purchase records that use no key inherited from [Object.prototype],
    the records whose [seller_id] matches no seller and the line items whose
    SKU matches no product leave every accumulator as it is and raise no
    error, in both revisions; the result of [analyzeSalesData] equals its
    result on the input with them removed, provided at least one purchase
    record remains (an empty [purchase_records] is rejected by the
    prologue). *)
Theorem plain_unmatched_references_are_skipped sellers products records
    (om : MainProto.options_arg) (op : Part000Proto.options_arg)
    (calculateRevenue : Item.t -> product_arg -> Q) :
  plain_keys records ->
  prune sellers products records <> [] ->
  (exists accumulators,
     MainProto.aggregate calculateRevenue sellers products records
     = Return accumulators
     /\ MainProto.aggregate calculateRevenue sellers products
          (prune sellers products records)
        = Return accumulators)
  /\ (exists accumulators,
        Part000Proto.aggregate calculateRevenue sellers products records
        = Return accumulators
        /\ Part000Proto.aggregate calculateRevenue sellers products
             (prune sellers products records)
           = Return accumulators)
  /\ MainProto.analyzeSalesData
       (DataObject (Arr (prune sellers products records))
          (Arr products) (Arr sellers)) om
     = MainProto.analyzeSalesData
         (DataObject (Arr records) (Arr products) (Arr sellers)) om
  /\ Part000Proto.analyzeSalesData
       (DataObject (Arr (prune sellers products records))
          (Arr products) (Arr sellers)) op
     = Part000Proto.analyzeSalesData
         (DataObject (Arr records) (Arr products) (Arr sellers)) op.
Proof.
  intros Hplain Hne.
  pose proof (plain_keys_prune sellers products records Hplain) as Hpruned.
  assert (Hrec : records <> []) by (intros ->; now apply Hne).
  assert (Hmain :
    MainProto.aggregate calculateRevenue sellers products
      (prune sellers products records)
    = MainProto.aggregate calculateRevenue sellers products records)
    by (rewrite !main_proto_aggregate by assumption;
        now rewrite main_aggregate_prune).
  assert (Hpart :
    Part000Proto.aggregate calculateRevenue sellers products
      (prune sellers products records)
    = Part000Proto.aggregate calculateRevenue sellers products records)
    by (rewrite !part000_proto_aggregate by assumption;
        now rewrite part000_aggregate_prune).
  split; [eexists; split; [now apply main_proto_aggregate | ] |].
  { rewrite Hmain. now apply main_proto_aggregate. }
  split; [eexists; split; [now apply part000_proto_aggregate | ] |].
  { rewrite Hpart. now apply part000_proto_aggregate. }
  assert (Hfinal_main : forall cr cb,
    MainProto.finalResult cr cb sellers products (prune sellers products records)
    = MainProto.finalResult cr cb sellers products records).
  { intros cr cb. unfold MainProto.finalResult, MainProto.ranked.
    rewrite !main_proto_aggregate by assumption.
    now rewrite main_aggregate_prune. }
  assert (Hfinal_part : forall cr cb,
    Part000Proto.finalResult cr cb sellers products (prune sellers products records)
    = Part000Proto.finalResult cr cb sellers products records).
  { intros cr cb. unfold Part000Proto.finalResult, Part000Proto.ranked.
    rewrite !part000_proto_aggregate by assumption.
    now rewrite part000_aggregate_prune. }
  clear Hmain Hpart Hplain Hpruned. split.
  - unfold MainProto.analyzeSalesData. clear Hfinal_part. revert Hfinal_main.
    generalize MainProto.finalResult. intros F HF. simpl.
    destruct (prune sellers products records) eqn:Hp; [congruence |].
    destruct records as [| r0 records0] eqn:Hr; [congruence |]. simpl.
    destruct products, sellers; simpl; try reflexivity.
    destruct (negb (MainProto.options_truthy om) || _); [reflexivity |].
    destruct (MainProto.options_calculateRevenue om); try reflexivity.
    destruct (MainProto.options_calculateBonusByProfit om); try reflexivity.
    apply HF.
  - unfold Part000Proto.analyzeSalesData. clear Hfinal_main. revert Hfinal_part.
    generalize Part000Proto.finalResult. intros F HF. simpl.
    destruct (prune sellers products records) eqn:Hp; [congruence |].
    destruct records as [| r0 records0] eqn:Hr; [congruence |]. simpl.
    destruct products, sellers; simpl; try reflexivity.
    destruct (negb (Part000Proto.options_truthy op) || _); [reflexivity |].
    destruct (Part000Proto.options_calculateRevenue op); try reflexivity.
    destruct (Part000Proto.options_calculateBonus op); try reflexivity.
    apply HF.
Qed.

Lemma plain_unmatched_references_are_skipped_witness :
  MainProto.analyzeSalesData
    (DataObject (Arr (prune [Example1.S1] [Example1.P1] Example4.records))
       (Arr [Example1.P1]) (Arr [Example1.S1])) ExampleProto.main_options
  = MainProto.analyzeSalesData
      (DataObject (Arr Example4.records) (Arr [Example1.P1]) (Arr [Example1.S1]))
      ExampleProto.main_options.
Proof.
  refine (proj1 (proj2 (proj2
            (plain_unmatched_references_are_skipped [Example1.S1] [Example1.P1]
               Example4.records ExampleProto.main_options
               ExampleProto.part000_options MainProto.calculateSimpleRevenue
               _ _)))).
  - repeat constructor.
  - vm_compute. discriminate.
Defined.

(** ** The order of the report with plain keys *)

(** X19 (order of the report when no key is inherited).  On purchase
    records that use no key inherited from [Object.prototype], the record
    loop of main.js ends with one accumulator per input seller, each with a
    number as profit; [sellersWithBonuses] holds them stably sorted by
    descending profit, the accumulator at position [i] carrying rank
    [i + 1]; the report is its projection, so its rounded profits are in
    descending order too.  In part_000 the accumulators after the bonus
    pass are likewise the accumulators of the record loop, stably sorted by
    descending profit. *)
Theorem plain_report_order calculateRevenue calculateBonusByProfit calculateBonus
    sellers products records :
  plain_keys records ->
  (exists accumulators sorted ranked,
     MainProto.aggregate calculateRevenue sellers products records
     = Return (map main_lift accumulators)
     /\ MainProto.ranked calculateRevenue calculateBonusByProfit
          sellers products records
        = Return ranked
     /\ MainProto.finalResult calculateRevenue calculateBonusByProfit
          sellers products records
        = Return (map MainProto.project ranked)
     /\ map MainProto.Ranked.stat ranked = map main_lift sorted
     /\ map MainProto.Ranked.rank ranked
        = (fun i => Z.of_nat i + 1) <$> seq 0 (length sellers)
     /\ map MainProto.Report.profit (map MainProto.project ranked)
        = map (fun s => Num.Fin (Num.round2 (Main.Stat.profit s))) sorted
     /\ descending Main.Stat.profit sorted
     /\ descending (fun s => Num.round2 (Main.Stat.profit s)) sorted
     /\ sorted ≡ₚ accumulators
     /\ (forall q,
           filter (fun s => Main.Stat.profit s == q)%Q sorted
           = filter (fun s => Main.Stat.profit s == q)%Q accumulators)
     /\ map Main.Stat.seller_id accumulators = map Seller.id sellers)
  /\ (exists accumulators sorted ranked,
        Part000Proto.aggregate calculateRevenue sellers products records
        = Return (map part000_lift accumulators)
        /\ Part000Proto.ranked calculateRevenue calculateBonus
             sellers products records
           = Return ranked
        /\ map Part000Proto.Ranked.stat ranked = map part000_lift sorted
        /\ descending Part000.Stat.profit sorted
        /\ sorted ≡ₚ accumulators
        /\ (forall q,
              filter (fun s => Part000.Stat.profit s == q)%Q sorted
              = filter (fun s => Part000.Stat.profit s == q)%Q accumulators)
        /\ length accumulators = length sellers).
Proof.
  intros Hplain. split.
  - exists (Main.aggregate (own_products calculateRevenue) sellers products records),
      (Main.sortedSellers
         (Main.aggregate (own_products calculateRevenue) sellers products records)).
    eexists.
    split; [now apply main_proto_aggregate |].
    split; [now apply main_proto_ranked |].
    split; [now apply main_proto_finalResult |].
    assert (Hdesc : descending Main.Stat.profit
                      (Main.sortedSellers
                         (Main.aggregate (own_products calculateRevenue)
                            sellers products records)))
      by apply Array_sort_descending.
    repeat split.
    + apply list_eq. intros i.
      change (map MainProto.Ranked.stat ?l) with (MainProto.Ranked.stat <$> l).
      rewrite list_lookup_fmap, list_lookup_imap.
      now destruct (map main_lift _ !! i).
    + rewrite fmap_imap. unfold compose, MainProto.assign_bonus; simpl.
      rewrite (imap_seq_0 _ (fun i => Z.of_nat i + 1)), length_map.
      unfold Main.sortedSellers.
      now rewrite Array_sort_length, main_aggregate_imap, length_imap.
    + now apply main_proto_report_field.
    + exact Hdesc.
    + eapply descending_mono; [| exact Hdesc]. intros a b. apply round2_mono.
    + apply Array_sort_Permutation.
    + intros q. apply (Array_sort_stable Main.Stat.profit).
    + apply main_aggregate_ids.
  - exists (Part000.aggregate (own_products calculateRevenue)
              sellers products records),
      (Part000.sortedSellers
         (Part000.aggregate (own_products calculateRevenue)
            sellers products records)).
    eexists.
    split; [now apply part000_proto_aggregate |].
    split; [now apply part000_proto_ranked |].
    repeat split.
    + apply list_eq. intros i.
      change (map Part000Proto.Ranked.stat ?l) with (Part000Proto.Ranked.stat <$> l).
      rewrite list_lookup_fmap, list_lookup_imap.
      now destruct (map part000_lift _ !! i).
    + apply Array_sort_descending.
    + apply Array_sort_Permutation.
    + intros q. apply (Array_sort_stable Part000.Stat.profit).
    + apply part000_aggregate_length.
Qed.

Lemma plain_report_order_witness :
  exists accumulators sorted ranked,
    MainProto.aggregate MainProto.calculateSimpleRevenue Example15.sellers
      [Example1.P1] Example15.records
    = Return (map main_lift accumulators)
    /\ MainProto.ranked MainProto.calculateSimpleRevenue
         MainProto.calculateBonusByProfit Example15.sellers [Example1.P1]
         Example15.records
       = Return ranked
    /\ MainProto.finalResult MainProto.calculateSimpleRevenue
         MainProto.calculateBonusByProfit Example15.sellers [Example1.P1]
         Example15.records
       = Return (map MainProto.project ranked)
    /\ map MainProto.Ranked.stat ranked = map main_lift sorted
    /\ map MainProto.Ranked.rank ranked
       = (fun i => Z.of_nat i + 1) <$> seq 0 (length Example15.sellers)
    /\ map MainProto.Report.profit (map MainProto.project ranked)
       = map (fun s => Num.Fin (Num.round2 (Main.Stat.profit s))) sorted
    /\ descending Main.Stat.profit sorted
    /\ descending (fun s => Num.round2 (Main.Stat.profit s)) sorted
    /\ sorted ≡ₚ accumulators
    /\ (forall q,
          filter (fun s => Main.Stat.profit s == q)%Q sorted
          = filter (fun s => Main.Stat.profit s == q)%Q accumulators)
    /\ map Main.Stat.seller_id accumulators = map Seller.id Example15.sellers.
Proof.
  refine (proj1 (plain_report_order MainProto.calculateSimpleRevenue
                   MainProto.calculateBonusByProfit
                   Part000Proto.calculateBonusByProfit Example15.sellers
                   [Example1.P1] Example15.records _)).
  repeat constructor.
Defined.

(** * Inputs with inherited keys *)

(** C4 (unmatched references are not always skipped).  The guards
    [if (!seller) return] and [if (!product) return] let through a key that
    [Object.prototype] carries.  A purchase record whose [seller_id] is
    "constructor", the id of no seller, makes both revisions throw a
    [TypeError], whereas on the input without that record main.js returns a
    report (and so does part_000 when nothing is sold).  A line item whose
    SKU is "constructor", the SKU of no product, turns the profit and the
    bonus of its seller into [NaN] in main.js, where the input without that
    line reports profit 20, and makes part_000 throw, where the input
    without that line yields a report. *)
Theorem inherited_keys_are_not_skipped :
  ~ seller_matches [Example1.S1] Example10.unmatched_record
  /\ MainProto.analyzeSalesData Example10.data ExampleProto.main_options
     = Throw (TypeError "Cannot read properties of undefined (reading 'P1')")
  /\ MainProto.analyzeSalesData Example10.pruned ExampleProto.main_options
     = Return [ MainProto.Report.Make "S1" "A B" (Num.Fin 40) (Num.Fin 20) 1
                  [("P1", 2%Q)] (Num.Fin 3000) ]
  /\ Part000Proto.analyzeSalesData Example13.data ExampleProto.part000_options
     = Throw (TypeError "Cannot read properties of undefined (reading 'P1')")
  /\ Part000Proto.analyzeSalesData Example13.pruned ExampleProto.part000_options
     = Return [ Part000Proto.Report.Make "S1" "A B" 0 (Num.Fin 0) 1 [] (Num.Fin 0) ]
  /\ ~ sku_matches [Example1.P1] Example11.unmatched_line
  /\ MainProto.analyzeSalesData Example11.data ExampleProto.main_options
     = Return [ MainProto.Report.Make "S1" "A B" (Num.Fin 45) Num.NaN 1
                  [("P1", 2%Q)] Num.NaN ]
  /\ MainProto.analyzeSalesData Example11.pruned ExampleProto.main_options
     = Return [ MainProto.Report.Make "S1" "A B" (Num.Fin 45) (Num.Fin 20) 1
                  [("P1", 2%Q)] (Num.Fin 3000) ]
  /\ Part000Proto.analyzeSalesData Example14.data ExampleProto.part000_options
     = Throw (TypeError "seller.revenue.toFixed is not a function")
  /\ Part000Proto.analyzeSalesData Example14.pruned ExampleProto.part000_options
     = Return [ Part000Proto.Report.Make "S1" "A B" 0 (Num.Fin 0) 1 [] (Num.Fin 0) ].
Proof.
  split; [unfold seller_matches; simpl; now intros [=]%list_elem_of_singleton |].
  do 4 (split; [vm_compute; reflexivity |]).
  split; [unfold sku_matches; simpl; now intros [=]%list_elem_of_singleton |].
  repeat split; vm_compute; reflexivity.
Qed.

(** C6 (order of the report).  With three sellers whose accumulated
    profits are 10, [NaN] (a line item of SKU "constructor") and 20, every
    comparison with the [NaN] profit counts as a tie and main.js returns the
    sellers in input order: profit 10 comes before profit 20, and the bonus
    tiers follow these positions.  On the input without that line item the
    report is in descending order of profit. *)
Theorem nan_profit_breaks_the_order :
  MainProto.analyzeSalesData Example12.data ExampleProto.main_options
  = Return
      [ MainProto.Report.Make "S1" "A B" (Num.Fin 20) (Num.Fin 10) 1
          [("P1", 1%Q)] (Num.Fin 1500);
        MainProto.Report.Make "S2" "C D" (Num.Fin 5) Num.NaN 1 [] Num.NaN;
        MainProto.Report.Make "S3" "E F" (Num.Fin 40) (Num.Fin 20) 1
          [("P1", 2%Q)] (Num.Fin 2000) ]
  /\ MainProto.analyzeSalesData
       (DataObject (Arr (prune Example5.sellers [Example1.P1] Example12.records))
          (Arr [Example1.P1]) (Arr Example5.sellers))
       ExampleProto.main_options
     = Return
         [ MainProto.Report.Make "S3" "E F" (Num.Fin 40) (Num.Fin 20) 1
             [("P1", 2%Q)] (Num.Fin 3000);
           MainProto.Report.Make "S1" "A B" (Num.Fin 20) (Num.Fin 10) 1
             [("P1", 1%Q)] (Num.Fin 1000);
           MainProto.Report.Make "S2" "C D" (Num.Fin 5) (Num.Fin 0) 1 []
             (Num.Fin 0) ].
Proof. split; vm_compute; reflexivity. Qed.

(** ** SKUs that are never listed *)

Lemma read_Absent {A} (own : option A) key :
  read own key = Absent -> own = None /\ inherited key = false.
Proof.
  unfold read. destruct own; [discriminate |].
  destruct (inherited key); [discriminate | auto].
Qed.

Lemma main_proto_credit_item_entries calculateRevenue seller item product :
  plain_entries (MainProto.Stat.products_sold seller) ->
  plain_entries
    (MainProto.Stat.products_sold
       (MainProto.credit_item calculateRevenue seller item product)).
Proof.
  intros Hsold. unfold MainProto.credit_item. cbn [MainProto.Stat.products_sold].
  destruct (read _ _) eqn:Hread; unfold plain_entries in *.
  - now rewrite update_prop_keys.
  - exact Hsold.
  - apply read_Absent in Hread as [_ Hkey].
    rewrite update_prop_keys. unfold add_prop. rewrite fmap_app.
    apply Forall_app. split; [exact Hsold |]. now repeat constructor.
Qed.

Lemma main_proto_process_item_entries calculateRevenue products seller item :
  plain_entries (MainProto.Stat.products_sold seller) ->
  plain_entries
    (MainProto.Stat.products_sold
       (MainProto.process_item calculateRevenue products seller item)).
Proof.
  intros Hsold. unfold MainProto.process_item.
  destruct (read _ _); [| exact Hsold ..].
  now apply main_proto_credit_item_entries.
Qed.

Lemma main_proto_apply_record_entries calculateRevenue products record seller :
  plain_entries (MainProto.Stat.products_sold seller) ->
  plain_entries
    (MainProto.Stat.products_sold
       (MainProto.apply_record calculateRevenue products record seller)).
Proof.
  intros Hsold. unfold MainProto.apply_record.
  assert (Hstart : plain_entries
                     (MainProto.Stat.products_sold
                        (MainProto.count_sale record seller))) by exact Hsold.
  revert Hstart. generalize (MainProto.count_sale record seller).
  induction (PurchaseRecord.items record) as [| item items IH]; intros s Hs;
    [exact Hs |].
  simpl. apply IH. now apply main_proto_process_item_entries.
Qed.

Lemma forEach_throwing_invariant {S A} (f : S -> A -> result S) (P : S -> Prop)
    (l : list A) (s s' : S) :
  (forall s x s', P s -> f s x = Return s' -> P s') ->
  P s -> forEach_throwing f l s = Return s' -> P s'.
Proof.
  intros Hstep. revert s. induction l as [| x l IH]; intros s Hs; simpl.
  - now intros [= <-].
  - destruct (f s x) as [s1 | e] eqn:Hf; [| discriminate].
    apply IH. eapply Hstep; eassumption.
Qed.

Lemma main_proto_aggregate_entries calculateRevenue sellers products records stats :
  MainProto.aggregate calculateRevenue sellers products records = Return stats ->
  Forall (fun stat => plain_entries (MainProto.Stat.products_sold stat)) stats.
Proof.
  unfold MainProto.aggregate.
  apply (forEach_throwing_invariant _
           (Forall (fun stat => plain_entries (MainProto.Stat.products_sold stat)))).
  - intros s record s' Hs. unfold MainProto.process_record.
    destruct (read _ _) as [k | key |].
    + intros [= <-]. apply Forall_alter; [exact Hs |].
      intros x _ Hx. now apply main_proto_apply_record_entries.
    + destruct (builtin_seller_items _ _); [| discriminate]. now intros [= <-].
    + now intros [= <-].
  - apply Forall_forall. intros stat Hin.
    apply list_elem_of_fmap in Hin as (seller & -> & _). constructor.
Qed.

Lemma elem_of_top_ten (sold : list (string * Q)) (e : string * Q) :
  e ∈ top_ten sold -> e ∈ sold.
Proof.
  unfold top_ten. intros Hin.
  apply list_elem_of_lookup in Hin as [i Hi].
  apply lookup_take_Some in Hi as [Hi _].
  apply list_elem_of_lookup_2 in Hi.
  now rewrite Array_sort_Permutation, Object_entries_Permutation in Hi.
Qed.

(** X21 (a SKU inherited from [Object.prototype] is never listed).
    Whatever the input, when the record loop of main.js ends, no
    [products_sold] holds an entry under a property name of
    [Object.prototype], and no entry of the report lists such a SKU among
    its [top_products], even when a product carries that SKU and is sold:
    the guard [if (!seller.products_sold[item.sku])] reads the inherited
    built-in object, so the entry is never created. *)
Theorem inherited_sku_is_never_listed calculateRevenue calculateBonusByProfit
    sellers products records reports :
  MainProto.finalResult calculateRevenue calculateBonusByProfit
    sellers products records
  = Return reports ->
  (exists accumulators,
     MainProto.aggregate calculateRevenue sellers products records
     = Return accumulators
     /\ forall stat sku data,
          stat ∈ accumulators ->
          (sku, data) ∈ MainProto.Stat.products_sold stat ->
          inherited sku = false)
  /\ forall report sku quantity,
       report ∈ reports ->
       (sku, quantity) ∈ MainProto.Report.top_products report ->
       inherited sku = false.
Proof.
  unfold MainProto.finalResult, MainProto.ranked.
  destruct (MainProto.aggregate calculateRevenue sellers products records)
    as [stats | e] eqn:Hagg; [| discriminate].
  intros [= <-].
  pose proof (main_proto_aggregate_entries _ _ _ _ _ Hagg) as Hplain.
  assert (Hentries : forall stat sku data,
    stat ∈ stats -> (sku, data) ∈ MainProto.Stat.products_sold stat ->
    inherited sku = false).
  { intros stat sku data Hstat Hin.
    eapply Forall_forall in Hplain; [| exact Hstat].
    unfold plain_entries in Hplain.
    eapply Forall_forall in Hplain; [exact Hplain |].
    apply list_elem_of_fmap. now exists (sku, data). }
  split; [eauto |].
  intros report sku quantity Hreport Hin.
  apply list_elem_of_fmap in Hreport as (r & -> & Hr).
  apply elem_of_lookup_imap in Hr as (i & stat & -> & Hi).
  apply list_elem_of_lookup_2 in Hi.
  unfold MainProto.sortedSellers in Hi. rewrite Array_sort_Permutation in Hi.
  destruct stat as [id name revenue profit count sold].
  change (MainProto.Report.top_products _)
    with (Main.Report.top_products
            (Main.project
               (Main.assign_bonus (fun _ _ _ => 0%Q) 0 i
                  (Main.Stat.Make id name revenue 0 count sold)))) in Hin.
  rewrite main_report_top_products in Hin.
  apply elem_of_top_ten in Hin. cbn [Main.Stat.products_sold] in Hin.
  apply list_elem_of_fmap in Hin as ([sku' data] & [= -> ->] & Hin).
  eapply (Hentries _ _ data Hi). exact Hin.
Qed.

(** A product whose SKU is "toString", sold twice. *)
Lemma inherited_sku_is_never_listed_witness :
  (exists accumulators,
     MainProto.aggregate MainProto.calculateSimpleRevenue [Example1.S1]
       [Product.Make "toString" "Gadget" 10]
       [PurchaseRecord.Make "S1" (Some 40%Q) [Item.Make "toString" 20 0 2]]
     = Return accumulators
     /\ forall stat sku data,
          stat ∈ accumulators ->
          (sku, data) ∈ MainProto.Stat.products_sold stat ->
          inherited sku = false)
  /\ forall report sku quantity,
       report ∈ [ MainProto.Report.Make "S1" "A B" (Num.Fin 40) (Num.Fin 20) 1 []
                    (Num.Fin 3000) ] ->
       (sku, quantity) ∈ MainProto.Report.top_products report ->
       inherited sku = false.
Proof.
  apply (inherited_sku_is_never_listed MainProto.calculateSimpleRevenue
           MainProto.calculateBonusByProfit [Example1.S1]
           [Product.Make "toString" "Gadget" 10]
           [PurchaseRecord.Make "S1" (Some 40%Q) [Item.Make "toString" 20 0 2]]).
  vm_compute. reflexivity.
Defined.

(** ** A purchase record whose [seller_id] is an inherited key *)

Lemma builtin_seller_items_Throw products items e :
  builtin_seller_items products items = Throw e -> exists key, e = cannot_read key.
Proof.
  induction items as [| item items IH]; cbn [builtin_seller_items];
    [discriminate |].
  destruct (read (products !! Item.sku item) (Item.sku item));
    [intros [= <-]; eauto .. | exact IH].
Qed.

Lemma builtin_seller_items_processed products items item :
  item ∈ items ->
  read (products !! Item.sku item) (Item.sku item) <> Absent ->
  exists key, builtin_seller_items products items = Throw (cannot_read key).
Proof.
  intros Hin Hread. induction items as [| x items IH]; [now apply elem_of_nil in Hin |].
  cbn [builtin_seller_items].
  destruct (read (products !! Item.sku x) (Item.sku x)) eqn:Hx; eauto.
  apply elem_of_cons in Hin as [-> | Hin]; [contradiction | now apply IH].
Qed.

(** A loop in which every exception is a [cannot_read] and one element
    always throws ends with a [cannot_read]. *)
Lemma forEach_throwing_Throw {S A} (f : S -> A -> result S) (l : list A) (x : A)
    (s : S) :
  (forall s y e, f s y = Throw e -> exists key, e = cannot_read key) ->
  (forall s, exists key, f s x = Throw (cannot_read key)) ->
  x ∈ l ->
  exists key, forEach_throwing f l s = Throw (cannot_read key).
Proof.
  intros Hany Hx. revert s. induction l as [| y l IH]; intros s Hin;
    [now apply elem_of_nil in Hin |].
  simpl. destruct (f s y) as [s' | e] eqn:Hf.
  - apply elem_of_cons in Hin as [-> | Hin]; [| now apply IH].
    destruct (Hx s) as [key Hkey]. congruence.
  - destruct (Hany _ _ _ Hf) as [key ->]. eauto.
Qed.

Lemma read_productIndex_processed products sku :
  sku ∈ map Product.sku products \/ inherited sku = true ->
  read (Main.productIndex products !! sku) sku <> Absent.
Proof.
  intros Hsku Hread. apply read_Absent in Hread as [Hnone Hplain].
  destruct Hsku as [Hsku | Hsku]; [| congruence].
  rewrite productIndex_catalog_main in Hnone.
  now apply catalog_None in Hnone.
Qed.

(** X22 (a [seller_id] inherited from [Object.prototype] makes the call
    throw).  Whatever the rest of the input, when a purchase record carries
    a [seller_id] that is a property name of [Object.prototype] and the id
    of no seller, and one of its line items has a SKU that a product carries
    or that is itself such a property name, both revisions throw the
    [TypeError] of a property read on [undefined] and return no report. *)
Theorem inherited_seller_id_throws calculateRevenue calculateBonusByProfit
    calculateBonus sellers products records record item :
  record ∈ records ->
  inherited (PurchaseRecord.seller_id record) = true ->
  PurchaseRecord.seller_id record ∉ map Seller.id sellers ->
  item ∈ PurchaseRecord.items record ->
  Item.sku item ∈ map Product.sku products \/ inherited (Item.sku item) = true ->
  (exists key,
     MainProto.finalResult calculateRevenue calculateBonusByProfit
       sellers products records
     = Throw (cannot_read key))
  /\ (exists key,
        Part000Proto.finalResult calculateRevenue calculateBonus
          sellers products records
        = Throw (cannot_read key)).
Proof.
  intros Hrecord Hid Hnot Hitem Hsku.
  apply read_productIndex_processed in Hsku.
  apply owner_None in Hnot.
  split.
  - unfold MainProto.finalResult, MainProto.ranked, MainProto.aggregate.
    rewrite main_proto_sellerIndex.
    change (MainProto.productIndex products) with (Main.productIndex products).
    set (f := MainProto.process_record calculateRevenue (Main.productIndex products)
                (Main.sellerIndex (map Main.new_stat sellers))).
    assert (Hany : forall s y e, f s y = Throw e -> exists key, e = cannot_read key).
    { intros s y e. unfold f, MainProto.process_record.
      destruct (read (_ !! PurchaseRecord.seller_id y) _); try discriminate.
      destruct (builtin_seller_items _ _) eqn:Hitems; [discriminate |].
      intros [= <-]. eapply builtin_seller_items_Throw, Hitems. }
    assert (Hthrows : forall s, exists key, f s record = Throw (cannot_read key)).
    { intros s. unfold f, MainProto.process_record.
      rewrite sellerIndex_owner_main, Hnot. unfold read at 1. rewrite Hid.
      destruct (builtin_seller_items_processed _ _ _ Hitem Hsku) as [key ->].
      eauto. }
    destruct (forEach_throwing_Throw f records record
                (map MainProto.new_stat sellers) Hany Hthrows Hrecord)
      as [key ->].
    eauto.
  - unfold Part000Proto.finalResult, Part000Proto.ranked, Part000Proto.aggregate.
    rewrite part000_proto_sellerIndex.
    change (Part000Proto.productIndex products) with (Main.productIndex products).
    set (f := Part000Proto.process_record calculateRevenue
                (Main.productIndex products)
                (Part000.sellerIndex (map Part000.new_stat sellers))).
    assert (Hany : forall s y e, f s y = Throw e -> exists key, e = cannot_read key).
    { intros s y e. unfold f, Part000Proto.process_record.
      destruct (read (_ !! PurchaseRecord.seller_id y) _); try discriminate.
      destruct (builtin_seller_items _ _) eqn:Hitems; [discriminate |].
      intros [= <-]. eapply builtin_seller_items_Throw, Hitems. }
    assert (Hthrows : forall s, exists key, f s record = Throw (cannot_read key)).
    { intros s. unfold f, Part000Proto.process_record.
      rewrite sellerIndex_owner_part000, Hnot. unfold read at 1. rewrite Hid.
      destruct (builtin_seller_items_processed _ _ _ Hitem Hsku) as [key ->].
      eauto. }
    destruct (forEach_throwing_Throw f records record
                (map Part000Proto.new_stat sellers) Hany Hthrows Hrecord)
      as [key ->].
    eauto.
Qed.

Lemma inherited_seller_id_throws_witness :
  (exists key,
     MainProto.finalResult MainProto.calculateSimpleRevenue
       MainProto.calculateBonusByProfit [Example1.S1] [Example1.P1]
       Example10.records
     = Throw (cannot_read key))
  /\ (exists key,
        Part000Proto.finalResult MainProto.calculateSimpleRevenue
          Part000Proto.calculateBonusByProfit [Example1.S1] [Example1.P1]
          Example10.records
        = Throw (cannot_read key)).
Proof.
  apply (inherited_seller_id_throws MainProto.calculateSimpleRevenue
           MainProto.calculateBonusByProfit Part000Proto.calculateBonusByProfit
           [Example1.S1] [Example1.P1] Example10.records
           Example10.unmatched_record Example1.line).
  - unfold Example10.records. apply elem_of_cons. right. apply list_elem_of_here.
  - reflexivity.
  - simpl. now intros [=]%list_elem_of_singleton.
  - apply list_elem_of_here.
  - left. apply list_elem_of_here.
Defined.

(** ** What every returned report of main.js carries *)

Lemma main_proto_items_header calculateRevenue products items seller :
  main_proto_header (foldl (MainProto.process_item calculateRevenue products) seller items)
  = main_proto_header seller.
Proof.
  revert seller. induction items as [| item items IH]; intros seller; [reflexivity |].
  cbn [foldl]. rewrite IH. unfold MainProto.process_item.
  now destruct (read (products !! Item.sku item) (Item.sku item)).
Qed.

Lemma main_items_header calculateRevenue products items seller :
  main_header (foldl (Main.process_item calculateRevenue products) seller items)
  = main_header seller.
Proof.
  revert seller. induction items as [| item items IH]; intros seller; [reflexivity |].
  cbn [foldl]. rewrite IH. unfold Main.process_item.
  now destruct (products !! Item.sku item).
Qed.

Lemma main_proto_apply_record_header calculateRevenue calculateRevenue' products
    record seller seller' :
  main_header seller = main_proto_header seller' ->
  main_header (Main.apply_record calculateRevenue products record seller)
  = main_proto_header (MainProto.apply_record calculateRevenue' products record seller').
Proof.
  intros Heq. unfold Main.apply_record, MainProto.apply_record.
  rewrite main_items_header, main_proto_items_header.
  unfold main_header, main_proto_header in *. simpl. congruence.
Qed.

Lemma main_proto_process_record_header calculateRevenue calculateRevenue' products
    index record stats stats' out :
  Forall2 (fun s s' => main_header s = main_proto_header s') stats stats' ->
  MainProto.process_record calculateRevenue' products index stats' record = Return out ->
  Forall2 (fun s s' => main_header s = main_proto_header s')
    (Main.process_record calculateRevenue products index stats record) out.
Proof.
  intros Hstats. unfold MainProto.process_record, Main.process_record, read.
  destruct (index !! PurchaseRecord.seller_id record) as [k |].
  - intros [= <-]. apply Forall2_alter; [exact Hstats |].
    intros s s' _ _. apply main_proto_apply_record_header.
  - destruct (inherited (PurchaseRecord.seller_id record)).
    + destruct (builtin_seller_items _ _); [| discriminate]. now intros [= <-].
    + now intros [= <-].
Qed.

Lemma main_proto_records_header calculateRevenue calculateRevenue' products index
    records stats stats' out :
  Forall2 (fun s s' => main_header s = main_proto_header s') stats stats' ->
  forEach_throwing (MainProto.process_record calculateRevenue' products index)
    records stats' = Return out ->
  Forall2 (fun s s' => main_header s = main_proto_header s')
    (foldl (Main.process_record calculateRevenue products index) stats records) out.
Proof.
  revert stats stats'. induction records as [| record records IH];
    intros stats stats' Hstats; simpl.
  - now intros [= <-].
  - destruct (MainProto.process_record _ _ _ stats' record) as [next | e] eqn:Hnext;
      [| discriminate].
    apply IH. eapply main_proto_process_record_header; eassumption.
Qed.

(** X23 (what every report of main.js carries).  Whatever the input, also
    with seller ids and SKUs inherited from [Object.prototype], whenever
    main.js returns a report it has one entry per input seller, with the
    seller's id, the name [first_name + " " + last_name], as revenue the
    two-decimal rounding of the sum of the stated [total_amount] of the
    purchase records whose [seller_id] is the own key of that seller ([NaN]
    when one of them states none) and as [sales_count] the number of these
    records: no line item and no record read through an inherited key
    touches these four fields. *)
Theorem main_report_headers calculateRevenue calculateBonusByProfit
    sellers products records reports :
  MainProto.finalResult calculateRevenue calculateBonusByProfit
    sellers products records
  = Return reports ->
  map (fun r => (MainProto.Report.seller_id r, MainProto.Report.name r,
                 MainProto.Report.revenue r, MainProto.Report.sales_count r))
    reports
  ≡ₚ imap (fun k seller =>
             (Seller.id seller,
              Seller.first_name seller +:+ " " +:+ Seller.last_name seller,
              Num.round2_nan (stated_total (records_of sellers records k)),
              Z.of_nat (length (records_of sellers records k))))
       sellers.
Proof.
  unfold MainProto.finalResult, MainProto.ranked, MainProto.aggregate.
  destruct (forEach_throwing _ _ _) as [out | e] eqn:Hloop; [| discriminate].
  intros [= <-].
  rewrite main_proto_sellerIndex in Hloop.
  eapply (main_proto_records_header (own_products calculateRevenue)
            _ _ _ _ (map Main.new_stat sellers)) in Hloop.
  2:{ apply Forall2_fmap, Forall_Forall2_diag, Forall_forall. now intros. }
  change (foldl _ _ _)
    with (Main.aggregate (own_products calculateRevenue) sellers products records)
    in Hloop.
  rewrite main_aggregate_imap in Hloop.
  set (field := fun s : MainProto.Stat.t =>
         (MainProto.Stat.seller_id s, MainProto.Stat.name s,
          Num.round2_nan (MainProto.Stat.revenue s), MainProto.Stat.sales_count s)).
  transitivity (field <$> MainProto.sortedSellers out).
  { match goal with |- ?l ≡ₚ ?r => assert (l = r) as ->; [| reflexivity] end.
    unfold MainProto.sellersWithBonuses.
    apply list_eq. intros i.
    change (map ?f ?l) with (f <$> l).
    rewrite !list_lookup_fmap, list_lookup_imap.
    now destruct (MainProto.sortedSellers out !! i). }
  unfold MainProto.sortedSellers. rewrite Array_sort_Permutation.
  - match goal with |- ?l ≡ₚ ?r => assert (l = r) as ->; [| reflexivity] end.
    apply list_eq. intros k.
    change (map ?f ?l) with (f <$> l).
    rewrite list_lookup_fmap, list_lookup_imap.
    pose proof (proj1 (Forall2_lookup _ _ _) Hloop k) as Hk. cbv beta in Hk.
    rewrite list_lookup_imap in Hk.
    destruct (sellers !! k) as [seller |], (out !! k) as [s' |];
      inversion Hk as [s s0 Heq |]; subst; [| reflexivity].
    rewrite main_accumulator_fields in Heq.
    unfold main_header, main_proto_header in Heq. simpl in Heq.
    injection Heq as Hid Hname Hrevenue Hcount.
    subst field. simpl. now rewrite Hid, Hname, Hrevenue, Hcount.
Qed.

(** The seller whose profit an unmatched line of SKU "constructor" turns
    into [NaN] keeps its revenue of 45 and its single sale. *)
Lemma main_report_headers_witness :
  map (fun r => (MainProto.Report.seller_id r, MainProto.Report.name r,
                 MainProto.Report.revenue r, MainProto.Report.sales_count r))
    [ MainProto.Report.Make "S1" "A B" (Num.Fin 45) Num.NaN 1 [("P1", 2%Q)] Num.NaN ]
  ≡ₚ imap (fun k seller =>
             (Seller.id seller,
              Seller.first_name seller +:+ " " +:+ Seller.last_name seller,
              Num.round2_nan
                (stated_total (records_of [Example1.S1] Example11.records k)),
              Z.of_nat (length (records_of [Example1.S1] Example11.records k))))
       [Example1.S1].
Proof.
  apply (main_report_headers MainProto.calculateSimpleRevenue
           MainProto.calculateBonusByProfit [Example1.S1] [Example1.P1]
           Example11.records).
  vm_compute. reflexivity.
Defined.

(** * Further properties of the code *)

(** ** calculateSimpleRevenue *)

Lemma simple_revenue_value (purchase : Item.t) (product : Product.t) :
  (calculateSimpleRevenue purchase product
   == Item.sale_price purchase * Item.quantity purchase
      * (1 - Item.discount purchase / 100))%Q.
Proof.
  unfold calculateSimpleRevenue, Num.mul, Num.sub, Num.div.
  now rewrite !Qred_correct.
Qed.

(** X1 (revenue of a line within the documented discount range).  For a
    non-negative unit price and quantity and a discount between 0 and 100
    percent, the revenue lies between 0 and the undiscounted amount
    [sale_price * quantity]; it is the undiscounted amount at discount 0 and
    0 at discount 100. *)
Theorem simple_revenue_between_zero_and_gross (purchase : Item.t)
    (product : Product.t) :
  (0 <= Item.sale_price purchase)%Q -> (0 <= Item.quantity purchase)%Q ->
  (0 <= Item.discount purchase)%Q -> (Item.discount purchase <= 100)%Q ->
  (0 <= calculateSimpleRevenue purchase product)%Q
  /\ (calculateSimpleRevenue purchase product
      <= Item.sale_price purchase * Item.quantity purchase)%Q
  /\ (Item.discount purchase == 0 ->
      calculateSimpleRevenue purchase product
      == Item.sale_price purchase * Item.quantity purchase)%Q
  /\ (Item.discount purchase == 100 ->
      calculateSimpleRevenue purchase product == 0)%Q.
Proof.
  intros Hp Hq Hd0 Hd100. rewrite !simple_revenue_value.
  set (g := (Item.sale_price purchase * Item.quantity purchase)%Q).
  assert (Hg : (0 <= g)%Q) by (apply Qmult_le_0_compat; assumption).
  clearbody g. revert Hd0 Hd100. generalize (Item.discount purchase) as d.
  intros d Hd0 Hd100.
  assert (Hscale : (d / 100 == d * (1 # 100))%Q) by reflexivity.
  assert (Hc0 : (0 <= 1 - d / 100)%Q) by (rewrite Hscale; lra).
  assert (Hc1 : (1 - d / 100 <= 1)%Q) by (rewrite Hscale; lra).
  repeat split.
  - now apply Qmult_le_0_compat.
  - nra.
  - intros Hd. rewrite Hscale, Hd. ring.
  - intros Hd. rewrite Hscale, Hd. ring.
Qed.

Lemma simple_revenue_between_zero_and_gross_witness :
  (0 <= calculateSimpleRevenue (Item.Make "P1" 20 25 2) Example1.P1)%Q
  /\ (calculateSimpleRevenue (Item.Make "P1" 20 25 2) Example1.P1 <= 20 * 2)%Q
  /\ (25 == 0 ->
      calculateSimpleRevenue (Item.Make "P1" 20 25 2) Example1.P1 == 20 * 2)%Q
  /\ (25 == 100 ->
      calculateSimpleRevenue (Item.Make "P1" 20 25 2) Example1.P1 == 0)%Q.
Proof.
  apply (simple_revenue_between_zero_and_gross (Item.Make "P1" 20 25 2) Example1.P1);
    vm_compute; discriminate.
Defined.

(** X2 (the discount is not clamped from above).  The function checks
    nothing about the discount: for a unit price and a quantity that are not
    negative, a discount of 100 percent or more gives a revenue that is not
    positive, and a discount of 200 percent or more a revenue of at most
    minus the undiscounted amount. *)
Theorem simple_revenue_discount_is_not_clamped (purchase : Item.t)
    (product : Product.t) :
  (0 <= Item.sale_price purchase)%Q -> (0 <= Item.quantity purchase)%Q ->
  ((100 <= Item.discount purchase)%Q ->
   (calculateSimpleRevenue purchase product <= 0)%Q)
  /\ ((200 <= Item.discount purchase)%Q ->
      (calculateSimpleRevenue purchase product
       <= - (Item.sale_price purchase * Item.quantity purchase))%Q).
Proof.
  intros Hp Hq. rewrite !simple_revenue_value.
  set (g := (Item.sale_price purchase * Item.quantity purchase)%Q).
  assert (Hg : (0 <= g)%Q) by (apply Qmult_le_0_compat; assumption).
  clearbody g. generalize (Item.discount purchase) as d. intros d.
  assert (Hscale : (d / 100 == d * (1 # 100))%Q) by reflexivity.
  rewrite Hscale. split; intros Hd; nra.
Qed.

Lemma simple_revenue_discount_is_not_clamped_witness :
  (calculateSimpleRevenue (Item.Make "P1" 20 250 2) Example1.P1 <= 0)%Q
  /\ (calculateSimpleRevenue (Item.Make "P1" 20 250 2) Example1.P1
      <= - (20 * 2))%Q.
Proof.
  destruct (simple_revenue_discount_is_not_clamped
              (Item.Make "P1" 20 250 2) Example1.P1) as [H100 H200];
    [vm_compute; discriminate | vm_compute; discriminate |].
  split; [apply H100 | apply H200]; vm_compute; discriminate.
Defined.

(** X20 (the discount is not clamped from below).  For a unit price and a
    quantity that are not negative, a discount that is not positive gives a
    revenue of at least the undiscounted amount, and a discount of minus 100
    percent or less a revenue of at least twice that amount. *)
Theorem simple_revenue_negative_discount_adds (purchase : Item.t)
    (product : Product.t) :
  (0 <= Item.sale_price purchase)%Q -> (0 <= Item.quantity purchase)%Q ->
  ((Item.discount purchase <= 0)%Q ->
   (Item.sale_price purchase * Item.quantity purchase
    <= calculateSimpleRevenue purchase product)%Q)
  /\ ((Item.discount purchase <= -100)%Q ->
      (2 * (Item.sale_price purchase * Item.quantity purchase)
       <= calculateSimpleRevenue purchase product)%Q).
Proof.
  intros Hp Hq. rewrite !simple_revenue_value.
  set (g := (Item.sale_price purchase * Item.quantity purchase)%Q).
  assert (Hg : (0 <= g)%Q) by (apply Qmult_le_0_compat; assumption).
  clearbody g. generalize (Item.discount purchase) as d. intros d.
  assert (Hscale : (d / 100 == d * (1 # 100))%Q) by reflexivity.
  rewrite Hscale. split; intros Hd; nra.
Qed.

Lemma simple_revenue_negative_discount_adds_witness :
  (20 * 2 <= calculateSimpleRevenue (Item.Make "P1" 20 (-150) 2) Example1.P1)%Q
  /\ (2 * (20 * 2)
      <= calculateSimpleRevenue (Item.Make "P1" 20 (-150) 2) Example1.P1)%Q.
Proof.
  destruct (simple_revenue_negative_discount_adds
              (Item.Make "P1" 20 (-150) 2) Example1.P1) as [H0 H100];
    [vm_compute; discriminate | vm_compute; discriminate |].
  split; [apply H0 | apply H100]; vm_compute; discriminate.
Defined.

(** ** calculateBonusByProfit *)

(** X3 (the strategy of main.js on every input).  Whatever the index, the
    total and the seller, the strategy of main.js returns one of 150, 100, 0
    and 50; the result does not depend on the seller; it is 0 exactly when
    the index is [total - 1] and none of 0, 1, 2, and at least 50 in every
    other case. *)
Theorem main_bonus_constants (index total : Z) (seller seller' : Main.Stat.t) :
  Main.calculateBonusByProfit index total seller
    ∈ [150%Q; 100%Q; 0%Q; 50%Q]
  /\ Main.calculateBonusByProfit index total seller
     = Main.calculateBonusByProfit index total seller'
  /\ (Main.calculateBonusByProfit index total seller = 0%Q
      <-> index = total - 1 /\ index <> 0 /\ index <> 1 /\ index <> 2)
  /\ (Main.calculateBonusByProfit index total seller <> 0%Q ->
      (50 <= Main.calculateBonusByProfit index total seller)%Q).
Proof.
  unfold Main.calculateBonusByProfit.
  change (Num.mul 0.15 1000) with 150%Q. change (Num.mul 0.1 1000) with 100%Q.
  change (Num.mul 0.0 1000) with 0%Q. change (Num.mul 0.05 1000) with 50%Q.
  destruct (Z.eqb_spec index 0), (Z.eqb_spec index 1), (Z.eqb_spec index 2),
    (Z.eqb_spec index (total - 1)); simpl orb; cbv iota;
    (split; [set_solver | split; [reflexivity | split; [split |]]]);
    first [ intros H; first [discriminate H | lia]
          | intros H; first [now destruct H | discriminate] ].
Qed.

Lemma main_bonus_constants_witness :
  (50 <= Main.calculateBonusByProfit 5 10
           (Main.Stat.Make "S1" "A B" (Num.Fin 0) 20 1 []))%Q.
Proof.
  apply (proj2 (proj2 (proj2
           (main_bonus_constants 5 10
              (Main.Stat.Make "S1" "A B" (Num.Fin 0) 20 1 [])
              (Main.Stat.Make "S1" "A B" (Num.Fin 0) 20 1 []))))).
  vm_compute. discriminate.
Defined.

(** X4 (the strategy of part_000 on every input).  Whatever the index and the
    total, the strategy of part_000 returns an amount between 0 and 15
    percent of the seller's profit when that profit is not negative, and
    between 15 percent of the profit and 0 when it is not positive: the
    amount never exceeds 15 percent of the profit in absolute value. *)
Theorem part000_bonus_at_most_15_percent (index total : Z)
    (seller : Part000.Stat.t) :
  ((0 <= Part000.Stat.profit seller)%Q ->
   (0 <= Part000.calculateBonusByProfit index total seller)%Q
   /\ (Part000.calculateBonusByProfit index total seller
       <= Part000.Stat.profit seller * 0.15)%Q)
  /\ ((Part000.Stat.profit seller <= 0)%Q ->
      (Part000.Stat.profit seller * 0.15
       <= Part000.calculateBonusByProfit index total seller)%Q
      /\ (Part000.calculateBonusByProfit index total seller <= 0)%Q).
Proof.
  unfold Part000.calculateBonusByProfit, Num.mul.
  generalize (Part000.Stat.profit seller) as p. intros p.
  destruct (index =? 0), ((index =? 1) || (index =? 2)), (index =? total - 1);
    rewrite Qred_correct; split; intros Hp; split; lra.
Qed.

Lemma part000_bonus_at_most_15_percent_witness :
  (0 <= Part000.calculateBonusByProfit 3 5
          (Part000.Stat.Make "S1" "A B" (Part000.RevNumber 0) 20 1 []))%Q
  /\ (Part000.calculateBonusByProfit 3 5
        (Part000.Stat.Make "S1" "A B" (Part000.RevNumber 0) 20 1 [])
      <= 20 * 0.15)%Q.
Proof.
  apply (proj1 (part000_bonus_at_most_15_percent 3 5
           (Part000.Stat.Make "S1" "A B" (Part000.RevNumber 0) 20 1 []))).
  vm_compute; discriminate.
Defined.

(** ** Order of the checks of the validation prologue *)

(** X5 (which error is thrown).  In both revisions the checks are made in
    the order dataset, [purchase_records], [products], [sellers], options,
    revenue strategy, bonus strategy, and the [Error] thrown carries the
    message of the first check that fails, whatever the later checks would
    have found; when no check fails the analysis runs on the three
    collections with the two strategies of the options. *)
Theorem error_of_first_failed_check (d : data_arg)
    (om : Main.options_arg) (op : Part000.options_arg) :
  (forall msg, first_failed (main_checks d om) = Some msg ->
     Main.analyzeSalesData d om = Throw (Error msg))
  /\ (first_failed (main_checks d om) = None ->
      exists calculateRevenue calculateBonusByProfit,
        Main.options_calculateRevenue om = VFunction calculateRevenue
        /\ Main.options_calculateBonusByProfit om = VFunction calculateBonusByProfit
        /\ Main.analyzeSalesData d om
           = Return (Main.finalResult calculateRevenue calculateBonusByProfit
                       (slot_elems (data_sellers d))
                       (slot_elems (data_products d))
                       (slot_elems (data_purchase_records d))))
  /\ (forall msg, first_failed (part000_checks d op) = Some msg ->
        Part000.analyzeSalesData d op = Throw (Error msg))
  /\ (first_failed (part000_checks d op) = None ->
      exists calculateRevenue calculateBonus,
        Part000.options_calculateRevenue op = VFunction calculateRevenue
        /\ Part000.options_calculateBonus op = VFunction calculateBonus
        /\ Part000.analyzeSalesData d op
           = Part000.finalResult calculateRevenue calculateBonus
               (slot_elems (data_sellers d))
               (slot_elems (data_products d))
               (slot_elems (data_purchase_records d))).
Proof.
  unfold Main.analyzeSalesData, Part000.analyzeSalesData,
    main_checks, part000_checks.
  rewrite data_check_spec, !slot_check_spec, main_options_check_spec,
    part000_options_check_spec.
  destruct (dataset_is_record d); cbn [first_failed negb];
    [| repeat split; intros; simplify_eq; reflexivity].
  destruct (nonempty_sequence (data_purchase_records d)); cbn [first_failed negb];
    [| repeat split; intros; simplify_eq; reflexivity].
  destruct (nonempty_sequence (data_products d)); cbn [first_failed negb];
    [| repeat split; intros; simplify_eq; reflexivity].
  destruct (nonempty_sequence (data_sellers d)); cbn [first_failed negb];
    [| repeat split; intros; simplify_eq; reflexivity].
  split; [| split].
  - destruct (MainSpec.options_is_record om); cbn [first_failed negb];
      [| intros; simplify_eq; reflexivity].
    destruct (Main.options_calculateRevenue om); cbn [first_failed invocable];
      try (intros; simplify_eq; reflexivity).
    destruct (Main.options_calculateBonusByProfit om);
      cbn [first_failed invocable]; intros; simplify_eq; reflexivity.
  - destruct (MainSpec.options_is_record om); cbn [first_failed negb];
      [| discriminate].
    destruct (Main.options_calculateRevenue om); cbn [first_failed invocable];
      try discriminate.
    destruct (Main.options_calculateBonusByProfit om);
      cbn [first_failed invocable]; try discriminate.
    intros _. eauto.
  - split.
    + destruct (Part000Spec.options_is_record op); cbn [first_failed negb];
        [| intros; simplify_eq; reflexivity].
      destruct (Part000.options_calculateRevenue op);
        cbn [first_failed invocable]; try (intros; simplify_eq; reflexivity).
      destruct (Part000.options_calculateBonus op);
        cbn [first_failed invocable]; intros; simplify_eq; reflexivity.
    + destruct (Part000Spec.options_is_record op); cbn [first_failed negb];
        [| discriminate].
      destruct (Part000.options_calculateRevenue op);
        cbn [first_failed invocable]; try discriminate.
      destruct (Part000.options_calculateBonus op);
        cbn [first_failed invocable]; try discriminate.
      intros _. eauto.
Qed.

(** A dataset whose [purchase_records] is empty and whose [products] is
    missing, with no options at all: the first failing check is the one on
    [purchase_records]. *)
Lemma error_of_first_failed_check_witness :
  Main.analyzeSalesData
    (DataObject (Arr []) (Other VUndefined) (Arr []))
    (Main.OptionsValue VUndefined)
  = Throw (Error "Отсутствуют или некорректны записи о покупках").
Proof.
  apply (proj1 (error_of_first_failed_check
                  (DataObject (Arr []) (Other VUndefined) (Arr []))
                  (Main.OptionsValue VUndefined)
                  (Part000.OptionsValue VUndefined))).
  reflexivity.
Defined.

(** ** Names and sales counts in the report of main.js *)

Lemma total_count_Permutation (l l' : list Z) :
  l ≡ₚ l' -> total_count l = total_count l'.
Proof.
  unfold total_count.
  induction 1 as [| x l l' _ IH | x y l | l l' l'' _ IH1 _ IH2]; simpl; lia.
Qed.

Lemma total_count_imap_cons {A} (f : nat -> Z) (x : A) (l : list A) :
  total_count (imap (fun k _ => f k) (x :: l))
  = f 0%nat + total_count (imap (fun k _ => f (S k)) l).
Proof. reflexivity. Qed.

Lemma total_count_imap_ext {A} (f g : nat -> Z) (l : list A) :
  (forall k, (k < length l)%nat -> f k = g k) ->
  total_count (imap (fun k _ => f k) l) = total_count (imap (fun k _ => g k) l).
Proof.
  revert f g. induction l as [| x l IH]; intros f g Hfg; [reflexivity |].
  rewrite !total_count_imap_cons. rewrite (Hfg 0%nat) by (simpl; lia).
  f_equal. apply (IH (fun k => f (S k)) (fun k => g (S k))).
  intros k Hk. apply Hfg. simpl. lia.
Qed.

Lemma total_count_imap_bump {A} (f : nat -> Z) (j : nat) (l : list A) :
  (j < length l)%nat ->
  total_count (imap (fun k _ => f k + (if decide (k = j) then 1 else 0)) l)
  = total_count (imap (fun k _ => f k) l) + 1.
Proof.
  revert f j. induction l as [| x l IH]; intros f j Hj; [simpl in Hj; lia |].
  rewrite (total_count_imap_cons
             (fun k => f k + (if decide (k = j) then 1 else 0))),
    (total_count_imap_cons f).
  destruct j as [| j].
  - rewrite decide_True by reflexivity.
    rewrite (total_count_imap_ext
               (fun k => f (S k) + (if decide (S k = 0%nat) then 1 else 0))
               (fun k => f (S k)))
      by (intros k _; rewrite decide_False by lia; lia).
    lia.
  - rewrite decide_False by lia.
    rewrite (total_count_imap_ext
               (fun k => f (S k) + (if decide (S k = S j) then 1 else 0))
               (fun k => f (S k) + (if decide (k = j) then 1 else 0)))
      by (intros k _; destruct (decide (S k = S j)), (decide (k = j)); lia).
    rewrite (IH (fun k => f (S k)) j) by (simpl in Hj; lia). lia.
Qed.

(** Every purchase record whose [seller_id] names a seller is credited to
    exactly one position. *)
Lemma records_of_add_up sellers records :
  total_count
    (imap (fun k _ => Z.of_nat (length (records_of sellers records k))) sellers)
  = Z.of_nat (length (filter (seller_matches sellers) records)).
Proof.
  induction records as [| r records IH].
  - unfold records_of. simpl.
    induction sellers as [| s sellers IHs] using rev_ind; [reflexivity |].
    rewrite imap_app. unfold total_count in *. rewrite foldr_app. simpl.
    exact IHs.
  - rewrite filter_cons.
    destruct (owner sellers (PurchaseRecord.seller_id r)) as [j |] eqn:Hj.
    + rewrite decide_True
        by (unfold seller_matches; apply dec_stable; intros Hn;
            apply owner_None in Hn; congruence).
      cbn [length]. rewrite Nat2Z.inj_succ, <- IH. unfold Z.succ.
      destruct (owner_Some _ _ _ Hj) as (s & Hs & _).
      apply lookup_lt_Some in Hs.
      rewrite <- (total_count_imap_bump
                    (fun k => Z.of_nat (length (records_of sellers records k)))
                    j sellers Hs).
      apply total_count_imap_ext. intros k _.
      unfold records_of. rewrite filter_cons, Hj.
      destruct (decide (Some j = Some k)) as [[= ->] | Hne].
      * rewrite decide_True by reflexivity. cbn [length]. lia.
      * rewrite decide_False by congruence. lia.
    + rewrite decide_False by (now apply owner_None).
      rewrite <- IH. apply total_count_imap_ext. intros k _.
      unfold records_of. rewrite filter_cons, Hj.
      now rewrite decide_False by discriminate.
Qed.


(** ** Entries of the report of main.js, one at a time *)

(** Every entry of the report is the projection of a ranked accumulator,
    and that accumulator is the one of some input seller. *)
Lemma main_report_inv calculateRevenue calculateBonusByProfit
    sellers products records report :
  report ∈ Main.finalResult calculateRevenue calculateBonusByProfit
             sellers products records ->
  exists ranked k seller,
    report = Main.project ranked
    /\ sellers !! k = Some seller
    /\ Main.Ranked.stat ranked
       = main_accumulator calculateRevenue products
           (records_of sellers records k) seller.
Proof.
  unfold Main.finalResult. intros Hin.
  apply list_elem_of_fmap in Hin as (ranked & -> & Hin).
  assert (Hstat : Main.Ranked.stat ranked
                  ∈ map Main.Ranked.stat
                      (Main.ranked calculateRevenue calculateBonusByProfit
                         sellers products records))
    by (apply list_elem_of_fmap; eauto).
  unfold Main.ranked in Hstat. rewrite main_ranked_stats in Hstat.
  unfold Main.sortedSellers in Hstat. rewrite Array_sort_Permutation in Hstat.
  rewrite main_aggregate_imap in Hstat.
  apply elem_of_lookup_imap in Hstat as (k & seller & Heq & Hk).
  eauto 10.
Qed.

Lemma stated_total_snoc records r :
  stated_total (records ++ [r])
  = Num.add_nan (stated_total records)
      (Num.of_property (PurchaseRecord.total_amount r)).
Proof. unfold stated_total. now rewrite map_app, foldl_app. Qed.

Lemma stated_total_NaN records :
  stated_total records = Num.NaN
  <-> exists r, r ∈ records /\ PurchaseRecord.total_amount r = None.
Proof.
  induction records as [| r records IH] using rev_ind.
  - split; [discriminate |]. intros (r & Hr & _). now apply elem_of_nil in Hr.
  - rewrite stated_total_snoc. split.
    + intros Hnan.
      destruct (PurchaseRecord.total_amount r) as [q |] eqn:Hq.
      * destruct (stated_total records) as [x |]; [discriminate |].
        destruct (proj1 IH eq_refl) as (r' & Hr' & Hnone).
        exists r'. split; [| exact Hnone]. apply elem_of_app. now left.
      * exists r. split; [| exact Hq]. apply elem_of_app. right.
        apply list_elem_of_singleton. reflexivity.
    + intros (r' & Hr' & Hnone). apply elem_of_app in Hr' as [Hr' | Hr'].
      * rewrite (proj2 IH) by eauto. reflexivity.
      * apply list_elem_of_singleton in Hr' as ->. rewrite Hnone.
        now destruct (stated_total records).
Qed.

(** X7 (one record without a total makes the revenue NaN).  Every entry of
    the report of main.js belongs to an input seller, and its [revenue] is
    [NaN] exactly when one of the purchase records credited to that seller
    has no [total_amount]; no later record brings it back to a number. *)
Theorem main_revenue_nan_iff_missing_total calculateRevenue calculateBonusByProfit
    sellers products records report :
  report ∈ Main.finalResult calculateRevenue calculateBonusByProfit
             sellers products records ->
  exists k seller,
    sellers !! k = Some seller
    /\ Main.Report.seller_id report = Seller.id seller
    /\ (Main.Report.revenue report = Num.NaN
        <-> exists record,
              record ∈ records_of sellers records k
              /\ PurchaseRecord.total_amount record = None).
Proof.
  intros Hin.
  apply main_report_inv in Hin as (ranked & k & seller & -> & Hk & Hstat).
  exists k, seller. split; [exact Hk |].
  unfold Main.project. cbn [Main.Report.seller_id Main.Report.revenue].
  rewrite Hstat, main_accumulator_fields.
  cbn [Main.Stat.seller_id Main.Stat.revenue]. split; [reflexivity |].
  rewrite <- stated_total_NaN.
  destruct (stated_total (records_of sellers records k)); simpl;
    split; intros H; first [discriminate H | reflexivity].
Qed.

Lemma main_revenue_nan_iff_missing_total_witness :
  exists k seller,
    [Example1.S1] !! k = Some seller
    /\ Main.Report.seller_id
         (Main.project
            (Main.assign_bonus Main.calculateBonusByProfit 1 0
               (main_accumulator calculateSimpleRevenue [Example1.P1]
                  [Example1.record] Example1.S1)))
       = Seller.id seller
    /\ (Main.Report.revenue
          (Main.project
             (Main.assign_bonus Main.calculateBonusByProfit 1 0
                (main_accumulator calculateSimpleRevenue [Example1.P1]
                   [Example1.record] Example1.S1)))
        = Num.NaN
        <-> exists record,
              record ∈ records_of [Example1.S1] [Example1.record] k
              /\ PurchaseRecord.total_amount record = None).
Proof.
  apply (main_revenue_nan_iff_missing_total calculateSimpleRevenue
           Main.calculateBonusByProfit [Example1.S1] [Example1.P1]
           [Example1.record]).
  vm_compute. apply list_elem_of_here.
Defined.

(** ** The bonus of each position in main.js *)

Lemma main_sorted_length calculateRevenue sellers products records :
  length (Main.sortedSellers
            (Main.aggregate calculateRevenue sellers products records))
  = length sellers.
Proof.
  unfold Main.sortedSellers.
  now rewrite Array_sort_length, main_aggregate_imap, length_imap.
Qed.

Lemma main_bonus_of_position_aux calculateRevenue calculateBonusByProfit
    sellers products records i report :
  Main.finalResult calculateRevenue calculateBonusByProfit sellers products records
    !! i = Some report ->
  exists stat,
    Main.sortedSellers (Main.aggregate calculateRevenue sellers products records)
      !! i = Some stat
    /\ Main.Report.bonus report
       = Num.round2
           (Num.mul (Main.Stat.profit stat)
              (calculateBonusByProfit (Z.of_nat i) (Z.of_nat (length sellers)) stat)).
Proof.
  unfold Main.finalResult, Main.ranked, Main.sellersWithBonuses.
  rewrite main_sorted_length.
  change (map Main.project ?l) with (Main.project <$> l).
  rewrite list_lookup_fmap, list_lookup_imap.
  destruct (Main.sortedSellers _ !! i) as [stat |]; [| discriminate].
  intros [= <-]. exists stat. repeat split.
Qed.

Lemma mul_zero_r (x : Q) : Num.mul x 0 = 0%Q.
Proof.
  unfold Num.mul. transitivity (Qred 0); [| reflexivity].
  apply Qred_complete. ring.
Qed.

(** X9 (main.js with its own strategy).  On purchase records that use no
    key inherited from [Object.prototype], main.js run with the
    [calculateBonusByProfit] it exports returns a report whose first entry
    has, as bonus, the rounding of 150 times the unrounded profit of the
    accumulator ranked first, whose second and third entries have the
    rounding of 100 times theirs, and whose last entry, when there are four
    or more sellers, has bonus 0 (its profit, a finite number on such
    records, times the rate 0). *)
Theorem main_bonus_with_own_strategy calculateRevenue sellers products records :
  plain_keys records ->
  exists sorted ranked reports,
    MainProto.ranked calculateRevenue MainProto.calculateBonusByProfit
      sellers products records
    = Return ranked
    /\ map MainProto.Ranked.stat ranked = map main_lift sorted
    /\ MainProto.finalResult calculateRevenue MainProto.calculateBonusByProfit
         sellers products records
       = Return reports
    /\ length reports = length sellers
    /\ forall i report stat,
         reports !! i = Some report -> sorted !! i = Some stat ->
         (i = 0%nat ->
          MainProto.Report.bonus report
          = Num.Fin (Num.round2 (Num.mul (Main.Stat.profit stat) 150)))
         /\ (i = 1%nat \/ i = 2%nat ->
             MainProto.Report.bonus report
             = Num.Fin (Num.round2 (Num.mul (Main.Stat.profit stat) 100)))
         /\ ((3 <= i)%nat -> S i = length sellers ->
             MainProto.Report.bonus report = Num.Fin 0).
Proof.
  intros Hplain.
  exists (Main.sortedSellers
            (Main.aggregate (own_products calculateRevenue) sellers products records)).
  do 2 eexists.
  split; [now apply main_proto_ranked |].
  split.
  { apply list_eq. intros i.
    change (map MainProto.Ranked.stat ?l) with (MainProto.Ranked.stat <$> l).
    rewrite list_lookup_fmap, list_lookup_imap.
    now destruct (map main_lift _ !! i). }
  split; [now apply main_proto_finalResult |].
  split.
  { rewrite length_map, length_imap, length_map. apply main_sorted_length. }
  intros i report stat Hreport Hstat.
  change (map MainProto.project ?l) with (MainProto.project <$> l) in Hreport.
  change (map main_lift ?l) with (main_lift <$> l) in Hreport.
  rewrite list_lookup_fmap, list_lookup_imap, list_lookup_fmap, Hstat in Hreport.
  injection Hreport as <-.
  unfold MainProto.project, MainProto.assign_bonus, MainProto.calculateBonusByProfit.
  cbn [MainProto.Report.bonus MainProto.Ranked.bonus MainProto.Stat.profit main_lift].
  split; [| split].
  - intros ->. reflexivity.
  - intros [-> | ->]; reflexivity.
  - intros H3 Hlast.
    destruct (Z.eqb_spec (Z.of_nat i) 0); [lia |].
    destruct (Z.eqb_spec (Z.of_nat i) 1); [lia |].
    destruct (Z.eqb_spec (Z.of_nat i) 2); [lia |].
    destruct (Z.eqb_spec (Z.of_nat i) (Z.of_nat (length sellers) - 1)); [| lia].
    simpl orb. cbv iota. change (Num.mul 0.0 1000) with 0%Q.
    cbn [Num.mul_nan Num.round2_nan]. rewrite mul_zero_r. reflexivity.
Qed.

Lemma main_bonus_with_own_strategy_witness :
  exists sorted ranked reports,
    MainProto.ranked MainProto.calculateSimpleRevenue MainProto.calculateBonusByProfit
      Example15.sellers [Example1.P1] Example15.records
    = Return ranked
    /\ map MainProto.Ranked.stat ranked = map main_lift sorted
    /\ MainProto.finalResult MainProto.calculateSimpleRevenue
         MainProto.calculateBonusByProfit Example15.sellers [Example1.P1]
         Example15.records
       = Return reports
    /\ length reports = length Example15.sellers
    /\ forall i report stat,
         reports !! i = Some report -> sorted !! i = Some stat ->
         (i = 0%nat ->
          MainProto.Report.bonus report
          = Num.Fin (Num.round2 (Num.mul (Main.Stat.profit stat) 150)))
         /\ (i = 1%nat \/ i = 2%nat ->
             MainProto.Report.bonus report
             = Num.Fin (Num.round2 (Num.mul (Main.Stat.profit stat) 100)))
         /\ ((3 <= i)%nat -> S i = length Example15.sellers ->
             MainProto.Report.bonus report = Num.Fin 0).
Proof.
  apply (main_bonus_with_own_strategy MainProto.calculateSimpleRevenue
           Example15.sellers [Example1.P1] Example15.records).
  repeat constructor.
Defined.

Lemma main_rate_nonneg index total seller :
  (0 <= Main.calculateBonusByProfit index total seller)%Q.
Proof.
  unfold Main.calculateBonusByProfit.
  destruct (index =? 0), ((index =? 1) || (index =? 2)), (index =? total - 1);
    vm_compute; discriminate.
Qed.

(** X10 (the sign of the bonus in main.js).  With the strategy main.js
    exports, the bonus is never clamped: the entry of a seller whose
    unrounded profit is not negative has a bonus that is not negative, and
    the entry of a seller whose unrounded profit is not positive (a loss) has
    a bonus that is not positive. *)
Theorem main_bonus_has_the_sign_of_profit calculateRevenue sellers products
    records i report :
  Main.finalResult calculateRevenue Main.calculateBonusByProfit
    sellers products records !! i = Some report ->
  exists stat,
    Main.sortedSellers (Main.aggregate calculateRevenue sellers products records)
      !! i = Some stat
    /\ ((0 <= Main.Stat.profit stat)%Q -> (0 <= Main.Report.bonus report)%Q)
    /\ ((Main.Stat.profit stat <= 0)%Q -> (Main.Report.bonus report <= 0)%Q).
Proof.
  intros Hi.
  destruct (main_bonus_of_position_aux calculateRevenue Main.calculateBonusByProfit
              sellers products records i report Hi)
    as (stat & Hstat & Hbonus).
  exists stat. split; [exact Hstat |]. rewrite Hbonus.
  pose proof (main_rate_nonneg (Z.of_nat i) (Z.of_nat (length sellers)) stat)
    as Hrate.
  change 0%Q with (Num.round2 0) at 2 4.
  split; intros Hp; apply round2_mono; unfold Num.mul; rewrite Qred_correct; nra.
Qed.

Lemma main_bonus_has_the_sign_of_profit_witness :
  exists stat,
    Main.sortedSellers
      (Main.aggregate calculateSimpleRevenue [Example1.S1] [Example1.P1]
         [Example1.record]) !! 0%nat = Some stat
    /\ ((0 <= Main.Stat.profit stat)%Q ->
        (0 <= Main.Report.bonus
                (Main.project
                   (Main.assign_bonus Main.calculateBonusByProfit 1 0
                      (main_accumulator calculateSimpleRevenue [Example1.P1]
                         [Example1.record] Example1.S1))))%Q)
    /\ ((Main.Stat.profit stat <= 0)%Q ->
        (Main.Report.bonus
           (Main.project
              (Main.assign_bonus Main.calculateBonusByProfit 1 0
                 (main_accumulator calculateSimpleRevenue [Example1.P1]
                    [Example1.record] Example1.S1))) <= 0)%Q).
Proof.
  apply (main_bonus_has_the_sign_of_profit calculateSimpleRevenue
           [Example1.S1] [Example1.P1] [Example1.record] 0%nat).
  vm_compute. reflexivity.
Defined.

(** ** Sellers that are never credited *)

Lemma owner_snoc sellers seller id :
  owner (sellers ++ [seller]) id
  = if decide (Seller.id seller = id) then Some (length sellers)
    else owner sellers id.
Proof.
  unfold owner. rewrite imap_app. cbn [imap]. rewrite last_with_snoc.
  cbn [snd]. destruct (decide (Seller.id seller = id)); [| reflexivity].
  simpl. f_equal. lia.
Qed.

(** A seller id refers to the last seller carrying it. *)
Lemma owner_is_last sellers id k j seller :
  owner sellers id = Some k -> sellers !! j = Some seller ->
  Seller.id seller = id -> (j <= k)%nat.
Proof.
  revert k j seller. induction sellers as [| s sellers IH] using rev_ind;
    intros k j seller Hk Hj Hid; [discriminate Hj |].
  rewrite owner_snoc in Hk.
  apply lookup_lt_Some in Hj as Hlt. rewrite length_app in Hlt. simpl in Hlt.
  destruct (decide (Seller.id s = id)) as [Hs | Hs].
  - injection Hk as <-. lia.
  - destruct (decide (j = length sellers)) as [-> | Hne].
    + rewrite list_lookup_middle in Hj by reflexivity. injection Hj as ->.
      contradiction.
    + rewrite lookup_app_l in Hj by lia. eapply IH; eauto.
Qed.

Lemma filter_none {A} (P : A -> Prop) `{!forall x, Decision (P x)} (l : list A) :
  (forall x, x ∈ l -> ~ P x) -> filter P l = [].
Proof.
  induction l as [| x l IH]; intros Hl; [reflexivity |].
  rewrite filter_cons, decide_False by (apply Hl; left).
  apply IH. intros y Hy. apply Hl. now right.
Qed.

Lemma mul_zero_l (x : Q) : Num.mul 0 x = 0%Q.
Proof.
  unfold Num.mul. transitivity (Qred 0); [| reflexivity].
  apply Qred_complete. ring.
Qed.

(** A seller to which no purchase record is credited. *)
Lemma main_uncredited_seller calculateRevenue calculateBonusByProfit
    sellers products records k seller :
  sellers !! k = Some seller -> records_of sellers records k = [] ->
  Main.aggregate calculateRevenue sellers products records !! k
  = Some (Main.new_stat seller)
  /\ exists report,
       report ∈ Main.finalResult calculateRevenue calculateBonusByProfit
                  sellers products records
       /\ Main.Report.seller_id report = Seller.id seller
       /\ Main.Report.name report
          = Seller.first_name seller +:+ " " +:+ Seller.last_name seller
       /\ Main.Report.revenue report = Num.Fin 0
       /\ Main.Report.profit report = 0%Q
       /\ Main.Report.sales_count report = 0
       /\ Main.Report.top_products report = []
       /\ Main.Report.bonus report = 0%Q.
Proof.
  intros Hk Hnone.
  assert (Hacc : Main.aggregate calculateRevenue sellers products records !! k
                 = Some (Main.new_stat seller)).
  { rewrite main_aggregate_imap, list_lookup_imap, Hk. simpl.
    now rewrite Hnone. }
  split; [exact Hacc |].
  assert (Hin : Main.new_stat seller
                ∈ Main.sortedSellers
                    (Main.aggregate calculateRevenue sellers products records)).
  { unfold Main.sortedSellers. rewrite Array_sort_Permutation.
    eapply list_elem_of_lookup_2, Hacc. }
  apply list_elem_of_lookup_1 in Hin as [i Hi].
  exists (Main.project
            (Main.assign_bonus calculateBonusByProfit
               (Z.of_nat (length (Main.sortedSellers
                  (Main.aggregate calculateRevenue sellers products records))))
               i (Main.new_stat seller))).
  split.
  - apply list_elem_of_lookup_2 with i.
    unfold Main.finalResult, Main.ranked, Main.sellersWithBonuses.
    change (map Main.project ?l) with (Main.project <$> l).
    now rewrite list_lookup_fmap, list_lookup_imap, Hi.
  - unfold Main.project, Main.assign_bonus, Main.new_stat.
    cbn [Main.Report.seller_id Main.Report.name Main.Report.revenue
         Main.Report.profit Main.Report.sales_count Main.Report.top_products
         Main.Report.bonus Main.Ranked.stat Main.Ranked.bonus
         Main.Ranked.top_products Main.Stat.seller_id Main.Stat.name
         Main.Stat.revenue Main.Stat.profit Main.Stat.sales_count].
    rewrite mul_zero_l. repeat split.
Qed.





(** ** Products that share a SKU *)

Lemma catalog_last products1 product products2 :
  Product.sku product ∉ map Product.sku products2 ->
  catalog (products1 ++ product :: products2) (Product.sku product) = Some product.
Proof.
  intros Hnot. unfold catalog, last_with.
  rewrite filter_app, filter_cons, decide_True by reflexivity.
  rewrite (filter_none _ products2).
  - apply last_snoc.
  - intros p Hp Hsku. apply Hnot. apply list_elem_of_fmap. eauto.
Qed.

Lemma add_nan_NaN (x : Num.t) : Num.add_nan x Num.NaN = Num.NaN.
Proof. now destruct x. Qed.

(** X13 (what [productIndex[item.sku]] reads).  In both revisions the read
    gives the last product that carries the SKU when there is one; otherwise
    it gives a built-in object when the SKU is a property name of
    [Object.prototype], and [undefined] when it is not.  In main.js a line
    item is accordingly priced with the [purchase_price] of the last product
    of its SKU; a line item whose SKU no product carries leaves the
    accumulator as it is when the SKU is not inherited, and turns the
    seller's profit into [NaN] when it is. *)
Theorem productIndex_keeps_last_product products sku :
  (sku ∉ map Product.sku products ->
   read (MainProto.productIndex products !! sku) sku
   = (if inherited sku then Builtin sku else Absent)
   /\ read (Part000Proto.productIndex products !! sku) sku
      = (if inherited sku then Builtin sku else Absent)
   /\ forall calculateRevenue seller item,
        Item.sku item = sku ->
        (inherited sku = false ->
         MainProto.process_item calculateRevenue (MainProto.productIndex products)
           seller item
         = seller)
        /\ (inherited sku = true ->
            MainProto.Stat.profit
              (MainProto.process_item calculateRevenue
                 (MainProto.productIndex products) seller item)
            = Num.NaN))
  /\ (forall products1 product products2,
        products = products1 ++ product :: products2 ->
        Product.sku product = sku ->
        sku ∉ map Product.sku products2 ->
        read (MainProto.productIndex products !! sku) sku = Own product
        /\ read (Part000Proto.productIndex products !! sku) sku = Own product
        /\ forall calculateRevenue seller item,
             Item.sku item = sku ->
             MainProto.Stat.profit
               (MainProto.process_item calculateRevenue
                  (MainProto.productIndex products) seller item)
             = Num.add_nan (MainProto.Stat.profit seller)
                 (Num.Fin
                    (Num.sub (calculateRevenue item (Catalogued product))
                       (Num.mul (Product.purchase_price product)
                          (Item.quantity item))))).
Proof.
  change (MainProto.productIndex products) with (Main.productIndex products).
  change (Part000Proto.productIndex products) with (Part000.productIndex products).
  rewrite productIndex_catalog_main, productIndex_catalog_part000. split.
  - intros Hnot. rewrite (proj2 (catalog_None products sku) Hnot).
    split; [reflexivity |]. split; [reflexivity |].
    intros calculateRevenue seller item Hsku.
    unfold MainProto.process_item.
    rewrite productIndex_catalog_main, Hsku, (proj2 (catalog_None products sku) Hnot).
    unfold read. split; intros ->; [reflexivity |].
    unfold MainProto.credit_builtin. cbn [MainProto.Stat.profit].
    apply add_nan_NaN.
  - intros products1 product products2 -> <- Hnot.
    rewrite !catalog_last by exact Hnot.
    repeat split. intros calculateRevenue seller item Hsku.
    unfold MainProto.process_item.
    rewrite productIndex_catalog_main, Hsku, catalog_last by exact Hnot.
    reflexivity.
Qed.

Lemma productIndex_keeps_last_product_witness :
  read (MainProto.productIndex
          [Product.Make "P1" "Widget" 10; Product.Make "P1" "Gadget" 12] !! "P1")
    "P1"
  = Own (Product.Make "P1" "Gadget" 12)
  /\ read (MainProto.productIndex
             [Product.Make "P1" "Widget" 10; Product.Make "P1" "Gadget" 12]
           !! "constructor")
       "constructor"
     = (if inherited "constructor" then Builtin "constructor" else Absent).
Proof.
  split.
  - refine (proj1 (proj2 (productIndex_keeps_last_product
              [Product.Make "P1" "Widget" 10; Product.Make "P1" "Gadget" 12] "P1")
              [Product.Make "P1" "Widget" 10] (Product.Make "P1" "Gadget" 12) []
              eq_refl eq_refl _)).
    simpl. apply not_elem_of_nil.
  - refine (proj1 (proj1 (productIndex_keeps_last_product
              [Product.Make "P1" "Widget" 10; Product.Make "P1" "Gadget" 12]
              "constructor") _)).
    simpl. intros Hin. apply elem_of_cons in Hin as [Hin | Hin]; [discriminate Hin |].
    apply elem_of_cons in Hin as [Hin | Hin]; [discriminate Hin |].
    now apply elem_of_nil in Hin.
Defined.

(** ** When part_000 returns a report *)

Lemma lines_of_nil products items :
  (forall item, item ∈ items -> ~ sku_matches products item) ->
  lines_of products items = [].
Proof.
  induction items as [| item items IH]; intros Hno; [reflexivity |].
  rewrite lines_of_cons.
  rewrite (proj2 (catalog_None products (Item.sku item))) by (apply Hno; left).
  apply IH. intros x Hx. apply Hno. now right.
Qed.

Lemma sold_lines_nil products records :
  (forall record item,
     record ∈ records -> item ∈ PurchaseRecord.items record ->
     ~ sku_matches products item) ->
  sold_lines products records = [].
Proof.
  induction records as [| r records IH]; intros Hno; [reflexivity |].
  rewrite sold_lines_cons, lines_of_nil by (intros x Hx; apply (Hno r); [left | exact Hx]).
  apply IH. intros record item Hr. apply Hno. now right.
Qed.

Lemma elem_of_records_of sellers records k record :
  record ∈ records_of sellers records k
  <-> record ∈ records /\ owner sellers (PurchaseRecord.seller_id record) = Some k.
Proof. unfold records_of. rewrite list_elem_of_filter. tauto. Qed.

Lemma append_string_keeps_string (l : list string) v :
  is_string v = true -> is_string (foldl Part000.append_string v l) = true.
Proof.
  revert v. induction l as [| s l IH]; intros v Hv; [exact Hv |].
  simpl. apply IH. now destruct v.
Qed.

Lemma part000_revenue_number calculateRevenue products records seller z :
  Part000.Stat.revenue (part000_accumulator calculateRevenue products records seller)
  = Part000.RevNumber z ->
  sold_lines products records = [].
Proof.
  rewrite part000_accumulator_fields. cbn [Part000.Stat.revenue].
  destruct (sold_lines products records) as [| line lines]; [reflexivity |].
  intros Hz. exfalso.
  assert (Hs : is_string
                 (foldl Part000.append_string (Part000.RevNumber 0)
                    (map (fun line => Num.toFixed2 (line_revenue calculateRevenue line))
                       (line :: lines))) = true)
    by (simpl; now apply append_string_keeps_string).
  rewrite Hz in Hs. discriminate Hs.
Qed.

Lemma Array_map_throwing_all {A B} (f : A -> result B) (l : list A) :
  (forall x, x ∈ l -> exists y, f x = Return y) ->
  exists out, Array_map_throwing f l = Return out.
Proof.
  induction l as [| x l IH]; intros Hall; simpl; [eauto |].
  destruct (Hall x) as [y ->]; [left |].
  destruct IH as [out ->]; [intros z Hz; apply Hall; now right |]. eauto.
Qed.

(** On plain keys every accumulator of part_000 after the bonus pass is the
    accumulator of some input seller, with the products listed from it. *)
Lemma part000_proto_ranked_inv calculateRevenue calculateBonus
    sellers products records x :
  x ∈ imap (Part000Proto.assign_bonus calculateBonus (Z.of_nat (length sellers)))
        (map part000_lift
           (Part000.sortedSellers
              (Part000.aggregate calculateRevenue sellers products records))) ->
  exists k seller,
    sellers !! k = Some seller
    /\ Part000Proto.Ranked.stat x
       = part000_lift
           (part000_accumulator calculateRevenue products
              (records_of sellers records k) seller)
    /\ Part000Proto.Ranked.top_products x
       = Part000Proto.top_products_of (Part000Proto.Ranked.stat x).
Proof.
  intros Hx.
  apply elem_of_lookup_imap_1 in Hx as (i & stat' & -> & Hi).
  change (map part000_lift ?l) with (part000_lift <$> l) in Hi.
  rewrite list_lookup_fmap in Hi.
  destruct (Part000.sortedSellers _ !! i) as [stat |] eqn:Hstat; [| discriminate].
  injection Hi as <-.
  apply list_elem_of_lookup_2 in Hstat.
  unfold Part000.sortedSellers in Hstat. rewrite Array_sort_Permutation in Hstat.
  rewrite part000_aggregate_imap in Hstat.
  apply elem_of_lookup_imap_1 in Hstat as (k & seller & -> & Hk).
  exists k, seller. repeat split. exact Hk.
Qed.

Lemma part000_proto_accumulator_ranked calculateRevenue calculateBonus
    sellers products records k seller :
  sellers !! k = Some seller ->
  exists i x,
    imap (Part000Proto.assign_bonus calculateBonus (Z.of_nat (length sellers)))
      (map part000_lift
         (Part000.sortedSellers
            (Part000.aggregate calculateRevenue sellers products records))) !! i
    = Some x
    /\ Part000Proto.Ranked.stat x
       = part000_lift
           (part000_accumulator calculateRevenue products
              (records_of sellers records k) seller).
Proof.
  intros Hk.
  assert (Hacc : part000_accumulator calculateRevenue products
                   (records_of sellers records k) seller
                 ∈ Part000.sortedSellers
                     (Part000.aggregate calculateRevenue sellers products records)).
  { unfold Part000.sortedSellers. rewrite Array_sort_Permutation.
    rewrite part000_aggregate_imap. apply elem_of_lookup_imap. eauto. }
  apply list_elem_of_lookup_1 in Hacc as [i Hi].
  exists i. eexists. split.
  - change (map part000_lift ?l) with (part000_lift <$> l).
    rewrite list_lookup_imap, list_lookup_fmap, Hi. reflexivity.
  - reflexivity.
Qed.

Lemma part000_proto_returns calculateRevenue calculateBonus sellers products records :
  sellers <> [] -> products <> [] -> records <> [] ->
  Part000Proto.analyzeSalesData
    (DataObject (Arr records) (Arr products) (Arr sellers))
    (Part000Proto.OptionsObject (VFunction calculateRevenue)
       (VFunction calculateBonus))
  = Part000Proto.finalResult calculateRevenue calculateBonus sellers products records.
Proof.
  destruct sellers, products, records; try congruence. reflexivity.
Qed.

(** X14 (part_000 returns a report only when nothing was sold).  On a
    validated input whose purchase records use no key inherited from
    [Object.prototype], part_000 returns a report exactly when no purchase
    record that matches a seller carries a line item that matches a product;
    the report then has one entry per input seller, each with revenue 0,
    profit 0 and no top products. *)
Theorem part000_returns_iff_nothing_sold calculateRevenue calculateBonus
    sellers products records :
  plain_keys records ->
  sellers <> [] -> products <> [] -> records <> [] ->
  ((exists reports,
      Part000Proto.analyzeSalesData
        (DataObject (Arr records) (Arr products) (Arr sellers))
        (Part000Proto.OptionsObject (VFunction calculateRevenue)
           (VFunction calculateBonus))
      = Return reports)
   <-> (forall record item,
          record ∈ records -> seller_matches sellers record ->
          item ∈ PurchaseRecord.items record -> ~ sku_matches products item))
  /\ (forall reports,
        Part000Proto.analyzeSalesData
          (DataObject (Arr records) (Arr products) (Arr sellers))
          (Part000Proto.OptionsObject (VFunction calculateRevenue)
             (VFunction calculateBonus))
        = Return reports ->
        length reports = length sellers
        /\ Forall (fun report =>
                     Part000Proto.Report.revenue report = 0%Q
                     /\ Part000Proto.Report.profit report = Num.Fin 0
                     /\ Part000Proto.Report.top_products report = [])
             reports).
Proof.
  intros Hplain Hs Hp Hr. rewrite part000_proto_returns by assumption.
  unfold Part000Proto.finalResult.
  rewrite part000_proto_ranked by exact Hplain.
  set (cr := own_products calculateRevenue).
  assert (Hnumber : forall reports,
    Array_map_throwing Part000Proto.project
      (imap (Part000Proto.assign_bonus calculateBonus (Z.of_nat (length sellers)))
         (map part000_lift
            (Part000.sortedSellers (Part000.aggregate cr sellers products records))))
    = Return reports ->
    forall k seller, sellers !! k = Some seller ->
      sold_lines products (records_of sellers records k) = []).
  { intros reports Hret k seller Hk.
    destruct (part000_proto_accumulator_ranked cr calculateBonus
                sellers products records k seller Hk) as (i & x & Hx & Hstat).
    apply Array_map_throwing_Return in Hret.
    destruct (Forall2_lookup_l _ _ _ _ _ Hret Hx) as (y & _ & Hy).
    unfold Part000Proto.project in Hy. rewrite Hstat in Hy.
    cbn [part000_lift Part000Proto.Stat.revenue] in Hy.
    destruct (Part000.Stat.revenue _) as [z | s] eqn:Hrev; [| discriminate Hy].
    eapply part000_revenue_number, Hrev. }
  split; [split |].
  - intros [reports Hret] record item Hrec Hsel Hitem Hsku.
    destruct (owner sellers (PurchaseRecord.seller_id record)) as [k |] eqn:Hk;
      [| apply owner_None in Hk; contradiction].
    destruct (owner_Some _ _ _ Hk) as (seller & Hlookup & _).
    pose proof (Hnumber reports Hret k seller Hlookup) as Hnil.
    destruct (catalog products (Item.sku item)) as [product |] eqn:Hc;
      [| apply catalog_None in Hc; contradiction].
    assert (Hin : (item, product)
                  ∈ sold_lines products (records_of sellers records k)).
    { unfold sold_lines. apply list_elem_of_bind. exists record. split.
      - unfold lines_of. apply list_elem_of_bind. exists item.
        split; [| exact Hitem]. rewrite Hc. apply list_elem_of_here.
      - apply elem_of_records_of. split; assumption. }
    rewrite Hnil in Hin. now apply elem_of_nil in Hin.
  - intros Hno. apply Array_map_throwing_all. intros x Hx.
    apply part000_proto_ranked_inv in Hx as (k & seller & Hk & Hstat & _).
    unfold Part000Proto.project. rewrite Hstat, part000_accumulator_fields.
    cbn [part000_lift Part000Proto.Stat.revenue Part000.Stat.revenue].
    rewrite sold_lines_nil; [simpl; eauto |].
    intros record item Hrec Hitem.
    apply elem_of_records_of in Hrec as [Hrec Hown].
    apply (Hno record item Hrec); [| exact Hitem].
    unfold seller_matches. apply dec_stable. intros Hn.
    apply owner_None in Hn. congruence.
  - intros reports Hret. pose proof (Hnumber reports Hret) as Hnil.
    apply Array_map_throwing_Return in Hret. split.
    + rewrite <- (Forall2_length _ _ _ Hret).
      rewrite length_imap, length_map. unfold Part000.sortedSellers.
      now rewrite Array_sort_length, part000_aggregate_length.
    + eapply Forall2_Forall_r; [exact Hret |].
      apply Forall_forall. intros x Hx y Hy.
      apply part000_proto_ranked_inv in Hx as (k & seller & Hk & Hstat & Htop).
      unfold Part000Proto.project in Hy. rewrite Htop, Hstat in Hy.
      rewrite part000_accumulator_fields, (Hnil k seller Hk) in Hy.
      simpl in Hy. injection Hy as <-. repeat split.
Qed.

(** A purchase record of a known seller whose only line item names an
    unknown SKU. *)
Lemma part000_returns_iff_nothing_sold_witness :
  (exists reports,
     Part000Proto.analyzeSalesData
       (DataObject
          (Arr [PurchaseRecord.Make "S1" None [Example4.unknown_line]])
          (Arr [Example1.P1]) (Arr [Example1.S1]))
       (Part000Proto.OptionsObject (VFunction Part000Proto.calculateSimpleRevenue)
          (VFunction Part000Proto.calculateBonusByProfit))
     = Return reports)
  <-> (forall record item,
         record ∈ [PurchaseRecord.Make "S1" None [Example4.unknown_line]] ->
         seller_matches [Example1.S1] record ->
         item ∈ PurchaseRecord.items record ->
         ~ sku_matches [Example1.P1] item).
Proof.
  apply (part000_returns_iff_nothing_sold Part000Proto.calculateSimpleRevenue
           Part000Proto.calculateBonusByProfit [Example1.S1] [Example1.P1]
           [PurchaseRecord.Make "S1" None [Example4.unknown_line]]);
    [repeat constructor | discriminate ..].
Defined.

(** ** The revenue text of part_000 *)

Lemma append_assoc (a b c : string) : (a +:+ b) +:+ c = a +:+ (b +:+ c).
Proof.
  induction a as [| x a IH]; [reflexivity |].
  change (String x ((a +:+ b) +:+ c) = String x (a +:+ (b +:+ c))).
  now rewrite IH.
Qed.

Lemma append_string_text (l : list string) (t : string) :
  foldl Part000.append_string (Part000.RevString t) l
  = Part000.RevString (t +:+ foldr String.append "" l).
Proof.
  revert t. induction l as [| s l IH]; intros t;
    cbn [foldl foldr Part000.append_string].
  - f_equal. induction t as [| x t IHt]; [reflexivity |].
    change (String x t = String x (t +:+ "")). now rewrite <- IHt.
  - now rewrite IH, append_assoc.
Qed.

(** X17 (what part_000 keeps as revenue).  On purchase records that use no
    key inherited from [Object.prototype] and whose line revenues are below
    [10^21] in magnitude (where [toFixed] switches to the exponent notation),
    the record loop of part_000 ends with one accumulator per input seller;
    its revenue is still the number 0 when no line item was credited to the
    seller, and otherwise it is a text: the digit 0 followed by the
    two-decimal renderings of the revenues of the credited lines in the order
    of the input, never their sum. *)
Theorem part000_revenue_is_a_concatenation calculateRevenue sellers products
    records :
  plain_keys records ->
  Forall (fun record =>
            Forall (fun item =>
                      forall product,
                        (Qabs (calculateRevenue item (Catalogued product))
                         < 1000000000000000000000)%Q)
              (PurchaseRecord.items record))
    records ->
  exists accumulators,
    Part000Proto.aggregate calculateRevenue sellers products records
    = Return accumulators
    /\ length accumulators = length sellers
    /\ forall k seller,
         sellers !! k = Some seller ->
         exists stat,
           accumulators !! k = Some stat
           /\ Part000Proto.Stat.seller_id stat = Seller.id seller
           /\ Part000Proto.Stat.revenue stat
              = match sold_lines products (records_of sellers records k) with
                | [] => Part000.RevNumber 0
                | lines =>
                    Part000.RevString
                      ("0" +:+ foldr String.append ""
                                 (map (fun line =>
                                         Num.toFixed2
                                           (calculateRevenue (fst line)
                                              (Catalogued (snd line))))
                                    lines))
                end.
Proof.
  intros Hplain _. eexists. split; [now apply part000_proto_aggregate |].
  split; [rewrite length_map; apply part000_aggregate_length |].
  intros k seller Hk. rewrite part000_aggregate_imap.
  change (map part000_lift ?l) with (part000_lift <$> l).
  rewrite list_lookup_fmap, list_lookup_imap, Hk. simpl.
  eexists. split; [reflexivity |].
  rewrite part000_accumulator_fields.
  cbn [part000_lift Part000Proto.Stat.seller_id Part000Proto.Stat.revenue
       Part000.Stat.seller_id Part000.Stat.revenue].
  split; [reflexivity |].
  destruct (sold_lines products (records_of sellers records k))
    as [| line lines]; [reflexivity |].
  cbn [map foldl]. unfold Part000.append_string at 2.
  rewrite append_string_text. reflexivity.
Qed.

Lemma part000_revenue_is_a_concatenation_witness :
  exists accumulators,
    Part000Proto.aggregate Part000Proto.calculateSimpleRevenue [Example1.S1]
      [Example1.P1] [Example8.record]
    = Return accumulators
    /\ length accumulators = length [Example1.S1]
    /\ forall k seller,
         [Example1.S1] !! k = Some seller ->
         exists stat,
           accumulators !! k = Some stat
           /\ Part000Proto.Stat.seller_id stat = Seller.id seller
           /\ Part000Proto.Stat.revenue stat
              = match sold_lines [Example1.P1]
                        (records_of [Example1.S1] [Example8.record] k) with
                | [] => Part000.RevNumber 0
                | lines =>
                    Part000.RevString
                      ("0" +:+ foldr String.append ""
                                 (map (fun line =>
                                         Num.toFixed2
                                           (Part000Proto.calculateSimpleRevenue
                                              (fst line) (Catalogued (snd line))))
                                    lines))
                end.
Proof.
  apply (part000_revenue_is_a_concatenation Part000Proto.calculateSimpleRevenue
           [Example1.S1] [Example1.P1] [Example8.record]).
  - repeat constructor.
  - repeat constructor; intros product; vm_compute; reflexivity.
Defined.
